(** * Moodflo V2 backend: session coordinator, fallback insights, report export

    A shallow embedding of

    - [backend/core/insights_generator.py]   (rule-based fallback suggestions),
    - [backend/modules/report_generator.py]  (JSON export and the PDF story),
    - [backend/app.py]                       (the FastAPI handlers over
                                              [active_sessions]),

    followed by the properties proved about them.  The handlers are modelled
    as they run when requests are served one after the other: a handler is a
    function from the world (session map and file system) to its response, the
    new world and the trace of calls it made to the external services.
    [analyze_meeting] is also modelled as the coroutine it is, cut at its
    [await]s, to run several calls interleaved. *)

From stdpp Require Import gmap strings list fin_maps pretty.
From Stdlib Require Import String Ascii ZArith QArith.
Close Scope Q_scope.
#[local] Set Warnings "-clear-no-such-hyp".

(* ===================================================================== *)
(** * Part I: definitions                                                 *)
(* ===================================================================== *)

(** ** Python strings

    A [str] is modelled by the bytes of its UTF-8 encoding.  All the patterns
    the code searches for are ASCII, and UTF-8 is self-synchronising, so byte
    containment and code-point containment agree for them. *)

Module PyStr.

(** ["\n"] *)
Definition nl : string := String (ascii_of_nat 10) EmptyString.

(** [pat in s] *)
Fixpoint contains (pat s : string) : bool :=
  String.prefix pat s ||
  match s with
  | EmptyString => false
  | String _ rest => contains pat rest
  end.

(** [sep.join(xs)] *)
Definition join (sep : string) (xs : list string) : string :=
  String.concat sep xs.

(** [s.split("\n")] *)
Fixpoint split_lines (s : string) : list string :=
  match s with
  | EmptyString => [EmptyString]
  | String c rest =>
      if Ascii.eqb c (ascii_of_nat 10) then EmptyString :: split_lines rest
      else match split_lines rest with
           | l :: ls => String c l :: ls
           | [] => [String c EmptyString]
           end
  end.

(** [s[:n]] *)
Definition slice_to (n : nat) (s : string) : string := String.substring 0 n s.

(** [f"{n:02d}"] for a non-negative integer. *)
Definition fmt_02d (n : Z) : string :=
  if (n <? 10)%Z then "0" +:+ pretty n else pretty n.

End PyStr.

(** ** Python floats

    The code never computes with the metrics: it stores them, forwards them and
    formats them.  The carrier and its few operations are therefore an
    interface; [Tenths] below is an instance used to run the model. *)

Class PyFloat (num : Type) := {
  (** the float of an [int] literal *)
  of_int : Z → num;
  (** [f"{x:.1f}"] *)
  fmt_1f : num → string;
  (** [f"{x:.2f}"] *)
  fmt_2f : num → string;
  (** [int(x // d)] *)
  int_floordiv : num → Z → Z;
  (** [int(x % d)] *)
  int_mod : num → Z → Z
}.

(** Decimal numbers with one digit after the point, held as their number of
    tenths: [425] is [42.5]. *)
Module Tenths.

Definition show_1f (x : Z) : string :=
  (if (x <? 0)%Z then "-" else EmptyString)
  +:+ pretty (Z.abs x / 10)%Z +:+ "." +:+ pretty (Z.abs x mod 10)%Z.

Definition show_2f (x : Z) : string := show_1f x +:+ "0".

#[export] Instance tenths_float : PyFloat Z := {|
  of_int n := (10 * n)%Z;
  fmt_1f := show_1f;
  fmt_2f := show_2f;
  int_floordiv x d := (x / (10 * d))%Z;
  int_mod x d := ((x mod (10 * d)) / 10)%Z
|}.

End Tenths.

(** ** JSON values (what [JSONResponse] and the report carry) *)

#[local] Set Warnings "-register-all".

Inductive json (num : Type) : Type :=
| JNull
| JBool (b : bool)
| JInt (n : Z)
| JFloat (x : num)
| JStr (s : string)
| JList (items : list (json num))
| JDict (items : list (string * json num)).

Arguments JNull {num}.
Arguments JBool {num} b.
Arguments JInt {num} n.
Arguments JFloat {num} x.
Arguments JStr {num} s.
Arguments JList {num} items.
Arguments JDict {num} items.

(** ** The analysis records

    The handlers index [results] with ['timeline'], ['duration'] and
    ['summary'], and every timeline point with ['time'], ['energy'],
    ['emotion_raw'] and ['category'], without a guard: these keys are required
    and are fields here.  ['clusters'] and ['suggestions'] are read with
    [.get] and are optional. *)

Module Schema.
Section Schema.
Variable num : Type.

(** The [data] dictionary handed to the insights generator; it is also
    [results['summary']].  [distribution] keeps the insertion order the code
    iterates in. *)
Record Summary := {
  dominant_emotion : string;
  avg_energy : num;
  silence_pct : num;
  participation : num;
  volatility : num;
  psych_risk : string;
  distribution : list (string * num)
}.

Record TimelinePoint := {
  time : num;
  energy : num;
  emotion_raw : string;
  category : string
}.

Record AnalysisResult := {
  duration : num;
  timeline : list TimelinePoint;
  summary : Summary;
  clusters : option (json num);
  suggestions : option string
}.

(** [session["stream_data"]]: the progressive cache, kept as parallel lists. *)
Record StreamData := {
  stream_duration : num;
  timestamps : list num;
  energy_timeline : list num;
  emotion_series : list string;
  categories : list string;
  sample_rate : Z;
  is_fully_processed : bool
}.

End Schema.

Arguments dominant_emotion {num} _.
Arguments avg_energy {num} _.
Arguments silence_pct {num} _.
Arguments participation {num} _.
Arguments volatility {num} _.
Arguments psych_risk {num} _.
Arguments distribution {num} _.
Arguments time {num} _.
Arguments energy {num} _.
Arguments emotion_raw {num} _.
Arguments category {num} _.
Arguments duration {num} _.
Arguments timeline {num} _.
Arguments summary {num} _.
Arguments clusters {num} _.
Arguments suggestions {num} _.
Arguments stream_duration {num} _.
Arguments timestamps {num} _.
Arguments energy_timeline {num} _.
Arguments emotion_series {num} _.
Arguments categories {num} _.
Arguments sample_rate {num} _.
Arguments is_fully_processed {num} _.
Arguments Build_Summary {num}.
Arguments Build_TimelinePoint {num}.
Arguments Build_AnalysisResult {num}.
Arguments Build_StreamData {num}.

(** [d.get(key, default)] on an insertion-ordered dictionary. *)
Definition dict_get {A} (key : string) (default : A) (d : list (string * A)) : A :=
  match List.find (λ kv, String.eqb (fst kv) key) d with
  | Some kv => snd kv
  | None => default
  end.

End Schema.

(** ** [core/insights_generator.py] *)

Module Insights.
Import PyStr Schema.

(** The literals of [_fallback_suggestions], one header and one list per
    branch of its [if]/[elif] chain. *)

Definition energised_header : string :=
  "⚡ ENERGISED MEETING" +:+ nl +:+ "Team showed high energy and positive engagement." +:+ nl.

Definition energised_suggestions : list string := [
  "✓ Momentum is strong — protect it by ending meetings early this week";
  "✓ Share quick wins publicly to reward the positive energy";
  "✓ Add buffer time between meetings to prevent burnout";
  "✓ Capture key insights while engagement is at peak";
  "✓ Consider replicating this meeting format in future"
].

Definition stressed_header : string :=
  "🔥 STRESSED / TENSE MEETING" +:+ nl +:+ "Team tone indicated stress and tension." +:+ nl.

Definition stressed_suggestions : list string := [
  "⚠️ Cancel or postpone non-essential meetings this week";
  "⚠️ Offer one-to-one check-ins to understand concerns";
  "⚠️ Share something positive that's under control";
  "⚠️ Consider postponing major decisions until tension eases";
  "⚠️ Review workload distribution across the team"
].

Definition flat_header : string :=
  "🌫️ FLAT / DISENGAGED MEETING" +:+ nl +:+ "Team showed low energy and engagement." +:+ nl.

Definition flat_suggestions : list string := [
  "⚡ Cut meeting time by 50% next week to respect energy levels";
  "⚡ Consider ending the week early for recovery";
  "⚡ Create space for anonymous feedback";
  "⚡ Introduce interactive elements or breakout discussions";
  "⚡ Review if meeting objectives are clear and relevant"
].

Definition thoughtful_header : string :=
  "💬 THOUGHTFUL / FOCUSED MEETING" +:+ nl +:+ "Team was calm, steady, and reflective." +:+ nl.

Definition thoughtful_suggestions : list string := [
  "✓ Excellent meeting dynamics — maintain this format";
  "✓ Capture insights and decisions while they're fresh";
  "✓ Ask team: 'What helped today's flow?'";
  "✓ Document and repeat successful elements";
  "✓ Consider this a baseline for future meetings"
].

Definition volatile_header : string :=
  "🌪️ VOLATILE / UNSTABLE MEETING" +:+ nl +:+ "Emotional tone was unpredictable and mixed." +:+ nl.

Definition volatile_suggestions : list string := [
  "⚠️ Follow up individually with less active participants";
  "⚠️ Reiterate shared goals and objectives in writing";
  "⚠️ Consider bringing in facilitation support";
  "⚠️ Break large group into smaller discussion groups";
  "⚠️ Review meeting structure and participation balance"
].

Definition default_header : string := "MEETING ANALYSIS" +:+ nl.

Definition default_suggestions : list string := [
  "Review meeting structure and participation patterns";
  "Consider individual check-ins with team members";
  "Monitor emotional patterns in upcoming meetings";
  "Gather feedback on meeting effectiveness"
].

(** The [if]/[elif] chain on [dominant]: the pair
    [(category_header, suggestions)] it leaves behind. *)
Definition category_block (dominant : string) : string * list string :=
  if contains "Energised" dominant then
    (energised_header, energised_suggestions)
  else if contains "Stressed" dominant || contains "Tense" dominant then
    (stressed_header, stressed_suggestions)
  else if contains "Flat" dominant || contains "Disengaged" dominant then
    (flat_header, flat_suggestions)
  else if contains "Thoughtful" dominant || contains "Constructive" dominant then
    (thoughtful_header, thoughtful_suggestions)
  else if contains "Volatile" dominant || contains "Unstable" dominant then
    (volatile_header, volatile_suggestions)
  else
    (default_header, default_suggestions).

Section Generator.
Context {num : Type} `{PyFloat num}.

(** The three interpolated metrics lines shared by the High and Medium
    templates. *)
Definition metrics_lines (data : Summary num) : string :=
  "Metrics:" +:+ nl +:+
  "• Silence: " +:+ fmt_1f (silence_pct data) +:+ "%" +:+ nl +:+
  "• Stress: " +:+ fmt_1f (dict_get "🔥 Stressed/Tense" (of_int 0) (distribution data))
                +:+ "%" +:+ nl +:+
  "• Volatility: " +:+ fmt_1f (volatility data) +:+ nl.

Definition _fallback_suggestions (data : Summary num) : string :=
  let dominant := dominant_emotion data in
  let '(category_header, suggestions) := category_block dominant in
  let risk_level := psych_risk data in
  if String.eqb risk_level "High" then
    let psych_section :=
      nl +:+ nl +:+ "🧠 PSYCHOLOGICAL SAFETY RISK: HIGH" +:+ nl +:+
      "Critical factors detected — immediate action required." +:+ nl +:+ nl +:+
      metrics_lines data +:+ nl +:+
      "URGENT ACTIONS:" +:+ nl +:+
      "• Pause all group decision-making immediately" +:+ nl +:+
      "• Score team's current working experience (1-5 scale)" +:+ nl +:+
      "• Run psychological safety retrospective" +:+ nl +:+
      "• Schedule one-to-one's with all participants" +:+ nl +:+
      "• Address concerns before proceeding with regular schedule" +:+ nl in
    category_header +:+ (nl +:+ "RECOMMENDATIONS:" +:+ nl)
      +:+ join nl (take 5 suggestions) +:+ psych_section
  else if String.eqb risk_level "Medium" then
    let psych_note :=
      nl +:+ nl +:+ "⚠️ PSYCHOLOGICAL SAFETY RISK: MEDIUM" +:+ nl +:+
      "Some warning signs detected — monitor closely." +:+ nl +:+ nl +:+
      metrics_lines data +:+ nl +:+
      "NEXT STEPS:" +:+ nl +:+
      "• Monitor team dynamics in next session" +:+ nl +:+
      "• Create anonymous feedback channel" +:+ nl +:+
      "• Check in with quieter team members" +:+ nl in
    category_header +:+ (nl +:+ "RECOMMENDATIONS:" +:+ nl)
      +:+ join nl (take 5 suggestions) +:+ psych_note
  else
    category_header +:+ (nl +:+ "RECOMMENDATIONS:" +:+ nl)
      +:+ join nl (take 5 suggestions)
      +:+ (nl +:+ nl +:+ "✓ Psychological Safety: LOW RISK — Team dynamics appear healthy").

(** [_build_prompt]: the text sent to the chat model. *)
Definition _build_prompt (data : Summary num) : string :=
  let prompt :=
    "Meeting Acoustic Analysis Summary:" +:+ nl +:+ nl +:+
    "Dominant Emotion: " +:+ dominant_emotion data +:+ nl +:+
    "Average Energy Level: " +:+ fmt_1f (avg_energy data) +:+ "/100" +:+ nl +:+
    "Silence Percentage: " +:+ fmt_1f (silence_pct data) +:+ "%" +:+ nl +:+
    "Participation Rate: " +:+ fmt_1f (participation data) +:+ "%" +:+ nl +:+
    "Volatility Score: " +:+ fmt_1f (volatility data) +:+ "/10" +:+ nl +:+
    "Psychological Safety Risk: " +:+ psych_risk data +:+ nl +:+ nl +:+
    "Emotion Distribution:" +:+ nl in
  let prompt :=
    foldl (λ acc kv, acc +:+ "- " +:+ fst kv +:+ ": " +:+ fmt_1f (snd kv) +:+ "%" +:+ nl)
          prompt (distribution data) in
  prompt +:+ nl +:+
  "Generate 4-5 specific, actionable suggestions for the meeting leader based on these acoustic patterns.".

(** [generate_suggestions]: [client] is [None] when no API key is configured
    or the client could not be built; a present client answers a prompt with
    the completion text or raises ([inl]). *)
Definition generate_suggestions (client : option (string → string + string))
    (data : Summary num) : string :=
  match client with
  | None => _fallback_suggestions data
  | Some chat =>
      match chat (_build_prompt data) with
      | inr content => content
      | inl _ => _fallback_suggestions data
      end
  end.

(** An [InsightsGenerator] instance: the key [__init__] settled on and the
    client it built ([None] when there is no key or the constructor raised). *)
Record InsightsGenerator := {
  generator_api_key : option string;
  generator_client : option (string → string + string)
}.

(** Truth value of an optional [str]: [None] and the empty string are false. *)
Definition key_truthy (key : option string) : bool :=
  match key with
  | Some (String _ _) => true
  | _ => false
  end.

(** [InsightsGenerator(api_key)].  [settings_key] is
    [settings.OPENAI_API_KEY]; [OpenAI key] is the client the library builds
    for the key, [None] when its constructor raises. *)
Definition new_generator (OpenAI : string → option (string → string + string))
    (settings_key api_key : option string) : InsightsGenerator :=
  let key := if key_truthy api_key then api_key else settings_key in
  {| generator_api_key := key;
     generator_client :=
       match key with
       | Some (String c rest) => OpenAI (String c rest)
       | _ => None
       end |}.

(** The method [generate_suggestions] on an instance: the guard on the client
    and the key, then the call of the chat model. *)
Definition suggest (self : InsightsGenerator) (data : Summary num) : string :=
  if negb (match generator_client self with Some _ => true | None => false end)
     || negb (key_truthy (generator_api_key self))
  then _fallback_suggestions data
  else generate_suggestions (generator_client self) data.

End Generator.

(** *** The classifier in the words of the specification

    An ordered list of (patterns, header, suggestions) rows; the first row one
    of whose patterns occurs in the dominant emotion wins, the default row
    applies when none does. *)

Definition priority_table : list (list string * (string * list string)) := [
  (["Energised"], (energised_header, energised_suggestions));
  (["Stressed"; "Tense"], (stressed_header, stressed_suggestions));
  (["Flat"; "Disengaged"], (flat_header, flat_suggestions));
  (["Thoughtful"; "Constructive"], (thoughtful_header, thoughtful_suggestions));
  (["Volatile"; "Unstable"], (volatile_header, volatile_suggestions))
].

Definition row_matches (dominant : string)
    (row : list string * (string * list string)) : bool :=
  existsb (λ pat, contains pat dominant) (fst row).

Definition first_match (dominant : string) : string * list string :=
  match List.find (row_matches dominant) priority_table with
  | Some row => snd row
  | None => (default_header, default_suggestions)
  end.

(** The annex chosen by the risk tier, as one function of the summary. *)
Definition risk_annex {num : Type} `{PyFloat num} (data : Summary num) : string :=
  if String.eqb (psych_risk data) "High" then
    nl +:+ nl +:+ "🧠 PSYCHOLOGICAL SAFETY RISK: HIGH" +:+ nl +:+
    "Critical factors detected — immediate action required." +:+ nl +:+ nl +:+
    metrics_lines data +:+ nl +:+
    "URGENT ACTIONS:" +:+ nl +:+
    "• Pause all group decision-making immediately" +:+ nl +:+
    "• Score team's current working experience (1-5 scale)" +:+ nl +:+
    "• Run psychological safety retrospective" +:+ nl +:+
    "• Schedule one-to-one's with all participants" +:+ nl +:+
    "• Address concerns before proceeding with regular schedule" +:+ nl
  else if String.eqb (psych_risk data) "Medium" then
    nl +:+ nl +:+ "⚠️ PSYCHOLOGICAL SAFETY RISK: MEDIUM" +:+ nl +:+
    "Some warning signs detected — monitor closely." +:+ nl +:+ nl +:+
    metrics_lines data +:+ nl +:+
    "NEXT STEPS:" +:+ nl +:+
    "• Monitor team dynamics in next session" +:+ nl +:+
    "• Create anonymous feedback channel" +:+ nl +:+
    "• Check in with quieter team members" +:+ nl
  else
    nl +:+ nl +:+ "✓ Psychological Safety: LOW RISK — Team dynamics appear healthy".

(** The lines of [text] that follow the ["RECOMMENDATIONS:"] line, up to the
    first empty line. *)
Fixpoint after_label (lines : list string) : list string :=
  match lines with
  | [] => []
  | l :: rest => if String.eqb l "RECOMMENDATIONS:" then rest else after_label rest
  end.

Fixpoint until_blank (lines : list string) : list string :=
  match lines with
  | [] => []
  | l :: rest => if String.eqb l EmptyString then [] else l :: until_blank rest
  end.

Definition recommendation_lines (text : string) : list string :=
  until_blank (after_label (split_lines text)).

End Insights.

(** ** Library functions the code calls

    [pathlib], [str.lower] and [tempfile] are not part of the sources; the
    model takes them as an interface.  [Posix] is an instance used to run the
    model on concrete requests. *)

Class PyRuntime := {
  (** [Path(p).suffix] *)
  path_suffix : string → string;
  (** [str(Path(p).parent)] *)
  path_parent : string → string;
  (** [str(Path(a) / b)] *)
  path_join : string → string → string;
  (** [s.lower()] *)
  str_lower : string → string;
  (** [tempfile.gettempdir()] *)
  gettempdir : string
}.

Module Posix.

Definition slash : ascii := ascii_of_nat 47.
Definition dot : ascii := ascii_of_nat 46.

(** The text after the last [sep] of [s], or [None] when [s] has none. *)
Fixpoint after_last (sep : ascii) (s : string) : option string :=
  match s with
  | EmptyString => None
  | String c rest =>
      match after_last sep rest with
      | Some tail => Some tail
      | None => if Ascii.eqb c sep then Some rest else None
      end
  end.

(** The text before the last [sep] of [s], or [None] when [s] has none. *)
Fixpoint before_last (sep : ascii) (s : string) : option string :=
  match s with
  | EmptyString => None
  | String c rest =>
      match before_last sep rest with
      | Some head => Some (String c head)
      | None => if Ascii.eqb c sep then Some EmptyString else None
      end
  end.

Definition name (p : string) : string := default p (after_last slash p).

(** The last dot of the final component starts the suffix, unless it is the
    first or the last character of that component. *)
Definition suffix (p : string) : string :=
  match before_last dot (name p), after_last dot (name p) with
  | Some (String _ _), Some (String c ext) => String dot (String c ext)
  | _, _ => EmptyString
  end.

Definition parent (p : string) : string :=
  match before_last slash p with
  | Some EmptyString => "/"
  | Some d => d
  | None => "."
  end.

Definition join (a b : string) : string :=
  match b with
  | String c _ => if Ascii.eqb c slash then b else a +:+ "/" +:+ b
  | EmptyString => a
  end.

Definition lower_ascii (c : ascii) : ascii :=
  let n := nat_of_ascii c in
  if (65 <=? n)%nat && (n <=? 90)%nat then ascii_of_nat (n + 32) else c.

Fixpoint lower (s : string) : string :=
  match s with
  | EmptyString => EmptyString
  | String c rest => String (lower_ascii c) (lower rest)
  end.

#[export] Instance posix_runtime : PyRuntime := {|
  path_suffix := suffix;
  path_parent := parent;
  path_join := join;
  str_lower := lower;
  gettempdir := "/tmp"
|}.

End Posix.

(** ** Unicode code points

    [strip_emoji] and [str.strip] work on code points; they are decoded from
    and encoded back to the UTF-8 bytes of the model's strings. *)

Module Unicode.

Definition byte (c : ascii) : Z := Z.of_nat (nat_of_ascii c).
Definition chr (b : Z) : ascii := ascii_of_nat (Z.to_nat b).

Definition low6 (c : ascii) : Z := Z.land (byte c) 63.

Fixpoint decode (s : string) : list Z :=
  match s with
  | EmptyString => []
  | String c0 rest =>
      let b0 := byte c0 in
      if (b0 <? 128)%Z then b0 :: decode rest
      else match rest with
      | String c1 r1 =>
          if (b0 <? 224)%Z then
            (Z.shiftl (Z.land b0 31) 6 + low6 c1)%Z :: decode r1
          else match r1 with
          | String c2 r2 =>
              if (b0 <? 240)%Z then
                (Z.shiftl (Z.land b0 15) 12 + Z.shiftl (low6 c1) 6 + low6 c2)%Z
                :: decode r2
              else match r2 with
              | String c3 r3 =>
                  (Z.shiftl (Z.land b0 7) 18 + Z.shiftl (low6 c1) 12
                   + Z.shiftl (low6 c2) 6 + low6 c3)%Z :: decode r3
              | EmptyString => [b0]
              end
          | EmptyString => [b0]
          end
      | EmptyString => [b0]
      end
  end.

Definition cont (x : Z) : ascii := chr (128 + Z.land x 63).

Definition encode_point (cp : Z) : string :=
  if (cp <? 128)%Z then String (chr cp) EmptyString
  else if (cp <? 2048)%Z then
    String (chr (192 + Z.shiftr cp 6)) (String (cont cp) EmptyString)
  else if (cp <? 65536)%Z then
    String (chr (224 + Z.shiftr cp 12))
      (String (cont (Z.shiftr cp 6)) (String (cont cp) EmptyString))
  else
    String (chr (240 + Z.shiftr cp 18))
      (String (cont (Z.shiftr cp 12))
         (String (cont (Z.shiftr cp 6)) (String (cont cp) EmptyString))).

Definition encode (cps : list Z) : string :=
  foldr (λ cp acc, encode_point cp +:+ acc) EmptyString cps.

(** [c.isspace()] *)
Definition is_space (cp : Z) : bool :=
  ((9 <=? cp) && (cp <=? 13) || (28 <=? cp) && (cp <=? 32)
   || (cp =? 133) || (cp =? 160) || (cp =? 5760)
   || (8192 <=? cp) && (cp <=? 8202) || (cp =? 8232) || (cp =? 8233)
   || (cp =? 8239) || (cp =? 8287) || (cp =? 12288))%Z.

Fixpoint lstrip (cps : list Z) : list Z :=
  match cps with
  | cp :: rest => if is_space cp then lstrip rest else cps
  | [] => []
  end.

(** [s.strip()] *)
Definition strip (cps : list Z) : list Z := rev (lstrip (rev (lstrip cps))).

End Unicode.

(** ** [modules/report_generator.py] *)

Module Report.
Import PyStr Schema.

(** What the generator hands to ReportLab.  [TableStyle] commands and
    paragraph style attributes are layout constants and stay with the
    renderer; a style is named by its ReportLab name. *)
Inductive Flowable :=
| Paragraph (text : string) (style : string)
| Spacer (width : Z) (height_inch : Q)
| Table (data : list (list string)) (colWidths_inch : list Q)
| PageBreak.

(** [range(0, len(l), step)] as the elements it indexes. *)
Fixpoint every_nth {A} (step skip : nat) (l : list A) : list A :=
  match l with
  | [] => []
  | x :: rest =>
      match skip with
      | O => x :: every_nth step (step - 1) rest
      | S k => every_nth step k rest
      end
  end.

(** The character class of [strip_emoji]'s pattern. *)
Definition is_emoji (cp : Z) : bool :=
  ((0x1F600 <=? cp) && (cp <=? 0x1F64F)
   || (0x1F300 <=? cp) && (cp <=? 0x1F5FF)
   || (0x1F680 <=? cp) && (cp <=? 0x1F6FF)
   || (0x1F1E0 <=? cp) && (cp <=? 0x1F1FF)
   || (0x2702 <=? cp) && (cp <=? 0x27B0)
   || (0x24C2 <=? cp) && (cp <=? 0x1F251))%Z.

Definition strip_emoji (text : string) : string :=
  Unicode.encode
    (Unicode.strip (List.filter (λ cp, negb (is_emoji cp)) (Unicode.decode text))).

(** [line.strip()] as a condition: something is left after stripping. *)
Definition has_text (line : string) : bool :=
  match Unicode.strip (Unicode.decode line) with
  | [] => false
  | _ :: _ => true
  end.

Section Generator.
Context {num : Type} `{PyFloat num}.

(** A [ReportGenerator] instance.  [timestamp] is what [__init__] reads from
    the clock: [datetime.now().strftime("%Y-%m-%d %H:%M:%S")]. *)
Record ReportGenerator := {
  results : AnalysisResult num;
  session_id : string;
  timestamp : string
}.

(** [ReportGenerator(results, session_id)], run at the moment the clock shows
    [now]. *)
Definition new (results : AnalysisResult num) (session_id : string)
    (now : string) : ReportGenerator :=
  {| results := results; session_id := session_id; timestamp := now |}.

Definition format_time (seconds : num) : string :=
  let mins := int_floordiv seconds 60 in
  let secs := int_mod seconds 60 in
  pretty mins +:+ ":" +:+ fmt_02d secs.

(** The [story] list [generate_pdf_report] builds before [doc.build]. *)
Definition pdf_story (self : ReportGenerator) : list Flowable :=
  let summary := summary (results self) in
  let timeline := timeline (results self) in
  let duration := duration (results self) in
  let suggestions := default "No insights available." (suggestions (results self)) in
  let info_data := [
    ["Generated:"; timestamp self];
    ["Session ID:"; slice_to 13 (session_id self) +:+ "..."];
    ["Duration:"; format_time duration]
  ] in
  let summary_data := [
    ["Metric"; "Value"];
    ["Dominant Emotion"; dominant_emotion summary];
    ["Average Energy Level"; fmt_1f (avg_energy summary)];
    ["Silence Percentage"; fmt_1f (silence_pct summary) +:+ "%"];
    ["Participation Rate"; fmt_1f (participation summary) +:+ "%"];
    ["Emotional Volatility"; fmt_2f (volatility summary)];
    ["Psychological Safety"; psych_risk summary]
  ] in
  let emotion_data :=
    ["Emotion"; "Percentage"]
    :: map (λ kv, [fst kv; fmt_1f (snd kv) +:+ "%"]) (distribution summary) in
  let timeline_data :=
    ["Time"; "Emotion"; "Energy"]
    :: map (λ point, [format_time (time point);
                      strip_emoji (category point);
                      fmt_1f (energy point)])
           (every_nth 6 0 timeline) in
  [ Paragraph "MOODFLO" "CustomTitle";
    Paragraph "Meeting Emotion Analysis Report" "Heading2";
    Spacer 1 0.3%Q;
    Table info_data [1.5%Q; 4.5%Q];
    Spacer 1 0.3%Q;
    Paragraph "Executive Summary" "CustomHeading";
    Table summary_data [2.5%Q; 3.5%Q];
    Spacer 1 0.2%Q;
    Paragraph "AI-Powered Insights and Recommendations" "CustomHeading" ]
  ++ flat_map (λ line, if has_text line
                       then [Paragraph line "Normal"; Spacer 1 0.05%Q]
                       else [])
              (split_lines suggestions)
  ++ [ Spacer 1 0.2%Q;
       PageBreak;
       Paragraph "Emotion Distribution" "CustomHeading";
       Table emotion_data [3.5%Q; 2%Q];
       Spacer 1 0.3%Q;
       Paragraph "Emotion Timeline - 30-second intervals" "CustomHeading";
       Table timeline_data [1%Q; 3.5%Q; 1%Q];
       Spacer 1 0.3%Q;
       Spacer 1 0.5%Q;
       Paragraph "This report is confidential and intended for internal use only." "Footer";
       Paragraph "Data processed locally - no information sent to external servers." "Footer" ].

(** [generate_pdf_report]: [build] is ReportLab's [doc.build] followed by
    reading the buffer. *)
Definition generate_pdf_report (build : list Flowable → string)
    (self : ReportGenerator) : string :=
  build (pdf_story self).

Definition summary_json (s : Summary num) : json num :=
  JDict [
    ("dominant_emotion", JStr (dominant_emotion s));
    ("avg_energy", JFloat (avg_energy s));
    ("silence_pct", JFloat (silence_pct s));
    ("participation", JFloat (participation s));
    ("volatility", JFloat (volatility s));
    ("psych_risk", JStr (psych_risk s));
    ("distribution", JDict (map (λ kv, (fst kv, JFloat (snd kv))) (distribution s)))
  ].

Definition point_json (p : TimelinePoint num) : json num :=
  JDict [
    ("time", JFloat (time p));
    ("energy", JFloat (energy p));
    ("emotion_raw", JStr (emotion_raw p));
    ("category", JStr (category p))
  ].

Definition generate_json_report (self : ReportGenerator) : json num :=
  JDict [
    ("metadata", JDict [
       ("session_id", JStr (session_id self));
       ("generated", JStr (timestamp self));
       ("duration", JFloat (duration (results self)))
     ]);
    ("summary", summary_json (summary (results self)));
    ("timeline", JList (map point_json (timeline (results self))));
    ("clusters", default (JDict []) (clusters (results self)));
    ("suggestions", JStr (default EmptyString (suggestions (results self))));
    ("version", JStr "2.0.0")
  ].

End Generator.

Arguments ReportGenerator num : clear implicits.

(** *** The translators as the specification names them

    [toJson(AnalysisResult, sessionId)] and [toPdfBytes(AnalysisResult,
    sessionId)]: construct a generator and run it.  The clock reading at
    construction is an input of both. *)
Definition toJson {num : Type} `{PyFloat num} (now : string)
    (result : AnalysisResult num) (sessionId : string) : json num :=
  generate_json_report (new result sessionId now).

Definition toPdfBytes {num : Type} `{PyFloat num} (build : list Flowable → string)
    (now : string) (result : AnalysisResult num) (sessionId : string) : string :=
  generate_pdf_report build (new result sessionId now).

(** The value stored under [key] in a JSON object. *)
Definition json_field {num : Type} (key : string) (doc : json num) : option (json num) :=
  match doc with
  | JDict items => snd <$> List.find (λ kv, String.eqb (fst kv) key) items
  | _ => None
  end.

(** A JSON object without the entry [key]. *)
Definition json_without {num : Type} (key : string) (doc : json num) : json num :=
  match doc with
  | JDict items => JDict (List.filter (λ kv, negb (String.eqb (fst kv) key)) items)
  | other => other
  end.

(** A JSON object in which the object stored under [outer] has lost its entry
    [inner]. *)
Definition json_without_in {num : Type} (outer inner : string) (doc : json num) : json num :=
  match doc with
  | JDict items =>
      JDict (map (λ kv, if String.eqb (fst kv) outer
                        then (fst kv, json_without inner (snd kv)) else kv) items)
  | other => other
  end.

End Report.

(** ** [app.py]: state, responses and external services *)

Module App.
Import PyStr Schema.

(** A raised exception: FastAPI's [HTTPException], or any other exception with
    its [str(e)]. *)
Inductive PyExn :=
| HTTPException (status_code : Z) (detail : string)
| Exception (message : string).

Definition str_exn (e : PyExn) : string :=
  match e with
  | HTTPException code detail => pretty code +:+ ": " +:+ detail
  | Exception message => message
  end.

Inductive Outcome (A : Type) :=
| Return (a : A)
| Raise (e : PyExn).

Arguments Return {A} a.
Arguments Raise {A} e.

(** The awaited calls a handler makes, in the order it makes them. *)
Inductive Event :=
| AnalyzeFull (file_path : string)
| BuildAnalysisFromStream (file_path : string)
| InitializeStream (file_path : string)
| Sleep (seconds : Q).

(** The file system as far as the handlers look at it: which paths are regular
    files and which are directories. *)
Record FileSystem := {
  files : gset string;
  dirs : gset string
}.

Section State.
Variable num : Type.

(** One value of [active_sessions].  The keys ["analysis"], ["stream_data"]
    and ["error"] are absent until a handler stores them. *)
Record Session := {
  file_path : string;
  filename : string;
  status : string;
  analysis_complete : bool;
  analysis : option (AnalysisResult num);
  stream_data : option (StreamData num);
  error : option string
}.

Record World := {
  active_sessions : gmap string Session;
  fs : FileSystem
}.

(** The return values of the HTTP handlers. *)
Inductive Response :=
| UploadOk (session_id filename : string) (size : nat) (message : string)
| AnalysisComplete (session_id : string) (results : option (AnalysisResult num))
| AnalysisPending (session_id status message : string)
| FileResponse (path media_type : string) (download_name : option string)
| JSONResponse (content : json num) (content_disposition : string)
| Message (message : string).

(** [analyzer_service] and [streaming_service] ([services/] is not part of
    the sources), as they answer during one request.  A call that raises
    answers [inl] with the exception text.  [streaming_task i] is what the
    progressive streaming task does to the shared [stream_data] dictionary
    while the handler is suspended in its [i]-th [asyncio.sleep]. *)
Record Services := {
  analyze_full : string → string + AnalysisResult num;
  initialize_stream : string → string + StreamData num;
  stream_aggregates :
    StreamData num → string → Summary num * option (json num) * option string;
  get_realtime_data : StreamData num → num → string + json num;
  streaming_task : nat → StreamData num → StreamData num
}.

(** A frame received on the WebSocket: a JSON object with its ["type"] and
    ["time"] entries, a disconnect, or a frame [receive_json] cannot decode. *)
Inductive ClientEvent :=
| Recv (type : option string) (time : option num)
| Disconnect
| Undecodable (message : string).

Inductive ServerMsg :=
| MsgError (message : string)
| MsgStatus (message : string)
| MsgReady (duration : num) (message : string)
| MsgUpdate (time : num) (data : json num)
| MsgPong
| Close.

End State.

Arguments file_path {num} _.
Arguments filename {num} _.
Arguments status {num} _.
Arguments analysis_complete {num} _.
Arguments analysis {num} _.
Arguments stream_data {num} _.
Arguments error {num} _.
Arguments Build_Session {num}.
Arguments active_sessions {num} _.
Arguments fs {num} _.
Arguments Build_World {num}.
Arguments UploadOk {num}.
Arguments AnalysisComplete {num}.
Arguments AnalysisPending {num}.
Arguments FileResponse {num}.
Arguments JSONResponse {num}.
Arguments Message {num}.
Arguments analyze_full {num} _.
Arguments initialize_stream {num} _.
Arguments stream_aggregates {num} _.
Arguments get_realtime_data {num} _.
Arguments streaming_task {num} _.
Arguments Build_Services {num}.
Arguments Recv {num}.
Arguments Disconnect {num}.
Arguments Undecodable {num}.
Arguments MsgError {num}.
Arguments MsgStatus {num}.
Arguments MsgReady {num}.
Arguments MsgUpdate {num}.
Arguments MsgPong {num}.
Arguments Close {num}.

(** The clock and ReportLab, as they answer during one export request. *)
Record ExportEnv := {
  (** [datetime.now().strftime(format)] *)
  strftime_now : string → string;
  (** [doc.build(story)], then the bytes of the buffer *)
  doc_build : list Report.Flowable → string
}.

(** [UploadFile]: the multipart file name and the bytes read from it. *)
Record UploadFile := {
  upload_filename : string;
  upload_content : string
}.

(** *** File system calls *)

Section FileSystemCalls.
Context `{PyRuntime}.

(** [os.path.exists(p)], [Path(p).exists()] *)
Definition path_exists (p : string) (fs : FileSystem) : bool :=
  bool_decide (p ∈ files fs ∪ dirs fs).

(** [d.mkdir(parents=True, exist_ok=True)] *)
Definition mkdir (d : string) (fs : FileSystem) : PyExn + FileSystem :=
  if bool_decide (d ∈ files fs) then inl (Exception "FileExistsError")
  else inr {| files := files fs; dirs := dirs fs ∪ {[d]} |}.

(** [open(p, 'wb')] followed by [write] *)
Definition write_file (p : string) (fs : FileSystem) : PyExn + FileSystem :=
  if bool_decide (p ∈ dirs fs) then inl (Exception "IsADirectoryError")
  else if bool_decide (path_parent p ∈ dirs fs)
  then inr {| files := files fs ∪ {[p]}; dirs := dirs fs |}
  else inl (Exception "FileNotFoundError").

(** [p.unlink()] *)
Definition unlink (p : string) (fs : FileSystem) : PyExn + FileSystem :=
  if bool_decide (p ∈ dirs fs) then inl (Exception "IsADirectoryError")
  else if bool_decide (p ∈ files fs)
  then inr {| files := files fs ∖ {[p]}; dirs := dirs fs |}
  else inl (Exception "FileNotFoundError").

(** Nothing lives directly under [d]. *)
Definition dir_is_empty (d : string) (fs : FileSystem) : bool :=
  bool_decide (set_Forall (λ p, path_parent p ≠ d) (files fs ∪ dirs fs)).

(** [d.rmdir()] *)
Definition rmdir (d : string) (fs : FileSystem) : PyExn + FileSystem :=
  if bool_decide (d ∈ dirs fs) then
    if dir_is_empty d fs
    then inr {| files := files fs; dirs := dirs fs ∖ {[d]} |}
    else inl (Exception "OSError: Directory not empty")
  else if bool_decide (d ∈ files fs) then inl (Exception "NotADirectoryError")
  else inl (Exception "FileNotFoundError").

End FileSystemCalls.

(** *** The handler monad

    The body of a handler that works on one [session] dictionary: it reads and
    mutates the session, may raise, and awaits external calls, which are
    recorded in order.  A raised exception keeps the mutations made so far. *)

Section Handlers.
Context {num : Type} `{PyFloat num} `{PyRuntime}.

Definition Handler (A : Type) : Type :=
  Session num → Outcome A * Session num * list Event.

#[export] Instance handler_ret : MRet Handler :=
  λ A a session, (Return a, session, []).

#[export] Instance handler_bind : MBind Handler :=
  λ A B k m session,
    match m session with
    | (Return a, session1, trace1) =>
        let '(out, session2, trace2) := k a session1 in
        (out, session2, trace1 ++ trace2)
    | (Raise e, session1, trace1) => (Raise e, session1, trace1)
    end.

Definition get : Handler (Session num) :=
  λ session, (Return session, session, []).

Definition modify (f : Session num → Session num) : Handler unit :=
  λ session, (Return tt, f session, []).

Definition raise {A} (e : PyExn) : Handler A :=
  λ session, (Raise e, session, []).

Definition emit (ev : Event) : Handler unit :=
  λ session, (Return tt, session, [ev]).

(** [try: body  except Exception as e: handler(e)] *)
Definition try_except {A} (body : Handler A) (handler : PyExn → Handler A) : Handler A :=
  λ session,
    match body session with
    | (Return a, session1, trace1) => (Return a, session1, trace1)
    | (Raise e, session1, trace1) =>
        let '(out, session2, trace2) := handler e session1 in
        (out, session2, trace1 ++ trace2)
    end.

(** [session[key] = value] *)
Definition set_status (v : string) (s : Session num) : Session num :=
  {| file_path := file_path s; filename := filename s; status := v;
     analysis_complete := analysis_complete s; analysis := analysis s;
     stream_data := stream_data s; error := error s |}.

Definition set_analysis_complete (v : bool) (s : Session num) : Session num :=
  {| file_path := file_path s; filename := filename s; status := status s;
     analysis_complete := v; analysis := analysis s;
     stream_data := stream_data s; error := error s |}.

Definition set_analysis (v : AnalysisResult num) (s : Session num) : Session num :=
  {| file_path := file_path s; filename := filename s; status := status s;
     analysis_complete := analysis_complete s; analysis := Some v;
     stream_data := stream_data s; error := error s |}.

Definition set_stream_data (v : StreamData num) (s : Session num) : Session num :=
  {| file_path := file_path s; filename := filename s; status := status s;
     analysis_complete := analysis_complete s; analysis := analysis s;
     stream_data := Some v; error := error s |}.

Definition set_error (v : string) (s : Session num) : Session num :=
  {| file_path := file_path s; filename := filename s; status := status s;
     analysis_complete := analysis_complete s; analysis := analysis s;
     stream_data := stream_data s; error := Some v |}.

(** The shared [stream_data] dictionary mutated in place by [f]. *)
Definition mutate_stream_data (f : StreamData num → StreamData num)
    (s : Session num) : Session num :=
  {| file_path := file_path s; filename := filename s; status := status s;
     analysis_complete := analysis_complete s; analysis := analysis s;
     stream_data := f <$> stream_data s; error := error s |}.

(** Truth value of [session.get(key)] for a key holding a result dictionary:
    an absent key gives [None], a stored result has its required keys and is
    not empty. *)
Definition truthy {A} (value : option A) : bool :=
  match value with
  | Some _ => true
  | None => false
  end.

(** [stream_data.get("is_fully_processed")] on the session's stream cache. *)
Definition stream_is_fully_processed (s : Session num) : bool :=
  match stream_data s with
  | Some sd => is_fully_processed sd
  | None => false
  end.

(** *** External calls *)

(** [await asyncio.sleep(seconds)] inside [analyze_meeting]: the handler is
    suspended and the streaming task goes on filling the stream cache. *)
Definition await_sleep (svc : Services num) (i : nat) (seconds : Q) : Handler unit :=
  emit (Sleep seconds);; modify (mutate_stream_data (streaming_task svc i)).

(** [await analyzer_service.analyze_full(file_path)] *)
Definition await_analyze_full (svc : Services num) (path : string)
    : Handler (AnalysisResult num) :=
  emit (AnalyzeFull path);;
  match analyze_full svc path with
  | inr results => mret results
  | inl message => raise (Exception message)
  end.

(** The samples of a stream cache, one timeline point per index. *)
Fixpoint zip_samples (ts es : list num) (ems cs : list string)
    : list (TimelinePoint num) :=
  match ts, es, ems, cs with
  | t :: ts', e :: es', em :: ems', c :: cs' =>
      {| time := t; energy := e; emotion_raw := em; category := c |}
      :: zip_samples ts' es' ems' cs'
  | _, _, _, _ => []
  end.

(** Modelled from the spec: [streaming_service.build_analysis_from_stream]
    ([services/realtime_service.py] is not part of the sources).  The
    specification has it derive the [AnalysisResult] from the stream cache by
    a cheap transform, without the Timeline Producer: the duration is the
    cache's, the timeline is the cache's samples projected field for field,
    and the aggregates (summary, clusters, suggestions) are computed by the
    service from the cache. *)
Definition build_analysis_from_stream (svc : Services num)
    (sd : StreamData num) (path : string) : AnalysisResult num :=
  let '(summ, clus, sugg) := stream_aggregates svc sd path in
  {| duration := stream_duration sd;
     timeline := zip_samples (timestamps sd) (energy_timeline sd)
                             (emotion_series sd) (categories sd);
     summary := summ;
     clusters := clus;
     suggestions := sugg |}.

(** [await streaming_service.build_analysis_from_stream(stream_data, path)] *)
Definition await_build_analysis_from_stream (svc : Services num)
    (sd : StreamData num) (path : string) : Handler (AnalysisResult num) :=
  emit (BuildAnalysisFromStream path);;
  mret (build_analysis_from_stream svc sd path).

(** ** [app.py]: the handlers *)

Definition allowed_extensions : list string :=
  [".mp4"; ".mp3"; ".wav"; ".avi"; ".mov"; ".mkv"].

(** [POST /api/upload].  [uuid4] is the value [str(uuid.uuid4())] takes. *)
Definition upload_file (uuid4 : string) (file : UploadFile) (w : World num)
    : Outcome (Response num) * World num * list Event :=
  let file_ext := str_lower (path_suffix (upload_filename file)) in
  if negb (bool_decide (file_ext ∈ allowed_extensions)) then
    (Raise (HTTPException 400
              ("File type " +:+ file_ext +:+ " not supported. Allowed: "
               +:+ join ", " allowed_extensions)), w, [])
  else
    let session_id := uuid4 in
    let temp_dir := path_join (path_join gettempdir "moodflo") session_id in
    match mkdir temp_dir (fs w) with
    | inl e => (Raise e, w, [])
    | inr fs1 =>
        let path := path_join temp_dir (upload_filename file) in
        let content := upload_content file in
        match write_file path fs1 with
        | inl e =>
            (Raise e, {| active_sessions := active_sessions w; fs := fs1 |}, [])
        | inr fs2 =>
            (Return (UploadOk session_id (upload_filename file)
                       (String.length content) "File uploaded successfully"),
             {| active_sessions :=
                  <[session_id := {| file_path := path;
                                     filename := upload_filename file;
                                     status := "uploaded";
                                     analysis_complete := false;
                                     analysis := None;
                                     stream_data := None;
                                     error := None |}]> (active_sessions w);
                fs := fs2 |},
             [])
        end
    end.

(** The polling loop [for _ in range(15)] of [analyze_meeting]; [iterations]
    is the part of the range still to run. *)
Fixpoint wait_for_stream (svc : Services num) (iterations : list nat) : Handler unit :=
  match iterations with
  | [] => mret tt
  | i :: rest =>
      session ← get;
      if stream_is_fully_processed session then mret tt
      else await_sleep svc i 2%Q;; wait_for_stream svc rest
  end.

(** [stream_data] as the dictionary of converted lists built at the end of a
    full analysis. *)
Definition stream_data_of_results (results : AnalysisResult num) : StreamData num :=
  let timeline := timeline results in
  {| stream_duration := duration results;
     timestamps := map Schema.time timeline;
     energy_timeline := map energy timeline;
     emotion_series := map emotion_raw timeline;
     categories := map category timeline;
     sample_rate := 16000;
     is_fully_processed := true |}.

(** Lines 156 to 206 of [analyze_meeting]: the analysis from scratch. *)
Definition run_full_analysis (svc : Services num) (fs : FileSystem)
    (session_id : string) : Handler (Response num) :=
  session ← get;
  let path := file_path session in
  if negb (path_exists path fs) then
    raise (HTTPException 404 "File not found")
  else
    modify (set_status "analyzing");;
    try_except
      (results ← await_analyze_full svc path;
       modify (set_analysis results);;
       modify (set_analysis_complete true);;
       modify (set_status "complete");;
       session ← get;
       (if truthy (stream_data session) then mret tt
        else modify (set_stream_data (stream_data_of_results results)));;
       mret (AnalysisComplete session_id (Some results)))
      (λ e,
         modify (set_status "error");;
         modify (set_error (str_exn e));;
         raise (HTTPException 500 ("Analysis failed: " +:+ str_exn e))).

(** Lines 117 to 206 of [analyze_meeting], on the session found in the map. *)
Definition analyze_session (svc : Services num) (fs : FileSystem)
    (session_id : string) : Handler (Response num) :=
  session ← get;
  if analysis_complete session && truthy (analysis session) then
    mret (AnalysisComplete session_id (analysis session))
  else
    early ←
      (if truthy (stream_data session) then
         wait_for_stream svc (seq 0 15);;
         session ← get;
         match stream_data session with
         | Some sd =>
             if is_fully_processed sd then
               results ← await_build_analysis_from_stream svc sd (file_path session);
               modify (set_analysis results);;
               modify (set_analysis_complete true);;
               modify (set_status "complete");;
               mret (Some (AnalysisComplete session_id (Some results)))
             else mret None
         | None => mret None
         end
       else mret None);
    match early with
    | Some response => mret response
    | None => run_full_analysis svc fs session_id
    end.

(** The session dictionary is shared with [active_sessions]: what the body
    did to it is visible in the map. *)
Definition with_session (session_id : string) (body : Handler (Response num))
    (w : World num) : Outcome (Response num) * World num * list Event :=
  match active_sessions w !! session_id with
  | None => (Raise (HTTPException 404 "Session not found"), w, [])
  | Some session =>
      let '(out, session', trace) := body session in
      (out,
       {| active_sessions := <[session_id := session']> (active_sessions w);
          fs := fs w |},
       trace)
  end.

(** [POST /api/analyze/{session_id}] *)
Definition analyze_meeting (svc : Services num) (session_id : string) (w : World num)
    : Outcome (Response num) * World num * list Event :=
  with_session session_id (analyze_session svc (fs w) session_id) w.

(** [GET /api/analysis/{session_id}] *)
Definition get_analysis (session_id : string) (w : World num)
    : Outcome (Response num) * World num * list Event :=
  with_session session_id
    (session ← get;
     if negb (analysis_complete session) then
       mret (AnalysisPending session_id (status session) "Analysis not complete")
     else
       mret (AnalysisComplete session_id (analysis session)))
    w.

(** [GET /api/video/{session_id}] *)
Definition get_video (session_id : string) (w : World num)
    : Outcome (Response num) * World num * list Event :=
  with_session session_id
    (session ← get;
     let path := file_path session in
     if negb (path_exists path (fs w)) then
       raise (HTTPException 404 "Video file not found")
     else
       mret (FileResponse path "video/mp4" None))
    w.

(** [DELETE /api/session/{session_id}] *)
Definition delete_session (session_id : string) (w : World num)
    : Outcome (Response num) * World num * list Event :=
  match active_sessions w !! session_id with
  | None => (Raise (HTTPException 404 "Session not found"), w, [])
  | Some session =>
      let path := file_path session in
      match (if path_exists path (fs w) then unlink path (fs w) else inr (fs w)) with
      | inl e => (Raise e, w, [])
      | inr fs1 =>
          let temp_dir := path_parent path in
          match (if path_exists temp_dir fs1 then rmdir temp_dir fs1 else inr fs1) with
          | inl e =>
              (Raise e, {| active_sessions := active_sessions w; fs := fs1 |}, [])
          | inr fs2 =>
              (Return (Message "Session deleted successfully"),
               {| active_sessions := delete session_id (active_sessions w);
                  fs := fs2 |},
               [])
          end
      end
  end.

(** [GET /api/export/{session_id}/pdf] *)
Definition export_pdf (env : ExportEnv) (session_id : string) (w : World num)
    : Outcome (Response num) * World num * list Event :=
  match active_sessions w !! session_id with
  | None => (Raise (HTTPException 404 "Session not found"), w, [])
  | Some session =>
      if negb (analysis_complete session) then
        (Raise (HTTPException 400 "Analysis not complete"), w, [])
      else
        match analysis session with
        | None => (Raise (Exception "KeyError: 'analysis'"), w, [])
        | Some results =>
            let generator :=
              Report.new results session_id (strftime_now env "%Y-%m-%d %H:%M:%S") in
            let pdf := Report.generate_pdf_report (doc_build env) generator in
            let temp_file :=
              path_join gettempdir
                ("moodflo_report_" +:+ slice_to 8 session_id +:+ ".pdf") in
            match write_file temp_file (fs w) with
            | inl e => (Raise e, w, [])
            | inr fs1 =>
                (Return (FileResponse temp_file "application/pdf"
                           (Some ("moodflo_report_"
                                  +:+ strftime_now env "%Y%m%d_%H%M%S" +:+ ".pdf"))),
                 {| active_sessions := active_sessions w; fs := fs1 |},
                 [])
            end
        end
  end.

(** [GET /api/export/{session_id}/json] *)
Definition export_json (env : ExportEnv) (session_id : string) (w : World num)
    : Outcome (Response num) * World num * list Event :=
  match active_sessions w !! session_id with
  | None => (Raise (HTTPException 404 "Session not found"), w, [])
  | Some session =>
      if negb (analysis_complete session) then
        (Raise (HTTPException 400 "Analysis not complete"), w, [])
      else
        match analysis session with
        | None => (Raise (Exception "KeyError: 'analysis'"), w, [])
        | Some results =>
            let generator :=
              Report.new results session_id (strftime_now env "%Y-%m-%d %H:%M:%S") in
            let json_data := Report.generate_json_report generator in
            (Return (JSONResponse json_data
                       ("attachment; filename=moodflo_report_"
                        +:+ strftime_now env "%Y%m%d_%H%M%S" +:+ ".json")),
             w, [])
        end
  end.

(** The receive loop of [websocket_stream] over the frames the client sends;
    the connection is gone when they run out. *)
Fixpoint serve_frames (svc : Services num) (sd : StreamData num)
    (incoming : list (ClientEvent num)) : list (ServerMsg num) :=
  match incoming with
  | [] => []
  | Disconnect :: _ => []
  | Undecodable message :: _ => [MsgError message]
  | Recv type time :: rest =>
      if bool_decide (type = Some "seek") then
        let current_time := default (of_int 0) time in
        match get_realtime_data svc sd current_time with
        | inr emotion_update =>
            MsgUpdate current_time emotion_update :: serve_frames svc sd rest
        | inl message => [MsgError message]
        end
      else if bool_decide (type = Some "ping") then
        MsgPong :: serve_frames svc sd rest
      else serve_frames svc sd rest
  end.

(** [WebSocket /ws/stream/{session_id}]: the frames sent to the client, the
    world left behind and the awaited calls. *)
Definition websocket_stream (svc : Services num) (session_id : string)
    (incoming : list (ClientEvent num)) (w : World num)
    : list (ServerMsg num) * World num * list Event :=
  match active_sessions w !! session_id with
  | None => ([MsgError "Session not found"; Close], w, [])
  | Some session =>
      let path := file_path session in
      match stream_data session with
      | None =>
          match initialize_stream svc path with
          | inl message =>
              ([MsgStatus "Initializing real-time analysis...";
                MsgError ("Streaming error: " +:+ message)],
               w, [InitializeStream path])
          | inr sd =>
              (MsgStatus "Initializing real-time analysis..."
               :: MsgReady (stream_duration sd) "Ready for streaming"
               :: serve_frames svc sd incoming,
               {| active_sessions :=
                    <[session_id := set_stream_data sd session]> (active_sessions w);
                  fs := fs w |},
               [InitializeStream path; Sleep 0.1%Q])
          end
      | Some sd =>
          (MsgReady (stream_duration sd) "Ready for streaming"
           :: serve_frames svc sd incoming,
           w, [Sleep 0.1%Q])
      end
  end.

(** *** Requests served one after the other *)

(** Between two requests the streaming task may have mutated the shared
    [stream_data] dictionary of a session. *)
Definition stream_progress (session_id : string)
    (f : StreamData num → StreamData num) (w : World num) : World num :=
  {| active_sessions := alter (mutate_stream_data f) session_id (active_sessions w);
     fs := fs w |}.

Inductive Request :=
| Upload (uuid4 : string) (file : UploadFile)
| Analyze (svc : Services num) (session_id : string)
| GetAnalysis (session_id : string)
| Stream (svc : Services num) (session_id : string) (incoming : list (ClientEvent num))
| Video (session_id : string)
| DeleteSession (session_id : string)
| ExportPdf (env : ExportEnv) (session_id : string)
| ExportJson (env : ExportEnv) (session_id : string)
| StreamingTask (session_id : string) (f : StreamData num → StreamData num).

(** The world a request leaves behind. *)
Definition serve (w : World num) (r : Request) : World num :=
  match r with
  | Upload uuid4 file => (upload_file uuid4 file w).1.2
  | Analyze svc sid => (analyze_meeting svc sid w).1.2
  | GetAnalysis sid => (get_analysis sid w).1.2
  | Stream svc sid incoming => (websocket_stream svc sid incoming w).1.2
  | Video sid => (get_video sid w).1.2
  | DeleteSession sid => (delete_session sid w).1.2
  | ExportPdf env sid => (export_pdf env sid w).1.2
  | ExportJson env sid => (export_json env sid w).1.2
  | StreamingTask sid f => stream_progress sid f w
  end.

Definition serve_all (w : World num) (requests : list Request) : World num :=
  foldl serve w requests.

(** The server starts with [active_sessions = {}] on some file system. *)
Definition start (fs0 : FileSystem) : World num :=
  {| active_sessions := ∅; fs := fs0 |}.

Definition reachable (w : World num) : Prop :=
  ∃ fs0 requests, w = serve_all (start fs0) requests.

(** *** Vocabulary of the properties *)

(** Number of invocations of the full-path producer in a trace. *)
Definition full_computations (trace : list Event) : nat :=
  List.length (List.filter (λ ev, match ev with AnalyzeFull _ => true | _ => false end) trace).

(** Number of derivations from the stream cache in a trace. *)
Definition stream_derivations (trace : list Event) : nat :=
  List.length (List.filter
            (λ ev, match ev with BuildAnalysisFromStream _ => true | _ => false end)
            trace).

(** The durations of the sleeps in a trace. *)
Definition sleeps (trace : list Event) : list Q :=
  omap (λ ev, match ev with Sleep d => Some d | _ => None end) trace.

(** The session holds a usable analysis cache. *)
Definition cached (s : Session num) : bool :=
  analysis_complete s && truthy (analysis s).

(** The parallel lists of a stream cache describe the same samples. *)
Definition stream_well_formed (sd : StreamData num) : Prop :=
  List.length (energy_timeline sd) = List.length (timestamps sd) ∧
  List.length (emotion_series sd) = List.length (timestamps sd) ∧
  List.length (categories sd) = List.length (timestamps sd).

(** The stream cache after the streaming task ran during the sleeps
    [a], [a+1], ..., [a+k-1] of a request. *)
Fixpoint stream_after (svc : Services num) (a k : nat) (sd : StreamData num)
    : StreamData num :=
  match k with
  | O => sd
  | S k' => stream_after svc (S a) k' (streaming_task svc a sd)
  end.

(** The session whose stream cache went through these sleeps. *)
Definition session_after (svc : Services num) (a k : nat) (s : Session num)
    : Session num :=
  mutate_stream_data (stream_after svc a k) s.

(** How many times the polling loop sleeps when it starts at iteration [a]
    with [n] iterations to go: it stops at the first iteration that sees the
    stream cache fully processed. *)
Fixpoint waited (svc : Services num) (a n : nat) (s : Session num) : nat :=
  match n with
  | O => O
  | S n' =>
      if stream_is_fully_processed s then O
      else S (waited svc (S a) n' (mutate_stream_data (streaming_task svc a) s))
  end.

(** The session a successful computation of [results] leaves behind. *)
Definition completed (results : AnalysisResult num) (s : Session num) : Session num :=
  set_status "complete" (set_analysis_complete true (set_analysis results s)).

(** The session a failed producer call leaves behind. *)
Definition errored (message : string) (s : Session num) : Session num :=
  set_error message (set_status "error" s).

(** A handler result that was preceded by [k] polling sleeps. *)
Definition after_sleeps {A} (k : nat) (r : Outcome A * Session num * list Event)
    : Outcome A * Session num * list Event :=
  (r.1.1, r.1.2, replicate k (Sleep 2%Q) ++ r.2).

(** What [analysisCache present ⇒ status == Complete] asks of a session,
    together with the flag that guards the cache. *)
Definition analysis_implies_complete (s : Session num) : Prop :=
  is_Some (analysis s) → status s = "complete" ∧ analysis_complete s = true.

(** The request neither deletes the session [sid] nor uploads over it. *)
Definition keeps_session (sid : string) (r : Request) : Prop :=
  match r with
  | DeleteSession sid' => sid' ≠ sid
  | Upload uuid4 _ => uuid4 ≠ sid
  | _ => True
  end.

(** The invariant carried through every request: an analysis is stored
    exactly when the completion flag is set, and then the status is
    ["complete"]. *)
Definition session_ok (s : Session num) : Prop :=
  analysis_implies_complete s ∧ (analysis_complete s = true → is_Some (analysis s)).

Definition world_ok (w : World num) : Prop :=
  map_Forall (λ _ s, session_ok s) (active_sessions w).

(** The three shapes a session has between two requests: uploaded and
    untouched by a producer, completed with its analysis, or failed with the
    producer's message. *)
Definition settled (s : Session num) : Prop :=
  (status s = "uploaded" ∧ analysis s = None ∧ analysis_complete s = false
   ∧ error s = None) ∨
  (status s = "complete" ∧ is_Some (analysis s) ∧ analysis_complete s = true) ∨
  (status s = "error" ∧ analysis s = None ∧ analysis_complete s = false
   ∧ is_Some (error s)).

(** The frames the receive loop of [websocket_stream] reacts to: a frame of
    type ["seek"] or ["ping"], a disconnect, and a frame that cannot be
    decoded. *)
Definition is_handled_frame (ev : ClientEvent num) : bool :=
  match ev with
  | Recv type _ => bool_decide (type = Some "seek") || bool_decide (type = Some "ping")
  | _ => true
  end.

(** *** Analyze calls interleaved at their awaits

    [analyze_meeting] is a coroutine: between two [await]s it runs without
    interruption, and while it is suspended at an [await] the event loop runs
    other calls and the streaming task.  The handler takes no lock and checks
    for a stored analysis once, at line 120.  Below, its body is cut at its
    three [await]s (lines 139, 144 and 167) into the stretches that run
    without interruption.  The local [stream_data] of line 131 is the
    dictionary stored in the session, which no stretch binds again once it
    is there: the polling loop reads its flag in the session. *)

(** A call suspended at an [await], with what it needs to go on:
    [AtSleep i rest] at line 139, [await asyncio.sleep(2)] in iteration [i],
    where [rest] is what is left of [range(15)]; [AtBuild results] at line
    144, [await streaming_service.build_analysis_from_stream(...)], with the
    result the service is going to deliver; [AtAnalyzeFull path] at line 167,
    [await analyzer_service.analyze_full(file_path)]. *)
Inductive Suspended :=
| AtSleep (i : nat) (rest : list nat)
| AtBuild (results : AnalysisResult num)
| AtAnalyzeFull (path : string).

(** How one uninterrupted stretch of the handler ends: it returns or raises,
    or it is suspended at the next [await]. *)
Inductive Stretch :=
| Finished (out : Outcome (Response num))
| Awaiting (at_await : Suspended).

(** Lines 156 to 167: the file check, the status and the call of the
    producer. *)
Definition begin_full_analysis (fs : FileSystem) (s : Session num)
    : Stretch * Session num * list Event :=
  let path := file_path s in
  if negb (path_exists path fs) then
    (Finished (Raise (HTTPException 404 "File not found")), s, [])
  else
    (Awaiting (AtAnalyzeFull path), set_status "analyzing" s, [AnalyzeFull path]).

(** Lines 141 to 144, after the polling loop: derive the analysis when the
    stream cache is complete, go on from scratch otherwise. *)
Definition after_polling (svc : Services num) (fs : FileSystem) (s : Session num)
    : Stretch * Session num * list Event :=
  match stream_data s with
  | Some sd =>
      if is_fully_processed sd then
        (Awaiting (AtBuild (build_analysis_from_stream svc sd (file_path s))), s,
         [BuildAnalysisFromStream (file_path s)])
      else begin_full_analysis fs s
  | None => begin_full_analysis fs s
  end.

(** Lines 134 to 139: the polling loop from the head of one iteration to
    its [await], or out of the loop. *)
Definition poll (svc : Services num) (fs : FileSystem) (iterations : list nat)
    (s : Session num) : Stretch * Session num * list Event :=
  match iterations with
  | [] => after_polling svc fs s
  | i :: rest =>
      if stream_is_fully_processed s then after_polling svc fs s
      else (Awaiting (AtSleep i rest), s, [Sleep 2%Q])
  end.

(** The handler from line 117 (the session found in the map) to its first
    [await]: the only check for a stored analysis, then the polling loop or
    the analysis from scratch. *)
Definition analyze_begin (svc : Services num) (fs : FileSystem) (session_id : string)
    (s : Session num) : Stretch * Session num * list Event :=
  if analysis_complete s && truthy (analysis s) then
    (Finished (Return (AnalysisComplete session_id (analysis s))), s, [])
  else if truthy (stream_data s) then poll svc fs (seq 0 15) s
  else begin_full_analysis fs s.

(** The handler from the [await] it was suspended at to the next one, on the
    session as it is when the call goes on: lines 139 to 144 after a sleep,
    lines 145 to 154 after the derivation, lines 168 to 206 after the
    producer. *)
Definition analyze_resume (svc : Services num) (fs : FileSystem) (session_id : string)
    (at_await : Suspended) (s : Session num) : Stretch * Session num * list Event :=
  match at_await with
  | AtSleep _ rest => poll svc fs rest s
  | AtBuild results =>
      (Finished (Return (AnalysisComplete session_id (Some results))),
       set_status "complete" (set_analysis_complete true (set_analysis results s)), [])
  | AtAnalyzeFull path =>
      match analyze_full svc path with
      | inr results =>
          let s1 :=
            set_status "complete" (set_analysis_complete true (set_analysis results s)) in
          (Finished (Return (AnalysisComplete session_id (Some results))),
           (if truthy (stream_data s1) then s1
            else set_stream_data (stream_data_of_results results) s1), [])
      | inl message =>
          (Finished (Raise (HTTPException 500 ("Analysis failed: " +:+ message))),
           set_error message (set_status "error" s), [])
      end
  end.

(** A call in flight: the services that answer it, its session and the
    [await] it is suspended at. *)
Record Call := {
  call_services : Services num;
  call_session : string;
  call_at : Suspended
}.

(** The server between two stretches: the world, the calls in flight under
    the numbers they were given, and the number of the next call. *)
Record Server := {
  server_world : World num;
  in_flight : gmap nat Call;
  next_call : nat
}.

(** The server with no call in flight. *)
Definition quiet (w : World num) : Server :=
  {| server_world := w; in_flight := ∅; next_call := 0 |}.

(** What the event loop runs next: the first stretch of a new analyze call,
    the next stretch of a suspended one, or a step of the streaming task on
    the stream cache of a session. *)
Inductive Action :=
| Begin (svc : Services num) (session_id : string)
| Resume (call : nat)
| Progress (session_id : string) (f : StreamData num → StreamData num).

(** The session dictionary is shared with [active_sessions]: what a stretch
    did to it is in the map. *)
Definition store (session_id : string) (s : Session num) (w : World num) : World num :=
  {| active_sessions := <[session_id := s]> (active_sessions w); fs := fs w |}.

(** One step of the event loop.  A call on an unknown session raises 404 at
    line 115 and touches nothing; a call that is suspended is filed under the
    next number; a call that returns or raises is no longer in flight.  No
    action removes a session, so the session of a call in flight is in the
    map when the call goes on. *)
Definition act (σ : Server) (a : Action) : Server :=
  let w := server_world σ in
  match a with
  | Begin svc session_id =>
      match active_sessions w !! session_id with
      | None => σ
      | Some s =>
          let '(stretch, s', _) := analyze_begin svc (fs w) session_id s in
          {| server_world := store session_id s' w;
             in_flight :=
               match stretch with
               | Finished _ => in_flight σ
               | Awaiting at_await =>
                   <[next_call σ := {| call_services := svc;
                                       call_session := session_id;
                                       call_at := at_await |}]> (in_flight σ)
               end;
             next_call := S (next_call σ) |}
      end
  | Resume call =>
      match in_flight σ !! call with
      | None => σ
      | Some c =>
          match active_sessions w !! call_session c with
          | None => σ
          | Some s =>
              let '(stretch, s', _) :=
                analyze_resume (call_services c) (fs w) (call_session c) (call_at c) s in
              {| server_world := store (call_session c) s' w;
                 in_flight :=
                   match stretch with
                   | Finished _ => delete call (in_flight σ)
                   | Awaiting at_await =>
                       <[call := {| call_services := call_services c;
                                    call_session := call_session c;
                                    call_at := at_await |}]> (in_flight σ)
                   end;
                 next_call := next_call σ |}
          end
      end
  | Progress session_id f =>
      {| server_world := stream_progress session_id f w;
         in_flight := in_flight σ;
         next_call := next_call σ |}
  end.

(** The server after a schedule of the event loop. *)
Definition interleave (σ : Server) (actions : list Action) : Server :=
  foldl act σ actions.

(** No analyze call begins on a session on which another call is
    suspended. *)
Fixpoint calls_do_not_overlap (σ : Server) (actions : list Action) : Prop :=
  match actions with
  | [] => True
  | a :: rest =>
      match a with
      | Begin _ session_id =>
          map_Forall (λ _ c, call_session c ≠ session_id) (in_flight σ)
      | _ => True
      end ∧ calls_do_not_overlap (act σ a) rest
  end.

(** A call that runs alone: while it is suspended in the sleep of
    iteration [i] only the streaming task runs, and nothing runs while it
    waits for a producer.  [fuel] bounds the number of stretches. *)
Fixpoint run_alone (svc : Services num) (fs : FileSystem) (session_id : string)
    (fuel : nat) (r : Stretch * Session num * list Event)
    : option (Outcome (Response num) * Session num * list Event) :=
  match r with
  | (Finished out, s, trace) => Some (out, s, trace)
  | (Awaiting at_await, s, trace) =>
      match fuel with
      | O => None
      | S fuel' =>
          let s1 :=
            match at_await with
            | AtSleep i _ => mutate_stream_data (streaming_task svc i) s
            | _ => s
            end in
          let '(stretch, s2, trace2) := analyze_resume svc fs session_id at_await s1 in
          run_alone svc fs session_id fuel' (stretch, s2, trace ++ trace2)
      end
  end.

(** What holds between two stretches when calls do not overlap: the sessions
    satisfy the invariant, a session with a call in flight holds no analysis,
    and no session has two calls in flight. *)
Definition server_ok (σ : Server) : Prop :=
  world_ok (server_world σ) ∧
  (∀ n c, in_flight σ !! n = Some c →
     (n < next_call σ)%nat ∧
     ∃ s, active_sessions (server_world σ) !! call_session c = Some s ∧
          analysis s = None ∧ analysis_complete s = false) ∧
  (∀ n m c d, in_flight σ !! n = Some c → in_flight σ !! m = Some d →
     call_session c = call_session d → n = m).

End Handlers.

Arguments Request num : clear implicits.
Arguments Suspended num : clear implicits.
Arguments Stretch num : clear implicits.
Arguments Call num : clear implicits.
Arguments Server num : clear implicits.
Arguments Action num : clear implicits.

(** The answer of [GET /api/health]. *)
Record Health := {
  health_status : string;
  health_active_sessions : nat;
  vokaturi_available : bool
}.

(** [GET /api/health].  [vokaturi_loaded] is
    [analyzer_service.emotion_detector.vokaturi_loaded]. *)
Definition health_check {num : Type} (vokaturi_loaded : bool) (w : World num) : Health :=
  {| health_status := "healthy";
     health_active_sessions := size (active_sessions w);
     vokaturi_available := vokaturi_loaded |}.

End App.

(** ** Concrete requests

    A small recording, its analysis and the services answering about it, used
    to run the handlers. Numbers are [Tenths]; paths are [Posix]. *)

Module Scenario.
Import PyStr Schema Tenths Posix App.

Definition neutral_summary : Summary Z :=
  {| dominant_emotion := "😐 Neutral";
     avg_energy := 400%Z; silence_pct := 250%Z; participation := 600%Z;
     volatility := 20%Z; psych_risk := "Low"; distribution := [] |}.

Definition mixed_summary : Summary Z :=
  {| dominant_emotion := "⚡ Energised, later 🔥 Stressed/Tense";
     avg_energy := 710%Z; silence_pct := 120%Z; participation := 880%Z;
     volatility := 31%Z; psych_risk := "Low"; distribution := [] |}.

(** The example of the specification: 42.0 % silence, volatility 7.5. *)
Definition stressed_summary : Summary Z :=
  {| dominant_emotion := "🔥 Stressed/Tense";
     avg_energy := 500%Z; silence_pct := 420%Z; participation := 800%Z;
     volatility := 75%Z; psych_risk := "High";
     distribution := [("🔥 Stressed/Tense", 600%Z)] |}.

Definition small_result : AnalysisResult Z :=
  {| duration := 100%Z;
     timeline := [ {| time := 0%Z; energy := 55%Z; emotion_raw := "neutral";
                      category := "😐 Neutral" |} ];
     summary := neutral_summary;
     clusters := None;
     suggestions := None |}.

Definition meeting : UploadFile :=
  {| upload_filename := "standup.MP4"; upload_content := "RIFF" |}.

Definition notes : UploadFile :=
  {| upload_filename := "notes.txt"; upload_content := "agenda" |}.

Definition empty_disk : FileSystem := {| files := ∅; dirs := ∅ |}.

(** A stream cache that has just been initialised. *)
Definition fresh_stream : StreamData Z :=
  {| stream_duration := 100%Z; timestamps := []; energy_timeline := [];
     emotion_series := []; categories := []; sample_rate := 16000;
     is_fully_processed := false |}.

(** The same cache once the streaming task has processed the recording. *)
Definition finished_stream : StreamData Z :=
  {| stream_duration := 100%Z; timestamps := [0%Z; 50%Z];
     energy_timeline := [52%Z; 61%Z];
     emotion_series := ["neutral"; "happy"];
     categories := ["😐 Neutral"; "⚡ Energised"]; sample_rate := 16000;
     is_fully_processed := true |}.

(** Services whose producer answers; the streaming task makes no progress
    while a request sleeps. *)
Definition working : Services Z :=
  {| analyze_full := λ _, inr small_result;
     initialize_stream := λ _, inr fresh_stream;
     stream_aggregates := λ _ _, (neutral_summary, None, None);
     get_realtime_data := λ _ _, inr JNull;
     streaming_task := λ _ sd, sd |}.

(** The same services with a streaming task that finishes during the third
    sleep of a request. *)
Definition finishing : Services Z :=
  {| analyze_full := λ _, inr small_result;
     initialize_stream := λ _, inr fresh_stream;
     stream_aggregates := λ _ _, (neutral_summary, None, None);
     get_realtime_data := λ _ _, inr JNull;
     streaming_task := λ i sd, if (i =? 2)%nat then finished_stream else sd |}.

(** Services whose producer raises. *)
Definition failing : Services Z :=
  {| analyze_full := λ _, inl "decoder error";
     initialize_stream := λ _, inr fresh_stream;
     stream_aggregates := λ _ _, (neutral_summary, None, None);
     get_realtime_data := λ _ _, inr JNull;
     streaming_task := λ _ sd, sd |}.

Definition recording : string := "4f2c0d1e".

Definition uploaded_session : Session Z :=
  {| file_path := "/tmp/moodflo/4f2c0d1e/standup.MP4";
     filename := "standup.MP4";
     status := "uploaded";
     analysis_complete := false;
     analysis := None;
     stream_data := None;
     error := None |}.

(** The server before any request. *)
Definition idle : World Z := start empty_disk.

(** After the upload. *)
Definition uploaded : World Z :=
  serve_all (start empty_disk) [Upload recording meeting].

(** After the upload and a stream connection. *)
Definition streaming : World Z :=
  serve_all (start empty_disk) [Upload recording meeting; Stream working recording []].

(** After the upload and a stream connection whose processing has finished. *)
Definition streamed : World Z :=
  serve_all (start empty_disk)
    [Upload recording meeting; Stream working recording [];
     StreamingTask recording (λ _, finished_stream)].


(** After the upload, a stream connection, an analysis request that waited
    in vain and computed from scratch, and the late end of the streaming. *)
Definition recorded : World Z :=
  serve_all (start empty_disk)
    [Upload recording meeting; Stream working recording []; Analyze working recording;
     StreamingTask recording (λ _, finished_stream)].

(** The session as these worlds hold it. *)
Definition streaming_session : Session Z :=
  {| file_path := "/tmp/moodflo/4f2c0d1e/standup.MP4";
     filename := "standup.MP4";
     status := "uploaded";
     analysis_complete := false;
     analysis := None;
     stream_data := Some fresh_stream;
     error := None |}.

Definition streamed_session : Session Z :=
  {| file_path := "/tmp/moodflo/4f2c0d1e/standup.MP4";
     filename := "standup.MP4";
     status := "uploaded";
     analysis_complete := false;
     analysis := None;
     stream_data := Some finished_stream;
     error := None |}.

Definition analysed_session : Session Z :=
  {| file_path := "/tmp/moodflo/4f2c0d1e/standup.MP4";
     filename := "standup.MP4";
     status := "complete";
     analysis_complete := true;
     analysis := Some small_result;
     stream_data := Some (stream_data_of_results small_result);
     error := None |}.

(** A second recording, uploaded after the first. *)
Definition briefing : string := "9a3b7c55".

Definition two_uploads : World Z :=
  serve_all (start empty_disk) [Upload recording meeting; Upload briefing meeting].


End Scenario.

(* ===================================================================== *)
(** * Part II: properties                                                 *)
(* ===================================================================== *)

(** ** Strings *)

Section StringFacts.
Import PyStr.

(** [String.prefix] is being a prefix. *)
Lemma prefix_app (p s : string) :
  String.prefix p s = true ↔ ∃ post, s = p +:+ post.
Proof.
  revert s. induction p as [|c p IH]; intros s.
  - split; [intros _; by exists s | by destruct s].
  - destruct s as [|c' s']; simpl.
    + split; [done | intros [post Hp]; discriminate].
    + destruct (ascii_dec c c') as [->|Hne].
      * rewrite IH. split; intros [post Hp]; exists post.
        -- simpl. by rewrite Hp.
        -- simpl in Hp. by injection Hp.
      * split; [done | intros [post Hp]; simpl in Hp; injection Hp; done].
Qed.

(** [contains] is Python's [in]: some occurrence of the pattern. *)
Lemma contains_substring (pat s : string) :
  contains pat s = true ↔ ∃ pre post, s = pre +:+ pat +:+ post.
Proof.
  induction s as [|c s IH]; cbn [contains].
  - rewrite orb_false_r, prefix_app. split.
    + intros [post Hp]. by exists EmptyString, post.
    + intros [pre [post Hp]]. destruct pre; [by exists post | discriminate].
  - rewrite orb_true_iff, prefix_app, IH. split.
    + intros [[post Hp] | [pre [post Hp]]].
      * by exists EmptyString, post.
      * exists (String c pre), post. simpl. by rewrite Hp.
    + intros [pre [post Hp]]. destruct pre as [|c' pre]; simpl in Hp.
      * left. by exists post.
      * right. exists pre, post. by injection Hp.
Qed.

End StringFacts.

(** ** The fallback classifier *)

Section InsightsFacts.
Import PyStr Schema Insights.
Context {num : Type} `{PyFloat num}.

(** The [if]/[elif] chain is first-match selection over the priority table. *)
Lemma category_block_first_match (dominant : string) :
  category_block dominant = first_match dominant.
Proof.
  unfold category_block, first_match, priority_table, row_matches. simpl.
  rewrite !orb_false_r.
  repeat (case_match; simpl; try reflexivity).
Qed.

(** The three [return] statements build the same concatenation. *)
Lemma fallback_shape (data : Summary num) :
  _fallback_suggestions data =
    fst (category_block (dominant_emotion data))
    +:+ (nl +:+ "RECOMMENDATIONS:" +:+ nl)
    +:+ join nl (take 5 (snd (category_block (dominant_emotion data))))
    +:+ risk_annex data.
Proof.
  unfold _fallback_suggestions, risk_annex.
  destruct (category_block _) as [header suggestions]. simpl.
  repeat case_match; reflexivity.
Qed.

(** No suggestion holds a line break and every annex starts with an empty
    line: the lines under the label are the kept suggestions. *)
Lemma fallback_recommendation_lines (data : Summary num) :
  recommendation_lines (_fallback_suggestions data)
  = take 5 (snd (category_block (dominant_emotion data))).
Proof.
  rewrite fallback_shape. unfold category_block, risk_annex.
  repeat case_match; vm_compute; reflexivity.
Qed.

Lemma category_block_size (dominant : string) :
  List.length (take 5 (snd (category_block dominant)))
  = if existsb (row_matches dominant) priority_table then 5 else 4.
Proof.
  unfold category_block, priority_table, row_matches. simpl.
  rewrite !orb_false_r.
  repeat (case_match; simpl in *; try reflexivity; try discriminate).
Qed.

Lemma fallback_nonempty (data : Summary num) :
  _fallback_suggestions data ≠ EmptyString.
Proof.
  rewrite fallback_shape. unfold category_block.
  repeat case_match; discriminate.
Qed.

(** Without a client, or when the chat call raises, the rule-based text is
    what [generate_suggestions] returns. *)
Lemma generate_suggestions_falls_back (data : Summary num)
    (client : option (string → string + string)) :
  (∀ chat, client = Some chat → ∃ e, chat (_build_prompt data) = inl e) →
  generate_suggestions client data = _fallback_suggestions data.
Proof.
  intros Hfail. unfold generate_suggestions.
  destruct client as [chat|]; [|reflexivity].
  destruct (Hfail chat eq_refl) as [e ->]. reflexivity.
Qed.

End InsightsFacts.

Import PyStr Schema Insights Tenths Scenario.

(** Claim C5.  The fallback classifier selects its category by substring
    containment on the dominant emotion, testing the patterns in the fixed
    order energised, stressed/tense, flat/disengaged,
    thoughtful/constructive, volatile/unstable, default: the [if]/[elif]
    chain of the code is first-match selection over that ordered table, the
    header and the suggestion list of the output are those of the first
    matching row, and a dominant emotion containing "Energised" yields the
    energised category whatever else it contains. *)
Theorem fallback_category_priority :
  ∀ (num : Type) (F : PyFloat num) (data : Summary num),
    let dominant := dominant_emotion data in
    category_block dominant = first_match dominant ∧
    _fallback_suggestions data =
      fst (first_match dominant) +:+ (nl +:+ "RECOMMENDATIONS:" +:+ nl)
      +:+ join nl (take 5 (snd (first_match dominant))) +:+ risk_annex data ∧
    (contains "Energised" dominant = true →
     first_match dominant = (energised_header, energised_suggestions)).
Proof.
  intros num F data dominant. split; [apply category_block_first_match |]. split.
  - rewrite <- category_block_first_match. apply fallback_shape.
  - intros Hen. rewrite <- category_block_first_match.
    unfold category_block. by rewrite Hen.
Qed.

(** A dominant emotion naming both "Energised" and "Stressed". *)
Lemma fallback_category_priority_witness :
  contains "Stressed" (dominant_emotion mixed_summary) = true ∧
  first_match (dominant_emotion mixed_summary) = (energised_header, energised_suggestions).
Proof.
  split; [reflexivity |].
  apply (fallback_category_priority Z Tenths.tenths_float mixed_summary).
  reflexivity.
Defined.

(** Claim C6 fails for the default category: a legal summary whose dominant
    emotion matches no pattern gets the four default suggestions, not five
    lines. *)
Lemma fallback_default_has_four_lines :
  psych_risk neutral_summary = "Low" ∧
  recommendation_lines (_fallback_suggestions neutral_summary) = default_suggestions ∧
  List.length (recommendation_lines (_fallback_suggestions neutral_summary)) ≠ 5.
Proof. vm_compute. repeat split; discriminate. Qed.

(** Claim C6, as amended.  For every summary the fallback text is not empty
    and is the concatenation of the category header, the "RECOMMENDATIONS:"
    label, the first five suggestion lines of the matched category (all of
    them when it has fewer) and the risk annex chosen by the risk tier; the
    recommendation lines of the text are exactly these suggestions: five for
    each of the five named categories, four for the default category. *)
Theorem fallback_text_structure :
  ∀ (num : Type) (F : PyFloat num) (data : Summary num),
    let block := category_block (dominant_emotion data) in
    let text := _fallback_suggestions data in
    text ≠ EmptyString ∧
    text = fst block +:+ (nl +:+ "RECOMMENDATIONS:" +:+ nl)
           +:+ join nl (take 5 (snd block)) +:+ risk_annex data ∧
    recommendation_lines text = take 5 (snd block) ∧
    List.length (recommendation_lines text)
    = if existsb (row_matches (dominant_emotion data)) priority_table then 5 else 4.
Proof.
  intros num F data block text. repeat split.
  - apply fallback_nonempty.
  - apply fallback_shape.
  - apply fallback_recommendation_lines.
  - unfold text. rewrite fallback_recommendation_lines. apply category_block_size.
Qed.

(** The example of the specification: the summary with 42.0 % silence and
    volatility 7.5 at high risk starts with the stressed/tense header, keeps
    five recommendations and ends with the HIGH annex holding both numbers. *)
Example fallback_specification_example :
  String.prefix stressed_header (_fallback_suggestions stressed_summary) = true ∧
  recommendation_lines (_fallback_suggestions stressed_summary) = stressed_suggestions ∧
  contains "PSYCHOLOGICAL SAFETY RISK: HIGH" (_fallback_suggestions stressed_summary) = true ∧
  contains "Silence: 42.0%" (_fallback_suggestions stressed_summary) = true ∧
  contains "Volatility: 7.5" (_fallback_suggestions stressed_summary) = true.
Proof. vm_compute. done. Qed.

(** ** The report translators *)

Section ReportFacts.
Import Report.
Context {num : Type} `{PyFloat num}.

(** The fourth flowable of the story is the table holding the timestamp. *)
Lemma pdf_story_generated_row (self : ReportGenerator num) :
  pdf_story self !! 3%nat
  = Some (Table [["Generated:"; timestamp self];
                 ["Session ID:"; slice_to 13 (session_id self) +:+ "..."];
                 ["Duration:"; format_time (duration (results self))]]
                [1.5%Q; 4.5%Q]).
Proof. reflexivity. Qed.

Lemma pdf_story_elsewhere (r : AnalysisResult num) (sid now1 now2 : string) (i : nat) :
  i ≠ 3%nat →
  pdf_story (new r sid now1) !! i = pdf_story (new r sid now2) !! i.
Proof.
  intros Hi. unfold pdf_story. simpl.
  do 3 (destruct i as [|i]; [reflexivity |]).
  destruct i as [|i]; [done |]. reflexivity.
Qed.

Lemma json_generated (r : AnalysisResult num) (sid now : string) :
  json_field "metadata" (toJson now r sid) ≫= json_field "generated" = Some (JStr now).
Proof. reflexivity. Qed.

Lemma json_elsewhere (r : AnalysisResult num) (sid now1 now2 : string) :
  json_without_in "metadata" "generated" (toJson now1 r sid)
  = json_without_in "metadata" "generated" (toJson now2 r sid).
Proof. reflexivity. Qed.

Lemma json_same_only_at_same_reading (r : AnalysisResult num) (sid now1 now2 : string) :
  toJson now1 r sid = toJson now2 r sid → now1 = now2.
Proof.
  intros Heq.
  pose proof (json_generated r sid now1) as H1.
  rewrite Heq, json_generated in H1. by injection H1.
Qed.

Lemma pdf_story_same_only_at_same_reading (r : AnalysisResult num)
    (sid now1 now2 : string) :
  pdf_story (new r sid now1) = pdf_story (new r sid now2) → now1 = now2.
Proof.
  intros Heq.
  pose proof (pdf_story_generated_row (new r sid now1)) as H1.
  rewrite Heq, pdf_story_generated_row in H1. by injection H1.
Qed.

End ReportFacts.

Import Report Scenario.

(** Claim C8 fails: the same result and session id exported one second
    apart give different JSON documents and different PDF stories. *)
Lemma report_depends_on_clock :
  toJson "2024-05-01 10:00:00" small_result "0b7e5a1c"
  ≠ toJson "2024-05-01 10:00:01" small_result "0b7e5a1c" ∧
  pdf_story (new small_result "0b7e5a1c" "2024-05-01 10:00:00")
  ≠ pdf_story (new small_result "0b7e5a1c" "2024-05-01 10:00:01").
Proof. split; vm_compute; discriminate. Qed.

(** Claim C8, as amended.  For a fixed analysis result and session id, what
    the translators produce varies with the clock reading taken when the
    generator is constructed, and only in the stamp that shows it.  The JSON
    documents of two invocations are equal only if the two readings are: the
    reading is the value of [metadata.generated], and without that entry the
    two documents are the same.  The lists of flowables that
    [generate_pdf_report] hands to ReportLab are equal only if the two
    readings are: the reading is in the "Generated:" row of the fourth
    flowable, and the two lists agree at every other position. *)
Theorem report_differs_only_in_generated_stamp :
  ∀ (num : Type) (F : PyFloat num)
    (result : AnalysisResult num) (sessionId now1 now2 : string),
    (toJson now1 result sessionId = toJson now2 result sessionId → now1 = now2) ∧
    json_field "metadata" (toJson now1 result sessionId) ≫= json_field "generated"
      = Some (JStr now1) ∧
    json_without_in "metadata" "generated" (toJson now1 result sessionId)
      = json_without_in "metadata" "generated" (toJson now2 result sessionId) ∧
    (pdf_story (new result sessionId now1) = pdf_story (new result sessionId now2) →
     now1 = now2) ∧
    pdf_story (new result sessionId now1) !! 3%nat
      = Some (Table [["Generated:"; now1];
                     ["Session ID:"; slice_to 13 sessionId +:+ "..."];
                     ["Duration:"; format_time (duration result)]]
                    [1.5%Q; 4.5%Q]) ∧
    (∀ i : nat, i ≠ 3%nat →
       pdf_story (new result sessionId now1) !! i
       = pdf_story (new result sessionId now2) !! i).
Proof.
  intros num F result sessionId now1 now2.
  split; [apply json_same_only_at_same_reading |].
  split; [apply json_generated |].
  split; [apply json_elsewhere |].
  split; [apply pdf_story_same_only_at_same_reading |].
  split; [apply pdf_story_generated_row |].
  intros i Hi. by apply pdf_story_elsewhere.
Qed.

(** ** The session coordinator *)

Section HandlerFacts.
Import App.
Context {num : Type} `{PyFloat num} `{PyRuntime}.
Implicit Types (s : Session num) (svc : Services num) (w : World num).

(** Evaluate the monadic plumbing of a handler body. *)
Ltac run_handler :=
  cbv beta iota zeta delta
    [mbind handler_bind mret handler_ret get modify emit raise try_except
     await_sleep await_analyze_full await_build_analysis_from_stream].

Lemma mutate_stream_data_id s :
  mutate_stream_data (λ sd, sd) s = s.
Proof. destruct s as [? ? ? ? ? [sd|] ?]; reflexivity. Qed.

Lemma mutate_stream_data_compose f g s :
  mutate_stream_data g (mutate_stream_data f s) = mutate_stream_data (λ sd, g (f sd)) s.
Proof. destruct s as [? ? ? ? ? [sd|] ?]; reflexivity. Qed.

Lemma session_after_succ svc a k s :
  session_after svc (S a) k (mutate_stream_data (streaming_task svc a) s)
  = session_after svc a (S k) s.
Proof. unfold session_after. by rewrite mutate_stream_data_compose. Qed.

(** The polling loop sleeps [waited] times and does nothing else. *)
Lemma wait_for_stream_run svc n a s :
  wait_for_stream svc (seq a n) s
  = (Return tt, session_after svc a (waited svc a n s) s,
     replicate (waited svc a n s) (Sleep 2%Q)).
Proof.
  revert a s. induction n as [|n IH]; intros a s; simpl.
  - unfold session_after. simpl. by rewrite mutate_stream_data_id.
  - run_handler. destruct (stream_is_fully_processed s) eqn:Hfp.
    + unfold session_after. simpl. by rewrite mutate_stream_data_id.
    + rewrite IH, session_after_succ. reflexivity.
Qed.

(** The from-scratch path, case by case. *)
Lemma run_full_analysis_eq svc fs sid s :
  run_full_analysis svc fs sid s =
  if path_exists (file_path s) fs then
    match analyze_full svc (file_path s) with
    | inr r =>
        (Return (AnalysisComplete sid (Some r)),
         (if truthy (stream_data s) then completed r (set_status "analyzing" s)
          else set_stream_data (stream_data_of_results r)
                 (completed r (set_status "analyzing" s))),
         [AnalyzeFull (file_path s)])
    | inl message =>
        (Raise (HTTPException 500 ("Analysis failed: " +:+ message)),
         errored message (set_status "analyzing" s),
         [AnalyzeFull (file_path s)])
    end
  else (Raise (HTTPException 404 "File not found"), s, []).
Proof.
  unfold run_full_analysis. run_handler.
  destruct (path_exists (file_path s) fs); [|reflexivity]. simpl.
  destruct (analyze_full svc (file_path s)) as [message|r]; simpl; [reflexivity|].
  destruct (stream_data s); reflexivity.
Qed.

(** The whole body of [analyze_meeting], case by case. *)
Lemma analyze_session_eq svc fs sid s :
  analyze_session svc fs sid s =
  if cached s then (Return (AnalysisComplete sid (analysis s)), s, [])
  else if truthy (stream_data s) then
    let k := waited svc 0 15 s in
    let s1 := session_after svc 0 k s in
    match stream_data s1 with
    | Some sd =>
        if is_fully_processed sd then
          let r := build_analysis_from_stream svc sd (file_path s1) in
          (Return (AnalysisComplete sid (Some r)), completed r s1,
           replicate k (Sleep 2%Q) ++ [BuildAnalysisFromStream (file_path s1)])
        else after_sleeps k (run_full_analysis svc fs sid s1)
    | None => after_sleeps k (run_full_analysis svc fs sid s1)
    end
  else run_full_analysis svc fs sid s.
Proof.
  unfold analyze_session, cached. run_handler.
  destruct (analysis_complete s && truthy (analysis s)); [reflexivity|].
  destruct (truthy (stream_data s)).
  - rewrite (wait_for_stream_run svc 15 0 s).
    set (k := waited svc 0 15 s). set (s1 := session_after svc 0 k s).
    destruct (stream_data s1) as [sd|].
    + destruct (is_fully_processed sd).
      * simpl. by rewrite app_nil_r.
      * unfold after_sleeps. destruct (run_full_analysis svc fs sid s1) as [[o s2] t].
        simpl. by rewrite app_nil_r.
    + unfold after_sleeps. destruct (run_full_analysis svc fs sid s1) as [[o s2] t].
      simpl. by rewrite app_nil_r.
  - destruct (run_full_analysis svc fs sid s) as [[o s2] t]. reflexivity.
Qed.


(** *** The polling loop *)

Lemma stream_data_session_after svc a k s :
  stream_data (session_after svc a k s) = stream_after svc a k <$> stream_data s.
Proof. reflexivity. Qed.

Lemma waited_le svc n a s : waited svc a n s ≤ n.
Proof.
  revert a s. induction n as [|n IH]; intros a s; simpl; [lia|].
  destruct (stream_is_fully_processed s); [lia|].
  specialize (IH (S a) (mutate_stream_data (streaming_task svc a) s)). lia.
Qed.

Lemma waited_first svc n a s k :
  k ≤ n →
  (∀ i, i < k → stream_is_fully_processed (session_after svc a i s) = false) →
  (k < n → stream_is_fully_processed (session_after svc a k s) = true) →
  waited svc a n s = k.
Proof.
  revert a s k. induction n as [|n IH]; intros a s k Hk Hbefore Hstop; simpl.
  - lia.
  - destruct k as [|k].
    + specialize (Hstop ltac:(lia)). unfold session_after in Hstop. simpl in Hstop.
      rewrite mutate_stream_data_id in Hstop. by rewrite Hstop.
    + pose proof (Hbefore 0 ltac:(lia)) as H0'. unfold session_after in H0'.
      simpl in H0'. rewrite mutate_stream_data_id in H0'. rewrite H0'.
      f_equal. apply IH; [lia | |].
      * intros i Hi. rewrite session_after_succ. apply Hbefore. lia.
      * intros Hlt. rewrite session_after_succ. apply Hstop. lia.
Qed.

Lemma flag_session_after svc a k s sd :
  stream_data s = Some sd →
  stream_is_fully_processed (session_after svc a k s)
  = is_fully_processed (stream_after svc a k sd).
Proof.
  intros Hsd. unfold stream_is_fully_processed.
  by rewrite stream_data_session_after, Hsd.
Qed.

(** *** Traces *)

Lemma sleeps_app t1 t2 : sleeps (t1 ++ t2) = sleeps t1 ++ sleeps t2.
Proof. unfold sleeps. apply omap_app. Qed.

Lemma sleeps_replicate k d : sleeps (replicate k (Sleep d)) = replicate k d.
Proof. induction k as [|k IH]; simpl; [done | by rewrite <- IH]. Qed.

Lemma full_computations_app t1 t2 :
  full_computations (t1 ++ t2) = full_computations t1 + full_computations t2.
Proof. unfold full_computations. by rewrite List.filter_app, length_app. Qed.

Lemma full_computations_sleeps k d : full_computations (replicate k (Sleep d)) = 0.
Proof. induction k as [|k IH]; simpl; [done | exact IH]. Qed.

Lemma stream_derivations_app t1 t2 :
  stream_derivations (t1 ++ t2) = stream_derivations t1 + stream_derivations t2.
Proof. unfold stream_derivations. by rewrite List.filter_app, length_app. Qed.

Lemma stream_derivations_sleeps k d : stream_derivations (replicate k (Sleep d)) = 0.
Proof. induction k as [|k IH]; simpl; [done | exact IH]. Qed.

Lemma run_full_analysis_trace svc fs sid s :
  (run_full_analysis svc fs sid s).2 = [] ∨
  (run_full_analysis svc fs sid s).2 = [AnalyzeFull (file_path s)].
Proof.
  rewrite run_full_analysis_eq.
  destruct (path_exists _ _); [|by left].
  destruct (analyze_full _ _); by right.
Qed.

(** Every trace of [analyze_session] is at most fifteen sleeps of two
    seconds followed by at most one call of a producer. *)
Lemma analyze_session_trace svc fs sid s :
  ∃ k tail,
    (analyze_session svc fs sid s).2 = replicate k (Sleep 2%Q) ++ tail ∧
    k ≤ 15 ∧
    (tail = [] ∨ tail = [AnalyzeFull (file_path s)]
     ∨ tail = [BuildAnalysisFromStream (file_path s)]).
Proof.
  rewrite analyze_session_eq.
  destruct (cached s); [exists 0, []; simpl; auto with lia|].
  destruct (truthy (stream_data s)).
  - cbv zeta. set (k := waited svc 0 15 s). set (s1 := session_after svc 0 k s).
    assert (k ≤ 15) by apply waited_le.
    assert (∃ tail, (after_sleeps k (run_full_analysis svc fs sid s1)).2
                    = replicate k (Sleep 2%Q) ++ tail ∧
                    (tail = [] ∨ tail = [AnalyzeFull (file_path s)]
                     ∨ tail = [BuildAnalysisFromStream (file_path s)])) as Hfull.
    { destruct (run_full_analysis_trace svc fs sid s1) as [Ht|Ht];
        unfold after_sleeps; simpl; rewrite Ht; eauto. }
    destruct (stream_data s1) as [sd|].
    + destruct (is_fully_processed sd).
      * exists k, [BuildAnalysisFromStream (file_path s)]. simpl. auto.
      * destruct Hfull as (tail & ? & ?). exists k, tail. auto.
    + destruct Hfull as (tail & ? & ?). exists k, tail. auto.
  - exists 0. destruct (run_full_analysis_trace svc fs sid s) as [Ht|Ht];
      rewrite Ht; eauto 6 with lia.
Qed.


(** *** [analyze_meeting] on a session of the map *)

Lemma analyze_meeting_found svc sid w s :
  active_sessions w !! sid = Some s →
  analyze_meeting svc sid w
  = ((analyze_session svc (fs w) sid s).1.1,
     {| active_sessions :=
          <[sid := (analyze_session svc (fs w) sid s).1.2]> (active_sessions w);
        fs := fs w |},
     (analyze_session svc (fs w) sid s).2).
Proof.
  intros Hs. unfold analyze_meeting, with_session. rewrite Hs.
  by destruct (analyze_session svc (fs w) sid s) as [[o s'] t].
Qed.





End HandlerFacts.

Import App Posix Scenario.




(** *** Deriving the analysis from the stream cache *)

Section StreamPathFacts.
Import App.
Context {num : Type} `{PyFloat num} `{PyRuntime}.
Implicit Types (s : Session num) (svc : Services num) (w : World num).

Lemma zip_samples_fields (ts es : list num) (ems cs : list string) :
  List.length es = List.length ts →
  List.length ems = List.length ts →
  List.length cs = List.length ts →
  map Schema.time (zip_samples ts es ems cs) = ts ∧
  map energy (zip_samples ts es ems cs) = es ∧
  map emotion_raw (zip_samples ts es ems cs) = ems ∧
  map category (zip_samples ts es ems cs) = cs.
Proof.
  revert es ems cs. induction ts as [|t ts IH]; intros es ems cs He Hm Hc.
  - destruct es, ems, cs; try discriminate. done.
  - destruct es as [|e es], ems as [|em ems], cs as [|c cs]; try discriminate.
    simpl in *. destruct (IH es ems cs) as (-> & -> & -> & ->); [lia..|]. done.
Qed.

(** The conversion at the end of a full analysis and the derivation from
    the stream cache are inverse to each other on the timeline. *)
Lemma zip_samples_of_results (r : AnalysisResult num) :
  let sd := stream_data_of_results r in
  zip_samples (timestamps sd) (energy_timeline sd) (emotion_series sd) (categories sd)
  = timeline r.
Proof.
  simpl. induction (timeline r) as [|[t e em c] tl IH]; simpl; [done|].
  by rewrite IH.
Qed.

Lemma build_analysis_fields svc (sd : StreamData num) path :
  duration (build_analysis_from_stream svc sd path) = stream_duration sd ∧
  timeline (build_analysis_from_stream svc sd path)
  = zip_samples (timestamps sd) (energy_timeline sd) (emotion_series sd) (categories sd).
Proof.
  unfold build_analysis_from_stream.
  by destruct (stream_aggregates svc sd path) as [[summ clus] sugg].
Qed.

Lemma waited_zero svc a n s :
  stream_is_fully_processed s = true → waited svc a n s = 0.
Proof. intros Hfp. destruct n; simpl; [done | by rewrite Hfp]. Qed.

End StreamPathFacts.

(** Claim C2 fails when an analysis is already cached: the cached result of
    an earlier from-scratch computation is returned, nothing is derived from
    the finished stream cache, and its timeline is not the cache's samples. *)
Lemma cached_analysis_not_rederived :
  ∃ s sd,
    active_sessions recorded !! recording = Some s ∧
    stream_data s = Some sd ∧
    is_fully_processed sd = true ∧
    let result := analyze_meeting working recording recorded in
    result.1.1 = Return (AnalysisComplete recording (Some small_result)) ∧
    stream_derivations result.2 = 0 ∧
    map Schema.time (timeline small_result) ≠ timestamps sd.
Proof.
  eexists _, finished_stream. split; [vm_compute; reflexivity|].
  split; [reflexivity|]. split; [reflexivity|].
  vm_compute. split; [reflexivity|]. split; [reflexivity|]. discriminate.
Qed.

(** Claim C2, as amended.  For every session that has no cached analysis and
    whose [stream_data] exists with [is_fully_processed] true when the
    analyze call starts, the call does not sleep, derives the analysis from
    the stream cache with [build_analysis_from_stream], stores it with
    status ["complete"], and never invokes [analyze_full]; the duration of
    the derived result is the cache's and its timeline matches the cache's
    samples field for field. *)
Theorem analysis_derived_from_finished_stream :
  ∀ (num : Type) (F : PyFloat num) (R : PyRuntime)
    (svc : Services num) (sid : string) (w : World num)
    (s : Session num) (sd : StreamData num),
    active_sessions w !! sid = Some s →
    cached s = false →
    stream_data s = Some sd →
    is_fully_processed sd = true →
    stream_well_formed sd →
    let r := build_analysis_from_stream svc sd (file_path s) in
    analyze_meeting svc sid w
    = (Return (AnalysisComplete sid (Some r)),
       {| active_sessions := <[sid := completed r s]> (active_sessions w);
          fs := fs w |},
       [BuildAnalysisFromStream (file_path s)]) ∧
    full_computations (analyze_meeting svc sid w).2 = 0 ∧
    duration r = stream_duration sd ∧
    map Schema.time (timeline r) = timestamps sd ∧
    map energy (timeline r) = energy_timeline sd ∧
    map emotion_raw (timeline r) = emotion_series sd ∧
    map category (timeline r) = categories sd.
Proof.
  intros num F R svc sid w s sd Hs Hc Hsd Hfp (He & Hm & Hcat) r.
  assert (analyze_meeting svc sid w
          = (Return (AnalysisComplete sid (Some r)),
             {| active_sessions := <[sid := completed r s]> (active_sessions w);
                fs := fs w |},
             [BuildAnalysisFromStream (file_path s)])) as Hrun.
  { rewrite (analyze_meeting_found _ _ _ _ Hs), analyze_session_eq, Hc.
    assert (stream_is_fully_processed s = true) as Hflag
      by (unfold stream_is_fully_processed; by rewrite Hsd).
    rewrite Hsd. cbv zeta. simpl truthy. cbv iota.
    rewrite (waited_zero _ _ _ _ Hflag).
    unfold session_after. simpl stream_after. rewrite mutate_stream_data_id.
    rewrite Hsd, Hfp. reflexivity. }
  split; [exact Hrun|]. split; [by rewrite Hrun|].
  destruct (build_analysis_fields svc sd (file_path s)) as [Hd Ht].
  split; [exact Hd|]. unfold r. rewrite Ht.
  by apply zip_samples_fields.
Qed.

(** A session whose streaming finished before the analysis was requested. *)
Lemma analysis_derived_from_finished_stream_witness :
  active_sessions streamed !! recording = Some streamed_session ∧
  (analyze_meeting working recording streamed).2
  = [BuildAnalysisFromStream "/tmp/moodflo/4f2c0d1e/standup.MP4"] ∧
  map Schema.time
    (timeline (build_analysis_from_stream working finished_stream
                 "/tmp/moodflo/4f2c0d1e/standup.MP4"))
  = [0%Z; 50%Z].
Proof.
  assert (active_sessions streamed !! recording = Some streamed_session) as Hs
    by (vm_compute; reflexivity).
  assert (stream_well_formed finished_stream) as Hwf by (repeat split).
  pose proof (analysis_derived_from_finished_stream Z tenths_float posix_runtime
                working recording streamed streamed_session finished_stream
                Hs eq_refl eq_refl eq_refl Hwf) as (Hrun & _ & _ & Htime & _).
  split; [exact Hs|]. split; [by rewrite Hrun | exact Htime].
Defined.

(** Claim C3.  When the analyze call finds a stream cache that is not fully
    processed, it sleeps at most fifteen times, two seconds each time.  If
    the cache is seen fully processed at the [k]-th check, the call stops
    waiting after [k] sleeps and derives the analysis from the cache.  If the
    fifteen sleeps pass without completion, the call goes on with the
    from-scratch path: its outcome is the one of that path (the result of
    [analyze_full] when the file is there and the producer answers), so the
    timeout itself is no error for the caller. *)
Theorem polling_bounded_then_full_analysis :
  ∀ (num : Type) (F : PyFloat num) (R : PyRuntime)
    (svc : Services num) (sid : string) (w : World num)
    (s : Session num) (sd : StreamData num),
    active_sessions w !! sid = Some s →
    cached s = false →
    stream_data s = Some sd →
    is_fully_processed sd = false →
    let result := analyze_meeting svc sid w in
    (List.length (sleeps result.2) ≤ 15 ∧ ∀ d, d ∈ sleeps result.2 → d = 2%Q) ∧
    (∀ k, k ≤ 15 →
       (∀ i, i < k → is_fully_processed (stream_after svc 0 i sd) = false) →
       is_fully_processed (stream_after svc 0 k sd) = true →
       result.1.1 = Return (AnalysisComplete sid
                      (Some (build_analysis_from_stream svc (stream_after svc 0 k sd)
                               (file_path s)))) ∧
       result.2 = replicate k (Sleep 2%Q) ++ [BuildAnalysisFromStream (file_path s)]) ∧
    ((∀ i, i ≤ 15 → is_fully_processed (stream_after svc 0 i sd) = false) →
       result.1.1 =
         (if path_exists (file_path s) (fs w) then
            match analyze_full svc (file_path s) with
            | inr r => Return (AnalysisComplete sid (Some r))
            | inl message => Raise (HTTPException 500 ("Analysis failed: " +:+ message))
            end
          else Raise (HTTPException 404 "File not found")) ∧
       result.2 =
         replicate 15 (Sleep 2%Q)
         ++ (if path_exists (file_path s) (fs w) then [AnalyzeFull (file_path s)] else [])).
Proof.
  intros num F R svc sid w s sd Hs Hc Hsd Hfp result.
  unfold result. rewrite (analyze_meeting_found _ _ _ _ Hs). simpl.
  split; [|split].
  - destruct (analyze_session_trace svc (fs w) sid s) as (k & tail & -> & Hk & Htail).
    rewrite sleeps_app, sleeps_replicate.
    assert (sleeps tail = []) as -> by (destruct Htail as [->|[->| ->]]; reflexivity).
    rewrite app_nil_r, length_replicate. split; [exact Hk|].
    intros d Hd. by apply elem_of_replicate in Hd as [-> _].
  - intros k Hk Hbefore Hstop.
    rewrite analyze_session_eq, Hc, Hsd. simpl truthy. cbv iota zeta.
    assert (waited svc 0 15 s = k) as ->.
    { apply waited_first; [exact Hk | |].
      - intros i Hi. rewrite (flag_session_after _ _ _ _ _ Hsd). by apply Hbefore.
      - intros _. by rewrite (flag_session_after _ _ _ _ _ Hsd). }
    rewrite stream_data_session_after, Hsd. simpl. rewrite Hstop. done.
  - intros Hnever.
    rewrite analyze_session_eq, Hc, Hsd. simpl truthy. cbv iota zeta.
    assert (waited svc 0 15 s = 15) as ->.
    { apply waited_first; [lia | | lia].
      intros i Hi. rewrite (flag_session_after _ _ _ _ _ Hsd). apply Hnever. lia. }
    rewrite stream_data_session_after, Hsd.
    change (stream_after svc 0 15 <$> Some sd) with (Some (stream_after svc 0 15 sd)).
    cbv iota. rewrite (Hnever 15 ltac:(lia)). unfold after_sleeps.
    rewrite run_full_analysis_eq. simpl file_path.
    destruct (path_exists _ _); [|done].
    by destruct (analyze_full _ _).
Qed.

(** A stream that never finishes while the request waits, and one that
    finishes during the third sleep. *)
Lemma polling_bounded_then_full_analysis_witness :
  active_sessions streaming !! recording = Some streaming_session ∧
  (analyze_meeting working recording streaming).2
  = replicate 15 (Sleep 2%Q) ++ [AnalyzeFull "/tmp/moodflo/4f2c0d1e/standup.MP4"] ∧
  (analyze_meeting working recording streaming).1.1
  = Return (AnalysisComplete recording (Some small_result)) ∧
  (analyze_meeting finishing recording streaming).2
  = replicate 3 (Sleep 2%Q) ++ [BuildAnalysisFromStream "/tmp/moodflo/4f2c0d1e/standup.MP4"].
Proof.
  assert (active_sessions streaming !! recording = Some streaming_session) as Hs
    by (vm_compute; reflexivity).
  pose proof (polling_bounded_then_full_analysis Z tenths_float posix_runtime
                working recording streaming streaming_session fresh_stream
                Hs eq_refl eq_refl eq_refl) as (_ & _ & Htimeout).
  pose proof (polling_bounded_then_full_analysis Z tenths_float posix_runtime
                finishing recording streaming streaming_session fresh_stream
                Hs eq_refl eq_refl eq_refl) as (_ & Hdone & _).
  split; [exact Hs|].
  assert (∀ i, i ≤ 15 → is_fully_processed (stream_after working 0 i fresh_stream) = false)
    as Hnever.
  { intros i Hi. do 16 (destruct i as [|i]; [reflexivity|]). lia. }
  destruct (Htimeout Hnever) as [Hout Htrace].
  split; [exact Htrace|]. split; [exact Hout|].
  refine (proj2 (Hdone 3 _ _ _)); [lia | | reflexivity].
  intros i Hi. do 3 (destruct i as [|i]; [reflexivity|]). lia.
Defined.

(** *** The invariant of the session map *)

Section InvariantFacts.
Import App.
Context {num : Type} `{PyFloat num} `{PyRuntime}.
Implicit Types (s : Session num) (svc : Services num) (w : World num).

Lemma session_ok_not_cached s :
  session_ok s → cached s = false →
  analysis s = None ∧ analysis_complete s = false.
Proof.
  intros [Himp Hflag] Hc. unfold cached in Hc.
  destruct (analysis s) as [r|] eqn:Ha.
  - destruct (Himp ltac:(eauto)) as [_ Hac]. rewrite Hac in Hc. discriminate.
  - split; [done|]. destruct (analysis_complete s); [|done].
    destruct (Hflag eq_refl) as [? [=]].
Qed.

Lemma session_ok_mutate f s : session_ok s → session_ok (mutate_stream_data f s).
Proof. by intros Hok. Qed.

Lemma session_ok_completed r s : session_ok (completed r s).
Proof. split; [intros _; by split | intros _; by eexists]. Qed.

Lemma session_ok_set_stream_data sd s :
  session_ok s → session_ok (set_stream_data sd s).
Proof. by intros Hok. Qed.

Lemma session_ok_no_analysis s :
  analysis s = None → analysis_complete s = false → session_ok s.
Proof.
  intros Ha Hc. split.
  - intros [r Hr]. congruence.
  - congruence.
Qed.

Lemma run_full_analysis_ok svc fs sid s :
  analysis s = None → analysis_complete s = false →
  session_ok (run_full_analysis svc fs sid s).1.2.
Proof.
  intros Ha Hc. rewrite run_full_analysis_eq.
  destruct (path_exists _ _); [|by apply session_ok_no_analysis].
  destruct (analyze_full _ _) as [m|r].
  - by apply session_ok_no_analysis.
  - destruct (truthy (stream_data s)); simpl.
    + apply session_ok_completed.
    + apply session_ok_set_stream_data, session_ok_completed.
Qed.

Lemma analyze_session_ok svc fs sid s :
  session_ok s → session_ok (analyze_session svc fs sid s).1.2.
Proof.
  intros Hok. rewrite analyze_session_eq.
  destruct (cached s) eqn:Hc; [exact Hok|].
  destruct (session_ok_not_cached _ Hok Hc) as [Ha Hac].
  destruct (truthy (stream_data s)); [|by apply run_full_analysis_ok].
  cbv zeta. destruct (stream_data _) as [sd|].
  - destruct (is_fully_processed sd); [apply session_ok_completed|].
    by apply run_full_analysis_ok.
  - by apply run_full_analysis_ok.
Qed.

Lemma with_session_unchanged sid (body : Handler (Response num)) w :
  (∀ s, (body s).1.2 = s) →
  (with_session sid body w).1.2 = w.
Proof.
  intros Hbody. unfold with_session.
  destruct (active_sessions w !! sid) as [s|] eqn:Hs; [|done].
  specialize (Hbody s). destruct (body s) as [[o s'] t]. simpl in *. subst s'.
  rewrite insert_id by done. by destruct w.
Qed.

Lemma get_analysis_world sid w : (get_analysis sid w).1.2 = w.
Proof.
  apply with_session_unchanged. intros s.
  cbv beta iota zeta delta [mbind handler_bind mret handler_ret get].
  by destruct (negb (analysis_complete s)).
Qed.

Lemma get_video_world sid w : (get_video sid w).1.2 = w.
Proof.
  apply with_session_unchanged. intros s.
  cbv beta iota zeta delta [mbind handler_bind mret handler_ret get raise].
  by destruct (negb (path_exists (file_path s) (fs w))).
Qed.

Lemma serve_sessions_ok w (r : Request num) : world_ok w → world_ok (serve w r).
Proof.
  intros Hok. destruct r as [uuid4 file|svc sid|sid|svc sid incoming|sid|sid|env sid|env sid|sid f];
    simpl.
  - unfold upload_file. case_match; [done|].
    destruct (mkdir _ _) as [e|fs1]; [done|].
    destruct (write_file _ _) as [e|fs2]; [done|]. simpl.
    apply map_Forall_insert_2; [|done]. by apply session_ok_no_analysis.
  - unfold analyze_meeting, with_session.
    destruct (active_sessions w !! sid) as [s|] eqn:Hs; [|done].
    pose proof (analyze_session_ok svc (fs w) sid s (Hok _ _ Hs)) as Hs'.
    destruct (analyze_session svc (fs w) sid s) as [[o s'] t]. simpl in *.
    by apply map_Forall_insert_2.
  - by rewrite get_analysis_world.
  - unfold websocket_stream.
    destruct (active_sessions w !! sid) as [s|] eqn:Hs; [|done].
    destruct (stream_data s); [done|].
    destruct (initialize_stream _ _); [done|]. simpl.
    apply map_Forall_insert_2; [|done]. exact (Hok _ _ Hs).
  - by rewrite get_video_world.
  - unfold delete_session.
    destruct (active_sessions w !! sid) as [s|] eqn:Hs; [|done].
    destruct (if path_exists _ _ then unlink _ _ else _) as [e|fs1]; [done|].
    destruct (if path_exists _ _ then rmdir _ _ else _) as [e|fs2]; [done|].
    by apply map_Forall_delete.
  - unfold export_pdf.
    destruct (active_sessions w !! sid) as [s|] eqn:Hs; [|done].
    repeat (case_match; try done).
  - unfold export_json.
    destruct (active_sessions w !! sid) as [s|] eqn:Hs; [|done].
    repeat (case_match; try done).
  - unfold stream_progress, world_ok. simpl.
    intros k s Hk. destruct (decide (sid = k)) as [->|Hne].
    + rewrite lookup_alter_eq in Hk.
      destruct (active_sessions w !! k) as [s0|] eqn:Hs0; [|done].
      simpl in Hk. injection Hk as <-. apply session_ok_mutate. exact (Hok _ _ Hs0).
    + rewrite lookup_alter_ne in Hk by done. exact (Hok _ _ Hk).
Qed.

Lemma reachable_ok w : reachable w → world_ok w.
Proof.
  intros (fs0 & requests & ->). unfold serve_all.
  induction requests as [|r requests IH] using rev_ind.
  - apply map_Forall_empty.
  - rewrite foldl_snoc. by apply serve_sessions_ok.
Qed.

End InvariantFacts.

(** *** Calls interleaved at their awaits *)

Section AloneFacts.
Context {num : Type} `{PyFloat num} `{PyRuntime}.
Implicit Types (s : Session num) (svc : Services num).

Lemma run_alone_begin_full svc (fs : FileSystem) sid fuel s trace :
  1 ≤ fuel →
  run_alone svc fs sid fuel
    ((begin_full_analysis fs s).1.1, (begin_full_analysis fs s).1.2,
     trace ++ (begin_full_analysis fs s).2)
  = Some ((run_full_analysis svc fs sid s).1.1, (run_full_analysis svc fs sid s).1.2,
          trace ++ (run_full_analysis svc fs sid s).2).
Proof.
  intros Hfuel. rewrite run_full_analysis_eq. unfold begin_full_analysis. cbv zeta.
  destruct (path_exists (file_path s) fs); simpl; [|by destruct fuel].
  destruct fuel as [|fuel]; [lia|]. simpl.
  destruct (analyze_full svc (file_path s)) as [message|r]; simpl.
  - destruct fuel; by rewrite app_nil_r.
  - destruct fuel; by rewrite app_nil_r.
Qed.

Lemma run_alone_after_polling svc (fs : FileSystem) sid fuel s trace :
  1 ≤ fuel →
  run_alone svc fs sid fuel
    ((after_polling svc fs s).1.1, (after_polling svc fs s).1.2,
     trace ++ (after_polling svc fs s).2)
  = Some
      match stream_data s with
      | Some sd =>
          if is_fully_processed sd then
            let r := build_analysis_from_stream svc sd (file_path s) in
            (Return (AnalysisComplete sid (Some r)), completed r s,
             trace ++ [BuildAnalysisFromStream (file_path s)])
          else ((run_full_analysis svc fs sid s).1.1, (run_full_analysis svc fs sid s).1.2,
                trace ++ (run_full_analysis svc fs sid s).2)
      | None => ((run_full_analysis svc fs sid s).1.1, (run_full_analysis svc fs sid s).1.2,
                 trace ++ (run_full_analysis svc fs sid s).2)
      end.
Proof.
  intros Hfuel. unfold after_polling.
  destruct (stream_data s) as [sd|]; [|by apply run_alone_begin_full].
  destruct (is_fully_processed sd); [|by apply run_alone_begin_full].
  destruct fuel as [|fuel]; [lia|]. simpl. destruct fuel; by rewrite app_nil_r.
Qed.

Lemma run_alone_sleep svc (fs : FileSystem) sid fuel i rest s trace :
  run_alone svc fs sid (S fuel) (Awaiting (AtSleep i rest), s, trace)
  = run_alone svc fs sid fuel
      ((poll svc fs rest (mutate_stream_data (streaming_task svc i) s)).1.1,
       (poll svc fs rest (mutate_stream_data (streaming_task svc i) s)).1.2,
       trace ++ (poll svc fs rest (mutate_stream_data (streaming_task svc i) s)).2).
Proof.
  simpl. by destruct (poll svc fs rest (mutate_stream_data (streaming_task svc i) s))
    as [[stretch s2] trace2].
Qed.

Lemma poll_cons svc (fs : FileSystem) i rest s :
  poll svc fs (i :: rest) s
  = if stream_is_fully_processed s then after_polling svc fs s
    else (Awaiting (AtSleep i rest), s, [Sleep 2%Q]).
Proof. reflexivity. Qed.

Lemma waited_succ svc a n s :
  waited svc a (S n) s
  = if stream_is_fully_processed s then 0
    else S (waited svc (S a) n (mutate_stream_data (streaming_task svc a) s)).
Proof. reflexivity. Qed.

Lemma session_after_no_sleep svc a s : session_after svc a 0 s = s.
Proof. apply mutate_stream_data_id. Qed.

Lemma run_alone_poll svc (fs : FileSystem) sid n a s trace fuel :
  n + 1 ≤ fuel →
  run_alone svc fs sid fuel
    ((poll svc fs (seq a n) s).1.1, (poll svc fs (seq a n) s).1.2,
     trace ++ (poll svc fs (seq a n) s).2)
  = Some
      (let k := waited svc a n s in
       let s1 := session_after svc a k s in
       match stream_data s1 with
       | Some sd =>
           if is_fully_processed sd then
             let r := build_analysis_from_stream svc sd (file_path s1) in
             (Return (AnalysisComplete sid (Some r)), completed r s1,
              trace ++ replicate k (Sleep 2%Q) ++ [BuildAnalysisFromStream (file_path s1)])
           else ((run_full_analysis svc fs sid s1).1.1,
                 (run_full_analysis svc fs sid s1).1.2,
                 trace ++ replicate k (Sleep 2%Q) ++ (run_full_analysis svc fs sid s1).2)
       | None => ((run_full_analysis svc fs sid s1).1.1,
                  (run_full_analysis svc fs sid s1).1.2,
                  trace ++ replicate k (Sleep 2%Q) ++ (run_full_analysis svc fs sid s1).2)
       end).
Proof.
  revert a s trace fuel. induction n as [|n IH]; intros a s trace fuel Hfuel.
  - change (poll svc fs (seq a 0) s) with (after_polling svc fs s).
    rewrite run_alone_after_polling by lia. cbv zeta.
    change (waited svc a 0 s) with 0. by rewrite session_after_no_sleep.
  - change (seq a (S n)) with (a :: seq (S a) n).
    rewrite poll_cons, waited_succ.
    destruct (stream_is_fully_processed s) eqn:Hflag.
    + rewrite run_alone_after_polling by lia. cbv zeta.
      by rewrite session_after_no_sleep.
    + destruct fuel as [|fuel]; [lia|].
      cbn [fst snd].
      rewrite run_alone_sleep, IH by lia. cbv zeta.
      rewrite session_after_succ. f_equal.
      change (replicate (S ?k) ?x) with (x :: replicate k x).
      by rewrite <- !app_assoc.
Qed.

(** A call that runs alone is the handler of the requests served one after
    the other: its stretches, with the streaming task at work during the
    sleeps, give the outcome, the session and the awaited calls of
    [analyze_session]. *)
Lemma run_alone_is_analyze_session svc (fs : FileSystem) sid s :
  run_alone svc fs sid 16 (analyze_begin svc fs sid s)
  = Some (analyze_session svc fs sid s).
Proof.
  rewrite analyze_session_eq. unfold analyze_begin. fold (cached s).
  destruct (cached s); [reflexivity|].
  destruct (truthy (stream_data s)).
  - pose proof (run_alone_poll svc fs sid 15 0 s [] 16 ltac:(lia)) as Hpoll.
    destruct (poll svc fs (seq 0 15) s) as [[stretch s1] trace1] eqn:Hp.
    cbn [fst snd app] in Hpoll.
    rewrite Hpoll. reflexivity.
  - pose proof (run_alone_begin_full svc fs sid 16 s [] ltac:(lia)) as Hfull.
    destruct (begin_full_analysis fs s) as [[stretch s1] trace1].
    cbn [fst snd app] in Hfull. rewrite Hfull.
    by destruct (run_full_analysis svc fs sid s) as [[o s2] t].
Qed.

End AloneFacts.

Section OverlapFacts.
Context {num : Type} `{PyFloat num} `{PyRuntime}.
Implicit Types (s : Session num) (svc : Services num) (w : World num)
  (σ : Server num) (a : Action num).

Lemma begin_full_analysis_unanalysed (fs : FileSystem) s :
  analysis s = None → analysis_complete s = false →
  analysis (begin_full_analysis fs s).1.2 = None ∧
  analysis_complete (begin_full_analysis fs s).1.2 = false.
Proof.
  intros Ha Hc. unfold begin_full_analysis. cbv zeta.
  by destruct (negb (path_exists _ _)).
Qed.

Lemma after_polling_unanalysed svc (fs : FileSystem) s :
  analysis s = None → analysis_complete s = false →
  analysis (after_polling svc fs s).1.2 = None ∧
  analysis_complete (after_polling svc fs s).1.2 = false.
Proof.
  intros Ha Hc. unfold after_polling.
  destruct (stream_data s) as [sd|]; [|by apply begin_full_analysis_unanalysed].
  destruct (is_fully_processed sd); [done|by apply begin_full_analysis_unanalysed].
Qed.

Lemma poll_unanalysed svc (fs : FileSystem) iterations s :
  analysis s = None → analysis_complete s = false →
  analysis (poll svc fs iterations s).1.2 = None ∧
  analysis_complete (poll svc fs iterations s).1.2 = false.
Proof.
  intros Ha Hc. unfold poll.
  destruct iterations as [|i rest]; [by apply after_polling_unanalysed|].
  destruct (stream_is_fully_processed s); [by apply after_polling_unanalysed|done].
Qed.

(** The first stretch of a call keeps the invariant of its session, and a
    call that is suspended leaves a session without analysis. *)
Lemma analyze_begin_ok svc (fs : FileSystem) sid s :
  session_ok s →
  session_ok (analyze_begin svc fs sid s).1.2 ∧
  (∀ at_await, (analyze_begin svc fs sid s).1.1 = Awaiting at_await →
     analysis (analyze_begin svc fs sid s).1.2 = None ∧
     analysis_complete (analyze_begin svc fs sid s).1.2 = false).
Proof.
  intros Hok. unfold analyze_begin. fold (cached s).
  destruct (cached s) eqn:Hcached; [by split|].
  destruct (session_ok_not_cached s Hok Hcached) as [Ha Hc].
  assert (∀ r : Stretch num * Session num * list Event,
            analysis r.1.2 = None ∧ analysis_complete r.1.2 = false →
            session_ok r.1.2 ∧
            (∀ at_await, r.1.1 = Awaiting at_await →
               analysis r.1.2 = None ∧ analysis_complete r.1.2 = false)) as Hfrom.
  { intros r [Hra Hrc]. split; [by apply session_ok_no_analysis|done]. }
  destruct (truthy (stream_data s)); apply Hfrom.
  - by apply poll_unanalysed.
  - by apply begin_full_analysis_unanalysed.
Qed.

(** A later stretch of a call on a session without analysis keeps the
    invariant, and leaves the session without analysis when the call is
    suspended again. *)
Lemma analyze_resume_ok svc (fs : FileSystem) sid (at_await : Suspended num) s :
  analysis s = None → analysis_complete s = false →
  session_ok (analyze_resume svc fs sid at_await s).1.2 ∧
  (∀ at_next, (analyze_resume svc fs sid at_await s).1.1 = Awaiting at_next →
     analysis (analyze_resume svc fs sid at_await s).1.2 = None ∧
     analysis_complete (analyze_resume svc fs sid at_await s).1.2 = false).
Proof.
  intros Ha Hc. destruct at_await as [i rest|results|path]; simpl.
  - destruct (poll_unanalysed svc fs rest s Ha Hc) as [Hpa Hpc].
    split; [by apply session_ok_no_analysis|done].
  - split; [apply session_ok_completed|done].
  - destruct (analyze_full svc path) as [message|results]; simpl.
    + split; [by apply session_ok_no_analysis|done].
    + split; [|done].
      destruct (truthy (stream_data s)).
      * apply session_ok_completed.
      * apply session_ok_set_stream_data, session_ok_completed.
Qed.

Lemma server_ok_quiet w : world_ok w → server_ok (quiet w).
Proof.
  intros Hok. split; [exact Hok|]. split.
  - intros n c Hn. simpl in Hn. by rewrite lookup_empty in Hn.
  - intros n m c d Hn. simpl in Hn. by rewrite lookup_empty in Hn.
Qed.

Lemma act_begin_ok σ svc sid :
  server_ok σ →
  map_Forall (λ _ c, call_session c ≠ sid) (in_flight σ) →
  server_ok (act σ (Begin svc sid)).
Proof.
  intros (Hworld & Hcalls & Hone) Hfree. simpl.
  destruct (active_sessions (server_world σ) !! sid) as [s|] eqn:Hs; [|done].
  destruct (analyze_begin_ok svc (fs (server_world σ)) sid s (Hworld _ _ Hs))
    as [Hs' Hawait].
  destruct (analyze_begin svc (fs (server_world σ)) sid s) as [[stretch s'] trace].
  simpl in Hs', Hawait.
  assert (∀ n c, in_flight σ !! n = Some c →
            (n < S (next_call σ))%nat ∧
            ∃ s0, <[sid := s']> (active_sessions (server_world σ)) !! call_session c
                  = Some s0 ∧
                  analysis s0 = None ∧ analysis_complete s0 = false) as Hold.
  { intros n c Hn. destruct (Hcalls n c Hn) as [Hlt (s0 & Hs0 & Hunanalysed)].
    split; [lia|]. exists s0. split; [|done].
    rewrite lookup_insert_ne; [done|]. intros Heq. by apply (Hfree n c Hn). }
  split; [by apply map_Forall_insert_2|].
  destruct stretch as [out|at_await]; simpl.
  - split; [exact Hold|exact Hone].
  - destruct (Hawait at_await eq_refl) as [Ha Hc]. split.
    + intros n c Hn. destruct (decide (n = next_call σ)) as [->|Hne].
      * rewrite lookup_insert_eq in Hn. injection Hn as <-. simpl.
        split; [lia|]. exists s'. by rewrite lookup_insert_eq.
      * rewrite lookup_insert_ne in Hn by done. by apply Hold.
    + intros n m c d Hn Hm Heq.
      destruct (decide (n = next_call σ)) as [->|Hn'];
        destruct (decide (m = next_call σ)) as [->|Hm']; [done| | |].
      * rewrite lookup_insert_eq in Hn. injection Hn as <-.
        rewrite lookup_insert_ne in Hm by done.
        destruct (Hfree m d Hm). by rewrite <- Heq.
      * rewrite lookup_insert_eq in Hm. injection Hm as <-.
        rewrite lookup_insert_ne in Hn by done.
        destruct (Hfree n c Hn). by rewrite Heq.
      * rewrite lookup_insert_ne in Hn, Hm by done. by apply (Hone n m c d).
Qed.

Lemma act_resume_ok σ (call : nat) : server_ok σ → server_ok (act σ (Resume call)).
Proof.
  intros (Hworld & Hcalls & Hone). simpl.
  destruct (in_flight σ !! call) as [c|] eqn:Hcall; [|done].
  destruct (Hcalls call c Hcall) as [Hlt (s & Hs & Ha & Hc)]. rewrite Hs.
  destruct (analyze_resume_ok (call_services c) (fs (server_world σ)) (call_session c)
              (call_at c) s Ha Hc) as [Hs' Hawait].
  destruct (analyze_resume (call_services c) (fs (server_world σ)) (call_session c)
              (call_at c) s) as [[stretch s'] trace].
  simpl in Hs', Hawait.
  assert (∀ n d, n ≠ call → in_flight σ !! n = Some d →
            (n < next_call σ)%nat ∧
            ∃ s0, <[call_session c := s']> (active_sessions (server_world σ))
                    !! call_session d = Some s0 ∧
                  analysis s0 = None ∧ analysis_complete s0 = false) as Hothers.
  { intros n d Hne Hn. destruct (Hcalls n d Hn) as [Hn_lt (s0 & Hs0 & Hunanalysed)].
    split; [done|]. exists s0. split; [|done].
    rewrite lookup_insert_ne; [done|]. intros Heq. by destruct (Hne (Hone n call d c Hn Hcall (eq_sym Heq))). }
  split; [by apply map_Forall_insert_2|].
  destruct stretch as [out|at_await]; simpl.
  - split.
    + intros n d Hn. destruct (decide (n = call)) as [->|Hne].
      * by rewrite lookup_delete_eq in Hn.
      * rewrite lookup_delete_ne in Hn by done. by apply Hothers.
    + intros n m d e Hn Hm. 
      destruct (decide (n = call)) as [->|Hn']; [by rewrite lookup_delete_eq in Hn|].
      destruct (decide (m = call)) as [->|Hm']; [by rewrite lookup_delete_eq in Hm|].
      rewrite lookup_delete_ne in Hn, Hm by done. by apply Hone.
  - destruct (Hawait at_await eq_refl) as [Ha' Hc']. split.
    + intros n d Hn. destruct (decide (n = call)) as [->|Hne].
      * rewrite lookup_insert_eq in Hn. injection Hn as <-. simpl.
        split; [done|]. exists s'. by rewrite lookup_insert_eq.
      * rewrite lookup_insert_ne in Hn by done. by apply Hothers.
    + intros n m d e Hn Hm Heq.
      destruct (decide (n = call)) as [->|Hn'];
        destruct (decide (m = call)) as [->|Hm']; [done| | |].
      * rewrite lookup_insert_eq in Hn. injection Hn as <-.
        rewrite lookup_insert_ne in Hm by done. simpl in Heq.
        by apply (Hone call m c e).
      * rewrite lookup_insert_eq in Hm. injection Hm as <-.
        rewrite lookup_insert_ne in Hn by done. simpl in Heq.
        by apply (Hone n call d c).
      * rewrite lookup_insert_ne in Hn, Hm by done. by apply (Hone n m d e).
Qed.

Lemma act_progress_ok σ sid (f : StreamData num → StreamData num) :
  server_ok σ → server_ok (act σ (Progress sid f)).
Proof.
  intros (Hworld & Hcalls & Hone). split; [|split; [|exact Hone]].
  - exact (serve_sessions_ok (server_world σ) (StreamingTask sid f) Hworld).
  - intros n c Hn. destruct (Hcalls n c Hn) as [Hlt (s & Hs & Ha & Hc)].
    split; [done|]. simpl.
    destruct (decide (sid = call_session c)) as [->|Hne].
    + exists (mutate_stream_data f s). by rewrite lookup_alter_eq, Hs.
    + exists s. by rewrite lookup_alter_ne.
Qed.

Lemma interleave_ok (actions : list (Action num)) σ :
  server_ok σ → calls_do_not_overlap σ actions → server_ok (interleave σ actions).
Proof.
  revert σ. induction actions as [|a actions IH]; intros σ Hok Hfree; [done|].
  destruct Hfree as [Hhead Hrest]. apply IH; [|exact Hrest].
  destruct a as [svc sid|call|sid f].
  - by apply act_begin_ok.
  - by apply act_resume_ok.
  - by apply act_progress_ok.
Qed.

Lemma begin_full_analysis_analysis (fs : FileSystem) s :
  analysis (begin_full_analysis fs s).1.2 = analysis s.
Proof. unfold begin_full_analysis. cbv zeta. by destruct (negb (path_exists _ _)). Qed.

Lemma after_polling_analysis svc (fs : FileSystem) s :
  analysis (after_polling svc fs s).1.2 = analysis s.
Proof.
  unfold after_polling.
  destruct (stream_data s) as [sd|]; [|apply begin_full_analysis_analysis].
  destruct (is_fully_processed sd); [done|apply begin_full_analysis_analysis].
Qed.

Lemma poll_analysis svc (fs : FileSystem) iterations s :
  analysis (poll svc fs iterations s).1.2 = analysis s.
Proof.
  unfold poll. destruct iterations as [|i rest]; [apply after_polling_analysis|].
  destruct (stream_is_fully_processed s); [apply after_polling_analysis|done].
Qed.

(** The first stretch of a call stores no analysis. *)
Lemma analyze_begin_analysis svc (fs : FileSystem) sid s :
  analysis (analyze_begin svc fs sid s).1.2 = analysis s.
Proof.
  unfold analyze_begin. destruct (analysis_complete s && truthy (analysis s)); [done|].
  destruct (truthy (stream_data s)); [apply poll_analysis|apply begin_full_analysis_analysis].
Qed.

(** A later stretch either leaves the stored analysis as it is or stores one
    together with the status and the flag. *)
Lemma analyze_resume_stores svc (fs : FileSystem) sid (at_await : Suspended num) s :
  analysis (analyze_resume svc fs sid at_await s).1.2 = analysis s ∨
  (status (analyze_resume svc fs sid at_await s).1.2 = "complete" ∧
   analysis_complete (analyze_resume svc fs sid at_await s).1.2 = true).
Proof.
  destruct at_await as [i rest|results|path]; simpl.
  - left. apply poll_analysis.
  - by right.
  - destruct (analyze_full svc path) as [message|results]; simpl; [by left|].
    right. by destruct (truthy (stream_data s)).
Qed.

Lemma act_stores σ a sid s s' :
  active_sessions (server_world σ) !! sid = Some s →
  active_sessions (server_world (act σ a)) !! sid = Some s' →
  analysis s' = analysis s ∨ (status s' = "complete" ∧ analysis_complete s' = true).
Proof.
  intros Hs Hs'. destruct a as [svc sid0|call|sid0 f]; simpl in Hs'.
  - destruct (active_sessions (server_world σ) !! sid0) as [s0|] eqn:Hs0;
      [|left; congruence].
    pose proof (analyze_begin_analysis svc (fs (server_world σ)) sid0 s0) as Hbegin.
    destruct (analyze_begin svc (fs (server_world σ)) sid0 s0) as [[stretch s0'] trace].
    simpl in Hbegin, Hs'. left.
    destruct (decide (sid0 = sid)) as [->|Hne].
    + rewrite lookup_insert_eq in Hs'. congruence.
    + rewrite lookup_insert_ne in Hs' by done. congruence.
  - destruct (in_flight σ !! call) as [c|]; [|left; congruence].
    destruct (active_sessions (server_world σ) !! call_session c) as [s0|] eqn:Hs0;
      [|left; congruence].
    pose proof (analyze_resume_stores (call_services c) (fs (server_world σ))
                  (call_session c) (call_at c) s0) as Hresume.
    destruct (analyze_resume (call_services c) (fs (server_world σ)) (call_session c)
                (call_at c) s0) as [[stretch s0'] trace].
    simpl in Hresume, Hs'.
    destruct (decide (call_session c = sid)) as [Heq|Hne].
    + rewrite Heq, lookup_insert_eq in Hs'. rewrite Heq, Hs in Hs0.
      injection Hs' as <-. injection Hs0 as <-. exact Hresume.
    + rewrite lookup_insert_ne in Hs' by done. left. congruence.
  - left. destruct (decide (sid0 = sid)) as [->|Hne].
    + rewrite lookup_alter_eq, Hs in Hs'. by injection Hs' as <-.
    + rewrite lookup_alter_ne in Hs' by done. congruence.
Qed.

End OverlapFacts.

(** Claim C4 fails when two analyze calls on one session overlap.  On the
    session of a connected stream that makes no progress, both calls pass
    the check of line 120 and sleep; the first polls to the end, runs the
    full analysis and stores its result; the second then polls to the end
    and sets the status to ["analyzing"] (line 162) on the session that holds
    the analysis.  On a session without stream, the second call begins while
    the first waits for the producer; the first stores its result, and the
    second, whose producer raises, sets the status to ["error"] (line
    204). *)
Lemma overlapping_analyses_break_invariant :
  (∃ s : Session Z,
     active_sessions
       (server_world
          (interleave (quiet streaming)
             ([Begin working recording; Begin working recording]
              ++ replicate 16 (Resume 0) ++ replicate 15 (Resume 1))))
       !! recording = Some s ∧
     analysis s = Some small_result ∧ status s = "analyzing") ∧
  (∃ s : Session Z,
     active_sessions
       (server_world
          (interleave (quiet uploaded)
             [Begin working recording; Begin failing recording; Resume 0; Resume 1]))
       !! recording = Some s ∧
     analysis s = Some small_result ∧ status s = "error").
Proof.
  split; eexists; (split; [vm_compute; reflexivity|]); split; reflexivity.
Qed.

(** Claim C4, as amended.  Every stretch of an analyze call that stores an
    analysis sets the status to ["complete"] and [analysis_complete] before
    the call awaits again: a step of the event loop either leaves the
    analysis of a session as it is or leaves the session complete, whatever
    the calls in flight.  The invariant holds in every state reached as
    follows: requests are served one after the other, and from there analyze
    calls run interleaved at their [await]s with one another and with the
    streaming task, no call beginning on a session on which another call is
    suspended.  In every such state a session that holds an analysis has
    status ["complete"] and [analysis_complete] set. *)
Theorem analysis_present_implies_complete :
  ∀ (num : Type) (F : PyFloat num) (R : PyRuntime),
    (∀ (σ : Server num) (a : Action num) (sid : string) (s s' : Session num),
       active_sessions (server_world σ) !! sid = Some s →
       active_sessions (server_world (act σ a)) !! sid = Some s' →
       analysis s' = analysis s ∨
       (status s' = "complete" ∧ analysis_complete s' = true)) ∧
    (∀ (w : World num) (actions : list (Action num)) (sid : string) (s : Session num),
       reachable w →
       calls_do_not_overlap (quiet w) actions →
       active_sessions (server_world (interleave (quiet w) actions)) !! sid = Some s →
       is_Some (analysis s) →
       status s = "complete" ∧ analysis_complete s = true).
Proof.
  intros num F R. split.
  - intros σ a sid s s'. apply act_stores.
  - intros w actions sid s Hreach Hfree Hs Ha.
    destruct (interleave_ok actions (quiet w)
                (server_ok_quiet w (reachable_ok w Hreach)) Hfree) as [Hworld _].
    destruct (Hworld sid s Hs) as [Himp _]. by apply Himp.
Qed.

(** Two recordings analysed at the same time, the producer failing on the
    second; the first is asked for again once its analysis is stored. *)
Lemma analysis_present_implies_complete_witness :
  let actions : list (Action Z) :=
    [Begin working recording; Begin failing briefing; Progress recording (λ sd, sd);
     Resume 1; Resume 0; Begin working recording] in
  reachable two_uploads ∧
  calls_do_not_overlap (quiet two_uploads) actions ∧
  active_sessions (server_world (interleave (quiet two_uploads) actions)) !! recording
  = Some analysed_session ∧
  status analysed_session = "complete" ∧ analysis_complete analysed_session = true.
Proof.
  intros actions.
  assert (reachable two_uploads) as Hreach by (eexists _, _; reflexivity).
  assert (calls_do_not_overlap (quiet two_uploads) actions) as Hfree.
  { unfold actions.
    split; [apply map_Forall_empty|].
    split; [apply (bool_decide_unpack _); vm_compute; exact I|].
    do 3 (split; [exact I|]).
    split; [apply (bool_decide_unpack _); vm_compute; exact I | exact I]. }
  assert (active_sessions (server_world (interleave (quiet two_uploads) actions))
            !! recording = Some analysed_session) as Hs
    by (vm_compute; reflexivity).
  split; [exact Hreach|]. split; [exact Hfree|]. split; [exact Hs|].
  apply (proj2 (analysis_present_implies_complete Z tenths_float posix_runtime)
           two_uploads actions recording analysed_session Hreach Hfree Hs).
  by eexists.
Defined.

(** *** Producer failure *)

Section FailureFacts.
Import App.
Context {num : Type} `{PyFloat num} `{PyRuntime}.
Implicit Types (s : Session num) (svc : Services num) (w : World num).




End FailureFacts.



(** *** Deletion and unknown ids *)

Section DeleteFacts.
Import App.
Context {num : Type} `{PyFloat num} `{PyRuntime}.
Implicit Types (s : Session num) (svc : Services num) (w : World num).

Lemma unlink_removes p fs fs1 :
  unlink p fs = inr fs1 → path_exists p fs1 = false ∧ dirs fs1 = dirs fs.
Proof.
  unfold unlink. repeat case_bool_decide; intros [= <-]; simpl.
  split; [|done]. unfold path_exists. apply bool_decide_eq_false. set_solver.
Qed.

Lemma rmdir_shrinks d fs fs1 :
  rmdir d fs = inr fs1 → files fs1 = files fs ∧ dirs fs1 ⊆ dirs fs.
Proof.
  unfold rmdir. repeat case_match; intros [= <-]; simpl. split; [done | set_solver].
Qed.

Lemma path_exists_shrink p fs fs1 :
  files fs1 = files fs → dirs fs1 ⊆ dirs fs →
  path_exists p fs = false → path_exists p fs1 = false.
Proof.
  unfold path_exists. intros Hf Hd Hp%bool_decide_eq_false.
  apply bool_decide_eq_false. rewrite Hf. set_solver.
Qed.

Lemma delete_session_success sid w response w' trace :
  delete_session sid w = (Return response, w', trace) →
  ∃ s, active_sessions w !! sid = Some s ∧
       active_sessions w' = delete sid (active_sessions w) ∧
       path_exists (file_path s) (fs w') = false.
Proof.
  unfold delete_session.
  destruct (active_sessions w !! sid) as [s|] eqn:Hs; [|discriminate].
  destruct (if path_exists _ _ then unlink _ _ else _) as [e|fs1] eqn:Hu; [discriminate|].
  destruct (if path_exists _ _ then rmdir _ _ else _) as [e|fs2] eqn:Hr; [discriminate|].
  intros [= <- <- <-]. exists s. split; [done|]. split; [done|]. simpl.
  assert (path_exists (file_path s) fs1 = false) as Hgone.
  { destruct (path_exists (file_path s) (fs w)) eqn:Hex.
    - by apply unlink_removes in Hu as [? _].
    - by injection Hu as <-. }
  destruct (path_exists (path_parent (file_path s)) fs1).
  - apply rmdir_shrinks in Hr as [Hf Hd]. by eapply path_exists_shrink.
  - by injection Hr as <-.
Qed.

(** Operations on an id that is not in the map. *)
Lemma unknown_session sid w :
  active_sessions w !! sid = None →
  let not_found := Raise (HTTPException 404 "Session not found") in
  (∀ svc, analyze_meeting svc sid w = (not_found, w, [])) ∧
  get_analysis sid w = (not_found, w, []) ∧
  get_video sid w = (not_found, w, []) ∧
  (∀ env, export_pdf env sid w = (not_found, w, [])) ∧
  (∀ env, export_json env sid w = (not_found, w, [])) ∧
  delete_session sid w = (not_found, w, []) ∧
  (∀ svc incoming,
     websocket_stream svc sid incoming w
     = ([MsgError "Session not found"; Close], w, [])).
Proof.
  intros Hnone not_found.
  unfold analyze_meeting, get_analysis, get_video, with_session, export_pdf,
    export_json, delete_session, websocket_stream.
  rewrite Hnone. repeat split.
Qed.

(** Only an upload that draws the same id brings a session back. *)
Lemma serve_keeps_unknown sid w (r : Request num) :
  (∀ file, r ≠ Upload sid file) →
  active_sessions w !! sid = None →
  active_sessions (serve w r) !! sid = None.
Proof.
  intros Hr Hnone.
  destruct r as [uuid4 file|svc sid'|sid'|svc sid' incoming|sid'|sid'|env sid'|env sid'|sid' f];
    simpl.
  - unfold upload_file. case_match; [done|].
    destruct (mkdir _ _) as [e|fs1]; [done|].
    destruct (write_file _ _) as [e|fs2]; [done|]. simpl.
    rewrite lookup_insert_ne; [done|]. intros ->. by apply (Hr file).
  - unfold analyze_meeting, with_session.
    destruct (active_sessions w !! sid') as [s|] eqn:Hs; [|done].
    destruct (analyze_session _ _ _ _) as [[o s'] t]. simpl.
    rewrite lookup_insert_ne; [done|]. congruence.
  - by rewrite get_analysis_world.
  - unfold websocket_stream.
    destruct (active_sessions w !! sid') as [s|] eqn:Hs; [|done].
    destruct (stream_data s); [done|].
    destruct (initialize_stream _ _); [done|]. simpl.
    rewrite lookup_insert_ne; [done|]. congruence.
  - by rewrite get_video_world.
  - unfold delete_session.
    destruct (active_sessions w !! sid') as [s|] eqn:Hs; [|done].
    destruct (if path_exists _ _ then unlink _ _ else _) as [e|fs1]; [done|].
    destruct (if path_exists _ _ then rmdir _ _ else _) as [e|fs2]; [done|].
    simpl. rewrite lookup_delete_ne; [done|]. congruence.
  - unfold export_pdf.
    destruct (active_sessions w !! sid') as [s|] eqn:Hs; [|done].
    repeat (case_match; try done).
  - unfold export_json.
    destruct (active_sessions w !! sid') as [s|] eqn:Hs; [|done].
    repeat (case_match; try done).
  - unfold stream_progress. simpl.
    destruct (decide (sid' = sid)) as [->|Hne].
    + by rewrite lookup_alter_eq, Hnone.
    + by rewrite lookup_alter_ne.
Qed.

Lemma serve_all_keeps_unknown sid w (requests : list (Request num)) :
  Forall (λ r, ∀ file, r ≠ Upload sid file) requests →
  active_sessions w !! sid = None →
  active_sessions (serve_all w requests) !! sid = None.
Proof.
  intros Hrs. revert w. unfold serve_all.
  induction Hrs as [|r requests Hr Hrs IH]; intros w Hnone; simpl; [done|].
  apply IH. by apply serve_keeps_unknown.
Qed.

End DeleteFacts.

(** Claim C9.  After a successful [delete_session] the session is out of the
    map and its file is gone; every operation on the id (analyze, analysis,
    video, both exports, delete) raises HTTP 404 "Session not found" and the
    WebSocket handler answers with the error frame and closes; this stays so
    through any later requests, as long as no upload draws the same id. *)
Theorem deleted_session_not_found :
  ∀ (num : Type) (F : PyFloat num) (R : PyRuntime)
    (sid : string) (w w' : World num) (response : Response num) (trace : list Event),
    delete_session sid w = (Return response, w', trace) →
    let not_found := Raise (HTTPException 404 "Session not found") in
    (∃ s, active_sessions w !! sid = Some s ∧
          path_exists (file_path s) (fs w') = false) ∧
    active_sessions w' !! sid = None ∧
    (∀ svc, analyze_meeting svc sid w' = (not_found, w', [])) ∧
    get_analysis sid w' = (not_found, w', []) ∧
    get_video sid w' = (not_found, w', []) ∧
    (∀ env, export_pdf env sid w' = (not_found, w', [])) ∧
    (∀ env, export_json env sid w' = (not_found, w', [])) ∧
    delete_session sid w' = (not_found, w', []) ∧
    (∀ svc incoming,
       websocket_stream svc sid incoming w'
       = ([MsgError "Session not found"; Close], w', [])) ∧
    (∀ requests : list (Request num),
       Forall (λ r, ∀ file, r ≠ Upload sid file) requests →
       active_sessions (serve_all w' requests) !! sid = None).
Proof.
  intros num F R sid w w' response trace Hdel not_found.
  destruct (delete_session_success _ _ _ _ _ Hdel) as (s & Hs & Hmap & Hgone).
  assert (active_sessions w' !! sid = None) as Hnone
    by (rewrite Hmap; apply lookup_delete_eq).
  split; [by exists s|]. split; [exact Hnone|].
  destruct (unknown_session sid w' Hnone) as (? & ? & ? & ? & ? & ? & ?).
  repeat (split; [done|]).
  intros requests Hrs. by apply serve_all_keeps_unknown.
Qed.

(** The uploaded recording, deleted and then queried. *)
Lemma deleted_session_not_found_witness :
  (delete_session recording uploaded).1.1 = Return (Message "Session deleted successfully") ∧
  get_analysis recording (delete_session recording uploaded).1.2
  = (Raise (HTTPException 404 "Session not found"),
     (delete_session recording uploaded).1.2, []).
Proof.
  assert (delete_session recording uploaded
          = (Return (Message "Session deleted successfully"),
             (delete_session recording uploaded).1.2, [])) as Hdel
    by (vm_compute; reflexivity).
  pose proof (deleted_session_not_found Z tenths_float posix_runtime
                recording uploaded _ _ _ Hdel) as (_ & _ & _ & Hget & _).
  split; [by rewrite Hdel | exact Hget].
Defined.

(** Claim C10.  An upload whose lowercased file name extension is not one of
    .mp4, .mp3, .wav, .avi, .mov, .mkv raises HTTP 400 and leaves the world as
    it is.  An upload that returns has an extension of that list and stores,
    under the fresh id, a session with status ["uploaded"],
    [analysis_complete] false and neither analysis nor stream cache nor
    error.  An upload that raises, for the extension or in a file system
    call, stores no session. *)
Theorem upload_checks_extension :
  ∀ (num : Type) (F : PyFloat num) (R : PyRuntime)
    (uuid4 : string) (file : UploadFile) (w : World num),
    let file_ext := str_lower (path_suffix (upload_filename file)) in
    let result := upload_file uuid4 file w in
    (file_ext ∉ allowed_extensions →
       result = (Raise (HTTPException 400
                          ("File type " +:+ file_ext +:+ " not supported. Allowed: "
                           +:+ ".mp4, .mp3, .wav, .avi, .mov, .mkv")), w, [])) ∧
    (∀ response, result.1.1 = Return response →
       file_ext ∈ [".mp4"; ".mp3"; ".wav"; ".avi"; ".mov"; ".mkv"] ∧
       response = UploadOk uuid4 (upload_filename file)
                    (String.length (upload_content file)) "File uploaded successfully" ∧
       ∃ path,
         active_sessions result.1.2
         = <[uuid4 := {| file_path := path;
                         filename := upload_filename file;
                         status := "uploaded";
                         analysis_complete := false;
                         analysis := None;
                         stream_data := None;
                         error := None |}]> (active_sessions w) ∧
         path ∈ files (fs result.1.2)) ∧
    (∀ e, result.1.1 = Raise e → active_sessions result.1.2 = active_sessions w).
Proof.
  intros num F R uuid4 file w file_ext result.
  unfold result, upload_file. fold file_ext.
  destruct (bool_decide (file_ext ∈ allowed_extensions)) eqn:Hext.
  - apply bool_decide_eq_true in Hext. simpl negb. cbv iota.
    split; [done|].
    destruct (mkdir _ _) as [e|fs1]; [by repeat split|].
    destruct (write_file _ _) as [e|fs2] eqn:Hw; [by repeat split|].
    simpl. split; [|done].
    intros response [= <-]. split; [exact Hext|]. split; [done|].
    eexists. split; [reflexivity|].
    unfold write_file in Hw. repeat case_bool_decide; simplify_eq. simpl. set_solver.
  - apply bool_decide_eq_false in Hext. simpl.
    split; [done|]. split; [done|]. done.
Qed.

(** A text file is refused; a recording named in capitals is accepted. *)
Lemma upload_checks_extension_witness :
  upload_file recording notes idle
  = (Raise (HTTPException 400
       "File type .txt not supported. Allowed: .mp4, .mp3, .wav, .avi, .mov, .mkv"),
     idle, []) ∧
  active_sessions (upload_file recording meeting idle).1.2 !! recording
  = Some uploaded_session.
Proof.
  pose proof (upload_checks_extension Z tenths_float posix_runtime
                recording notes idle) as (Hreject & _ & _).
  pose proof (upload_checks_extension Z tenths_float posix_runtime
                recording meeting idle) as (_ & Haccept & _).
  split.
  - apply Hreject. vm_compute. intros Hin.
    repeat (apply elem_of_cons in Hin as [Hin|Hin]; [discriminate|]).
    by apply elem_of_nil in Hin.
  - destruct (Haccept _ eq_refl) as (_ & _ & path & Hmap & _).
    vm_compute. reflexivity.
Defined.

(* ===================================================================== *)
(** * Part III: further properties of the code                            *)
(* ===================================================================== *)

(** ** Session states between requests *)

Section ShapeFacts.
Import App.
Context {num : Type} `{PyFloat num} `{PyRuntime}.
Implicit Types (s : Session num) (svc : Services num) (w : World num).

(** A property of sessions that holds of a freshly uploaded session and is
    kept by the body of [analyze_meeting] and by every change of the stream
    cache holds of all sessions of all reachable worlds. *)
Lemma reachable_sessions (P : Session num → Prop) :
  (∀ path name,
     P {| file_path := path; filename := name; status := "uploaded";
          analysis_complete := false; analysis := None; stream_data := None;
          error := None |}) →
  (∀ svc fs sid s, P s → P (analyze_session svc fs sid s).1.2) →
  (∀ sd s, P s → P (set_stream_data sd s)) →
  (∀ f s, P s → P (mutate_stream_data f s)) →
  ∀ w, reachable w → map_Forall (λ _ s, P s) (active_sessions w).
Proof.
  intros Hnew Hanalyze Hset Hmut w (fs0 & requests & ->). unfold serve_all.
  induction requests as [|r requests IH] using rev_ind; [apply map_Forall_empty|].
  rewrite foldl_snoc. set (w := foldl serve (start fs0) requests) in *.
  destruct r as [uuid4 file|svc sid|sid|svc sid incoming|sid|sid|env sid|env sid|sid f];
    simpl.
  - unfold upload_file. case_match; [done|].
    destruct (mkdir _ _) as [e|fs1]; [done|].
    destruct (write_file _ _) as [e|fs2]; [done|]. simpl.
    by apply map_Forall_insert_2.
  - unfold analyze_meeting, with_session.
    destruct (active_sessions w !! sid) as [s|] eqn:Hs; [|done].
    pose proof (Hanalyze svc (fs w) sid s (IH _ _ Hs)) as Hs'.
    destruct (analyze_session svc (fs w) sid s) as [[o s'] t]. simpl in *.
    by apply map_Forall_insert_2.
  - by rewrite get_analysis_world.
  - unfold websocket_stream.
    destruct (active_sessions w !! sid) as [s|] eqn:Hs; [|done].
    destruct (stream_data s); [done|].
    destruct (initialize_stream _ _); [done|]. simpl.
    apply map_Forall_insert_2; [|done]. apply Hset. exact (IH _ _ Hs).
  - by rewrite get_video_world.
  - unfold delete_session.
    destruct (active_sessions w !! sid) as [s|] eqn:Hs; [|done].
    destruct (if path_exists _ _ then unlink _ _ else _) as [e|fs1]; [done|].
    destruct (if path_exists _ _ then rmdir _ _ else _) as [e|fs2]; [done|].
    by apply map_Forall_delete.
  - unfold export_pdf.
    destruct (active_sessions w !! sid) as [s|] eqn:Hs; [|done].
    repeat (case_match; try done).
  - unfold export_json.
    destruct (active_sessions w !! sid) as [s|] eqn:Hs; [|done].
    repeat (case_match; try done).
  - unfold stream_progress. simpl.
    intros k s Hk. destruct (decide (sid = k)) as [->|Hne].
    + rewrite lookup_alter_eq in Hk.
      destruct (active_sessions w !! k) as [s0|] eqn:Hs0; [|done].
      simpl in Hk. injection Hk as <-. apply Hmut. exact (IH _ _ Hs0).
    + rewrite lookup_alter_ne in Hk by done. exact (IH _ _ Hk).
Qed.

Lemma settled_not_cached s :
  settled s → cached s = false → analysis s = None ∧ analysis_complete s = false.
Proof.
  unfold cached. intros [(_ & ? & ? & _)|[(_ & [r Hr] & Hc)|(_ & ? & ? & _)]] Hcached;
    [done| |done].
  rewrite Hc, Hr in Hcached. discriminate.
Qed.

Lemma run_full_analysis_settled svc fs sid s :
  settled s → analysis s = None → analysis_complete s = false →
  settled (run_full_analysis svc fs sid s).1.2.
Proof.
  intros Hs Ha Hc. rewrite run_full_analysis_eq.
  destruct (path_exists _ _); [|exact Hs].
  destruct (analyze_full _ _) as [m|r].
  - right; right. simpl. by eauto.
  - right; left. destruct (truthy (stream_data s)); simpl; eauto.
Qed.

Lemma analyze_session_settled svc fs sid s :
  settled s → settled (analyze_session svc fs sid s).1.2.
Proof.
  intros Hs. rewrite analyze_session_eq.
  destruct (cached s) eqn:Hc; [exact Hs|].
  destruct (settled_not_cached _ Hs Hc) as [Ha Hac].
  destruct (truthy (stream_data s)); [|by apply run_full_analysis_settled].
  cbv zeta. destruct (stream_data _) as [sd|].
  - destruct (is_fully_processed sd).
    + right; left. simpl. eauto.
    + by apply run_full_analysis_settled.
  - by apply run_full_analysis_settled.
Qed.

Lemma reachable_settled w : reachable w → map_Forall (λ _ s, settled s) (active_sessions w).
Proof.
  apply reachable_sessions.
  - intros path name. left. done.
  - intros svc fs sid s. apply analyze_session_settled.
  - intros sd s Hs. exact Hs.
  - intros f s Hs. exact Hs.
Qed.

End ShapeFacts.

Import App.

(** Property X1.  Between two requests every session is in one of three
    shapes: status "uploaded" with no analysis, the completion flag unset and
    no error entry; status "complete" with an analysis and the flag set; or
    status "error" with no analysis, the flag unset and an error entry.  The
    status "analyzing" is never left behind by a request, and an error entry
    with status "uploaded" does not occur. *)
Theorem sessions_between_requests :
  ∀ (num : Type) (F : PyFloat num) (R : PyRuntime)
    (w : World num) (sid : string) (s : Session num),
    reachable w →
    active_sessions w !! sid = Some s →
    (status s = "uploaded" ∧ analysis s = None ∧ analysis_complete s = false
     ∧ error s = None) ∨
    (status s = "complete" ∧ is_Some (analysis s) ∧ analysis_complete s = true) ∨
    (status s = "error" ∧ analysis s = None ∧ analysis_complete s = false
     ∧ is_Some (error s)).
Proof.
  intros num F R w sid s Hreach Hs. exact (reachable_settled w Hreach sid s Hs).
Qed.

(** The session after an analysis whose producer raised. *)
Lemma sessions_between_requests_witness :
  reachable (analyze_meeting failing recording uploaded).1.2 ∧
  ∃ s, active_sessions (analyze_meeting failing recording uploaded).1.2 !! recording
       = Some s ∧ status s = "error" ∧ analysis s = None ∧ is_Some (error s).
Proof.
  assert (reachable (analyze_meeting failing recording uploaded).1.2) as Hreach
    by (exists empty_disk, [Upload recording meeting; Analyze failing recording];
        reflexivity).
  split; [exact Hreach|].
  eexists. split; [vm_compute; reflexivity|].
  destruct (sessions_between_requests Z tenths_float posix_runtime _ recording _
              Hreach ltac:(vm_compute; reflexivity))
    as [(Hst & _)|[(Hst & _)|(Hst & Ha & _ & He)]];
    [discriminate Hst | discriminate Hst | done].
Defined.

Section TraceFacts.
Context {num : Type} `{PyFloat num} `{PyRuntime}.
Implicit Types (s : Session num) (svc : Services num) (w : World num).

Lemma analyze_meeting_trace svc sid w :
  ∃ k tail,
    (analyze_meeting svc sid w).2 = replicate k (Sleep 2%Q) ++ tail ∧ k ≤ 15 ∧
    (tail = [] ∨ (∃ path, tail = [AnalyzeFull path])
     ∨ (∃ path, tail = [BuildAnalysisFromStream path])).
Proof.
  unfold analyze_meeting, with_session.
  destruct (active_sessions w !! sid) as [s|] eqn:Hs.
  - destruct (analyze_session_trace svc (fs w) sid s) as (k & tail & Ht & Hk & Htail).
    destruct (analyze_session svc (fs w) sid s) as [[o s'] t]. simpl in *.
    exists k, tail. split; [done|]. split; [done|].
    destruct Htail as [->|[->| ->]]; eauto.
  - exists 0, []. simpl. auto with lia.
Qed.

End TraceFacts.

(** Property X2.  One analyze call invokes at most one producer, the full
    one or the derivation from the stream cache, never both and never one of
    them twice: on every world and for every session id, the calls it awaits
    are at most fifteen sleeps of two seconds followed by at most one further
    call, which is no sleep. *)
Theorem analyze_calls_one_producer_at_most :
  ∀ (num : Type) (F : PyFloat num) (R : PyRuntime)
    (svc : Services num) (sid : string) (w : World num),
    let trace := (analyze_meeting svc sid w).2 in
    full_computations trace + stream_derivations trace ≤ 1 ∧
    ∃ k tail, trace = replicate k (Sleep 2%Q) ++ tail ∧ k ≤ 15 ∧
              sleeps tail = [] ∧ List.length tail ≤ 1.
Proof.
  intros num F R svc sid w trace. unfold trace.
  destruct (analyze_meeting_trace svc sid w) as (k & tail & -> & Hk & Htail).
  rewrite full_computations_app, stream_derivations_app,
    full_computations_sleeps, stream_derivations_sleeps.
  unfold full_computations, stream_derivations.
  destruct Htail as [->|[[path ->]|[path ->]]]; simpl;
    (split; [lia|]); eexists k, _; (split; [reflexivity|]); simpl; auto with lia.
Qed.

(** ** The analyze call and the session it works on *)

Section AnalyzeFacts.
Context {num : Type} `{PyFloat num} `{PyRuntime}.
Implicit Types (s : Session num) (svc : Services num) (w : World num).

Lemma session_after_zero svc a s : session_after svc a 0 s = s.
Proof. unfold session_after. simpl. apply mutate_stream_data_id. Qed.

(** What the from-scratch path does when the recording is gone. *)
Lemma run_full_analysis_missing svc fs sid s :
  path_exists (file_path s) fs = false →
  run_full_analysis svc fs sid s = (Raise (HTTPException 404 "File not found"), s, []).
Proof. intros Hp. by rewrite run_full_analysis_eq, Hp. Qed.

(** The trace of [analyze_session] sleeps [k] times, where the session left
    behind has gone through these [k] sleeps of the streaming task. *)
Lemma analyze_session_stream svc fs sid s sd :
  stream_data s = Some sd →
  stream_data (analyze_session svc fs sid s).1.2
  = Some (stream_after svc 0 (List.length (sleeps (analyze_session svc fs sid s).2)) sd).
Proof.
  intros Hsd. rewrite analyze_session_eq.
  destruct (cached s); [done|].
  rewrite Hsd. simpl truthy. cbv iota zeta.
  set (k := waited svc 0 15 s).
  assert (stream_data (session_after svc 0 k s) = Some (stream_after svc 0 k sd)) as Hk
    by (by rewrite stream_data_session_after, Hsd).
  assert (stream_data (after_sleeps k (run_full_analysis svc fs sid (session_after svc 0 k s))).1.2
          = Some (stream_after svc 0
                    (List.length (sleeps (after_sleeps k
                       (run_full_analysis svc fs sid (session_after svc 0 k s))).2)) sd))
    as Hfull.
  { unfold after_sleeps. rewrite run_full_analysis_eq. simpl.
    destruct (path_exists _ _).
    - destruct (analyze_full _ _) as [m|r]; simpl;
        rewrite sleeps_app, sleeps_replicate, length_app, length_replicate; simpl;
        rewrite Nat.add_0_r; [by rewrite Hsd|].
      by rewrite Hsd.
    - simpl. rewrite sleeps_app, sleeps_replicate, length_app, length_replicate. simpl.
      rewrite Nat.add_0_r. by rewrite Hsd. }
  rewrite Hk. destruct (is_fully_processed (stream_after svc 0 k sd)); [|exact Hfull].
  simpl. rewrite sleeps_app, sleeps_replicate, length_app, length_replicate. simpl.
  rewrite Nat.add_0_r. by rewrite Hsd.
Qed.

(** The [error] entry after an analyze call. *)
Lemma analyze_session_error svc fs sid s :
  match (analyze_session svc fs sid s).1.1 with
  | Raise (HTTPException 500 detail) =>
      ∃ message, analyze_full svc (file_path s) = inl message ∧
                 detail = "Analysis failed: " +:+ message ∧
                 error (analyze_session svc fs sid s).1.2 = Some message ∧
                 status (analyze_session svc fs sid s).1.2 = "error"
  | _ => error (analyze_session svc fs sid s).1.2 = error s
  end.
Proof.
  assert (∀ s0 k, file_path s0 = file_path s → error s0 = error s →
            let result := after_sleeps k (run_full_analysis svc fs sid s0) in
            match result.1.1 with
            | Raise (HTTPException 500 detail) =>
                ∃ message, analyze_full svc (file_path s) = inl message ∧
                           detail = "Analysis failed: " +:+ message ∧
                           error result.1.2 = Some message ∧
                           status result.1.2 = "error"
            | _ => error result.1.2 = error s
            end) as Hfull.
  { intros s0 k Hpath Herr. unfold after_sleeps. rewrite run_full_analysis_eq. simpl.
    rewrite Hpath. destruct (path_exists _ _); [|done].
    destruct (analyze_full _ _) as [m|r]; simpl; [by exists m|].
    by destruct (truthy (stream_data s0)). }
  rewrite analyze_session_eq.
  destruct (cached s); [done|].
  destruct (truthy (stream_data s)).
  - cbv zeta. destruct (stream_data _) as [sd|]; [|by apply Hfull].
    destruct (is_fully_processed sd); [done | by apply Hfull].
  - specialize (Hfull s 0 eq_refl eq_refl). unfold after_sleeps in Hfull.
    simpl in Hfull. exact Hfull.
Qed.

End AnalyzeFacts.

(** Property X3.  An analyze call on a session whose recording is no longer on
    disk never invokes the full producer.  With no stream cache it answers
    404 "File not found" and changes nothing.  With a stream cache it either
    derives the analysis from the cache, which does not need the file, or
    answers 404 after the polling sleeps, leaving the session as the
    streaming task shaped it during these sleeps: the status stays what it
    was and never becomes "analyzing". *)
Theorem analyze_without_recording :
  ∀ (num : Type) (F : PyFloat num) (R : PyRuntime)
    (svc : Services num) (sid : string) (w : World num) (s : Session num),
    active_sessions w !! sid = Some s →
    cached s = false →
    path_exists (file_path s) (fs w) = false →
    let result := analyze_meeting svc sid w in
    full_computations result.2 = 0 ∧
    (stream_data s = None →
     result = (Raise (HTTPException 404 "File not found"), w, [])) ∧
    ((result.1.1 = Raise (HTTPException 404 "File not found") ∧
      stream_derivations result.2 = 0 ∧
      active_sessions result.1.2 !! sid
      = Some (session_after svc 0 (List.length (sleeps result.2)) s))
     ∨ (∃ r, result.1.1 = Return (AnalysisComplete sid (Some r)) ∧
             stream_derivations result.2 = 1)).
Proof.
  intros num F R svc sid w s Hs Hc Hp result. unfold result.
  rewrite (analyze_meeting_found _ _ _ _ Hs). simpl.
  rewrite analyze_session_eq, Hc.
  assert (∀ k, let full := after_sleeps k
                 (run_full_analysis svc (fs w) sid (session_after svc 0 k s)) in
            full_computations full.2 = 0 ∧
            full.1.1 = Raise (HTTPException 404 "File not found") ∧
            stream_derivations full.2 = 0 ∧
            full.1.2 = session_after svc 0 (List.length (sleeps full.2)) s) as Hfull.
  { intros k. cbv zeta. rewrite run_full_analysis_missing by exact Hp.
    unfold after_sleeps. simpl. rewrite app_nil_r.
    rewrite full_computations_sleeps, stream_derivations_sleeps, sleeps_replicate,
      length_replicate. done. }
  destruct (stream_data s) as [sd|] eqn:Hsd; simpl truthy; cbv iota.
  - cbv zeta. set (k := waited svc 0 15 s).
    destruct (Hfull k) as (Hn & Hout & Hd & Hs').
    rewrite stream_data_session_after, Hsd.
    change (stream_after svc 0 k <$> Some sd) with (Some (stream_after svc 0 k sd)).
    cbv iota. destruct (is_fully_processed (stream_after svc 0 k sd)).
    + simpl. rewrite full_computations_app, full_computations_sleeps.
      split; [done|]. split; [done|]. right. eexists. split; [reflexivity|].
      rewrite stream_derivations_app, stream_derivations_sleeps. done.
    + split; [exact Hn|]. split; [done|]. left.
      split; [exact Hout|]. split; [exact Hd|].
      rewrite lookup_insert_eq. by rewrite <- Hs'.
  - rewrite run_full_analysis_missing by exact Hp. simpl.
    split; [done|]. split.
    + intros _. rewrite insert_id by exact Hs. by destruct w.
    + left. split; [done|]. split; [done|].
      by rewrite lookup_insert_eq, session_after_zero.
Qed.

(** An uploaded session whose file was removed from the disk. *)
Lemma analyze_without_recording_witness :
  analyze_meeting working recording
    {| active_sessions := active_sessions uploaded; fs := empty_disk |}
  = (Raise (HTTPException 404 "File not found"),
     {| active_sessions := active_sessions uploaded; fs := empty_disk |}, []).
Proof.
  refine (proj1 (proj2 (analyze_without_recording Z tenths_float posix_runtime
                          working recording
                          {| active_sessions := active_sessions uploaded;
                             fs := empty_disk |}
                          uploaded_session _ _ _)) _);
    vm_compute; reflexivity.
Defined.

(** Property X4.  An analyze call never replaces or drops a stream cache that
    is already there: whatever the outcome, the session keeps a stream
    cache, and it is the old one as the streaming task left it after the
    sleeps of the call. *)
Theorem analyze_keeps_stream_cache :
  ∀ (num : Type) (F : PyFloat num) (R : PyRuntime)
    (svc : Services num) (sid : string) (w : World num)
    (s : Session num) (sd : StreamData num),
    active_sessions w !! sid = Some s →
    stream_data s = Some sd →
    let result := analyze_meeting svc sid w in
    ∃ s', active_sessions result.1.2 !! sid = Some s' ∧
          stream_data s'
          = Some (stream_after svc 0 (List.length (sleeps result.2)) sd).
Proof.
  intros num F R svc sid w s sd Hs Hsd result. unfold result.
  rewrite (analyze_meeting_found _ _ _ _ Hs). simpl.
  eexists. split; [apply lookup_insert_eq|].
  by apply analyze_session_stream.
Qed.

(** A stream cache that the streaming task completes during the third
    sleep. *)
Lemma analyze_keeps_stream_cache_witness :
  ∃ s', active_sessions (analyze_meeting finishing recording streaming).1.2 !! recording
        = Some s' ∧
        stream_data s' = Some (stream_after finishing 0 3 fresh_stream).
Proof.
  exact (analyze_keeps_stream_cache Z tenths_float posix_runtime
           finishing recording streaming streaming_session fresh_stream
           ltac:(vm_compute; reflexivity) eq_refl).
Defined.

(** Property X5.  The [error] entry of a session is written only by a failing
    producer call and is never cleared: an analyze call that answers 500
    stores the producer's message and the status "error"; every other
    outcome, a success included, leaves the entry as it was, so the message
    of an earlier failure stays in the session after a successful retry. *)
Theorem error_entry_is_never_cleared :
  ∀ (num : Type) (F : PyFloat num) (R : PyRuntime)
    (svc : Services num) (sid : string) (w : World num) (s : Session num),
    active_sessions w !! sid = Some s →
    let result := analyze_meeting svc sid w in
    ∃ s', active_sessions result.1.2 !! sid = Some s' ∧
          match result.1.1 with
          | Raise (HTTPException 500 detail) =>
              ∃ message, analyze_full svc (file_path s) = inl message ∧
                         detail = "Analysis failed: " +:+ message ∧
                         error s' = Some message ∧ status s' = "error"
          | _ => error s' = error s
          end.
Proof.
  intros num F R svc sid w s Hs result. unfold result.
  rewrite (analyze_meeting_found _ _ _ _ Hs). simpl.
  eexists. split; [apply lookup_insert_eq|].
  apply analyze_session_error.
Qed.

(** A failed analysis followed by a successful retry. *)
Lemma error_entry_is_never_cleared_witness :
  let failed := (analyze_meeting failing recording uploaded).1.2 in
  ∃ s s', active_sessions failed !! recording = Some s ∧
          error s = Some "decoder error" ∧
          active_sessions (analyze_meeting working recording failed).1.2 !! recording
          = Some s' ∧
          status s' = "complete" ∧ error s' = Some "decoder error".
Proof.
  cbv zeta.
  destruct (error_entry_is_never_cleared Z tenths_float posix_runtime
              working recording (analyze_meeting failing recording uploaded).1.2
              _ ltac:(vm_compute; reflexivity)) as (s' & Hs' & Herr).
  eexists _, s'. split; [vm_compute; reflexivity|]. split; [reflexivity|].
  split; [exact Hs'|]. split.
  - vm_compute in Hs'. injection Hs' as <-. reflexivity.
  - exact Herr.
Defined.

(** ** Deleting a session whose directory is not empty *)

Section DeleteFailureFacts.
Context {num : Type} `{PyFloat num} `{PyRuntime}.
Implicit Types (s : Session num) (svc : Services num) (w : World num).

Lemma rmdir_not_empty d fs other :
  d ∈ dirs fs → other ∈ files fs ∪ dirs fs → path_parent other = d →
  rmdir d fs = inl (Exception "OSError: Directory not empty").
Proof.
  intros Hd Hother Hparent. unfold rmdir, dir_is_empty.
  rewrite bool_decide_eq_true_2 by exact Hd.
  rewrite bool_decide_eq_false_2; [done|].
  intros Hall. exact (Hall other Hother Hparent).
Qed.

Lemma get_video_missing sid w s :
  active_sessions w !! sid = Some s →
  path_exists (file_path s) (fs w) = false →
  get_video sid w = (Raise (HTTPException 404 "Video file not found"), w, []).
Proof.
  intros Hs Hp. unfold get_video, with_session. rewrite Hs.
  cbv beta iota zeta delta [mbind handler_bind mret handler_ret get raise].
  rewrite Hp. simpl. rewrite insert_id by exact Hs. by destruct w.
Qed.

End DeleteFailureFacts.

(** Property X6.  When something else than the recording lives in the
    session's directory, the delete call removes the recording, then fails
    on [rmdir] before it reaches [del active_sessions[session_id]]: the
    session stays registered with all its entries while its file is gone.
    From then on the video endpoint answers 404 "Video file not found" for
    the session, and a repeated delete call fails in the same way and still
    does not remove the session. *)
Theorem delete_fails_on_crowded_directory :
  ∀ (num : Type) (F : PyFloat num) (R : PyRuntime)
    (sid : string) (w : World num) (s : Session num) (other : string),
    active_sessions w !! sid = Some s →
    file_path s ∈ files (fs w) →
    file_path s ∉ dirs (fs w) →
    path_parent (file_path s) ∈ dirs (fs w) →
    other ∈ files (fs w) ∪ dirs (fs w) →
    other ≠ file_path s →
    path_parent other = path_parent (file_path s) →
    let result := delete_session sid w in
    (∃ message, result.1.1 = Raise (Exception message)) ∧
    active_sessions result.1.2 = active_sessions w ∧
    path_exists (file_path s) (fs result.1.2) = false ∧
    get_video sid result.1.2
    = (Raise (HTTPException 404 "Video file not found"), result.1.2, []) ∧
    delete_session sid result.1.2 = (result.1.1, result.1.2, []).
Proof.
  intros num F R sid w s other Hs Hfile Hnodir Hdir Hother Hne Hparent result.
  set (fs1 := {| files := files (fs w) ∖ {[file_path s]}; dirs := dirs (fs w) |}).
  assert (path_exists (file_path s) fs1 = false) as Hgone.
  { unfold path_exists. apply bool_decide_eq_false_2. simpl. set_solver. }
  assert (path_exists (path_parent (file_path s)) fs1 = true) as Hthere.
  { unfold path_exists. apply bool_decide_eq_true_2. simpl. set_solver. }
  assert (rmdir (path_parent (file_path s)) fs1
          = inl (Exception "OSError: Directory not empty")) as Hrmdir.
  { apply (rmdir_not_empty _ _ other); [done | | done]. simpl. set_solver. }
  assert (result = (Raise (Exception "OSError: Directory not empty"),
                    {| active_sessions := active_sessions w; fs := fs1 |}, []))
    as ->.
  { unfold result, delete_session. rewrite Hs.
    assert (path_exists (file_path s) (fs w) = true) as ->
      by (unfold path_exists; apply bool_decide_eq_true_2; set_solver).
    unfold unlink. rewrite bool_decide_eq_false_2 by exact Hnodir.
    rewrite bool_decide_eq_true_2 by exact Hfile.
    fold fs1. by rewrite Hthere, Hrmdir. }
  simpl. split; [by eexists|]. split; [done|]. split; [exact Hgone|]. split.
  - apply (get_video_missing _ _ s); [exact Hs | exact Hgone].
  - unfold delete_session. simpl. by rewrite Hs, Hgone, Hthere, Hrmdir.
Qed.

(** The recording's directory also holds an audio track extracted from
    it. *)
Lemma delete_fails_on_crowded_directory_witness :
  let crowded : World Z :=
    {| active_sessions := active_sessions uploaded;
       fs := {| files := files (fs uploaded) ∪ {["/tmp/moodflo/4f2c0d1e/audio.wav"]};
                dirs := dirs (fs uploaded) |} |} in
  (delete_session recording crowded).1.1
  = Raise (Exception "OSError: Directory not empty") ∧
  active_sessions (delete_session recording crowded).1.2 !! recording
  = Some uploaded_session ∧
  (get_video recording (delete_session recording crowded).1.2).1.1
  = Raise (HTTPException 404 "Video file not found").
Proof.
  cbv zeta.
  pose proof (delete_fails_on_crowded_directory Z tenths_float posix_runtime
                recording
                {| active_sessions := active_sessions uploaded;
                   fs := {| files := files (fs uploaded)
                                     ∪ {["/tmp/moodflo/4f2c0d1e/audio.wav"]};
                            dirs := dirs (fs uploaded) |} |}
                uploaded_session "/tmp/moodflo/4f2c0d1e/audio.wav"
                ltac:(vm_compute; reflexivity)
                ltac:(vm_compute; reflexivity)
                ltac:(vm_compute; intros Hin; discriminate Hin)
                ltac:(vm_compute; reflexivity)
                ltac:(vm_compute; reflexivity)
                ltac:(discriminate)
                ltac:(vm_compute; reflexivity))
    as (_ & Hsessions & _ & Hvideo & _).
  split; [vm_compute; reflexivity|]. split.
  - rewrite Hsessions. vm_compute. reflexivity.
  - by rewrite Hvideo.
Defined.

(** ** The streaming endpoint *)

Section StreamFacts.
Context {num : Type} `{PyFloat num} `{PyRuntime}.
Implicit Types (s : Session num) (svc : Services num) (w : World num).



Lemma serve_frames_length svc sd incoming :
  List.length (serve_frames svc sd incoming) ≤ List.length incoming.
Proof.
  induction incoming as [|[type time| |message] rest IH]; simpl; [lia| |lia|lia].
  case_bool_decide.
  - destruct (get_realtime_data _ _ _); simpl; lia.
  - case_bool_decide; simpl; lia.
Qed.

Lemma serve_frames_kinds svc sd incoming i m :
  serve_frames svc sd incoming !! i = Some m →
  match m with
  | MsgUpdate _ _ | MsgPong => True
  | MsgError _ => S i = List.length (serve_frames svc sd incoming)
  | _ => False
  end.
Proof.
  revert i. induction incoming as [|[type time| |message] rest IH]; intros i; simpl.
  - done.
  - case_bool_decide.
    + destruct (get_realtime_data _ _ _) as [e|update].
      * destruct i as [|[|i]]; [|done..]. by intros [= <-].
      * destruct i as [|i]; simpl; [by intros [= <-]|].
        intros Hi. specialize (IH i Hi). destruct m; try done. by f_equal.
    + case_bool_decide; [|apply IH].
      destruct i as [|i]; simpl; [by intros [= <-]|].
      intros Hi. specialize (IH i Hi). destruct m; try done. by f_equal.
  - done.
  - destruct i as [|[|i]]; [|done..]. by intros [= <-].
Qed.

Lemma serve_frames_filter svc sd incoming :
  serve_frames svc sd (List.filter is_handled_frame incoming)
  = serve_frames svc sd incoming.
Proof.
  induction incoming as [|[type time| |message] rest IH]; simpl; [done| |done|done].
  case_bool_decide as Hseek; simpl.
  - rewrite bool_decide_eq_true_2 by done. by rewrite IH.
  - case_bool_decide as Hping; simpl; [|exact IH].
    rewrite bool_decide_eq_false_2 by done.
    rewrite bool_decide_eq_true_2 by done. by rewrite IH.
Qed.

Lemma serve_frames_disconnect svc sd incoming later :
  serve_frames svc sd (incoming ++ Disconnect :: later) = serve_frames svc sd incoming.
Proof.
  induction incoming as [|[type time| |message] rest IH]; simpl; [done| |done|done].
  by rewrite IH.
Qed.

(** A stream cache is kept by every request that keeps the session. *)
Lemma serve_keeps_stream_cache sid w (r : Request num) s :
  keeps_session sid r →
  active_sessions w !! sid = Some s → is_Some (stream_data s) →
  ∃ s', active_sessions (serve w r) !! sid = Some s' ∧ is_Some (stream_data s').
Proof.
  intros Hkeep Hs Hsd.
  destruct r as [uuid4 file|svc sid'|sid'|svc sid' incoming|sid'|sid'|env sid'|env sid'|sid' f];
    simpl in *.
  - unfold upload_file. case_match; [by exists s|].
    destruct (mkdir _ _) as [e|fs1]; [by exists s|].
    destruct (write_file _ _) as [e|fs2]; [by exists s|]. simpl.
    exists s. by rewrite lookup_insert_ne.
  - destruct (decide (sid' = sid)) as [->|Hne].
    + rewrite (analyze_meeting_found _ _ _ _ Hs). simpl.
      eexists. split; [apply lookup_insert_eq|].
      destruct Hsd as [sd Hsd]. by rewrite (analyze_session_stream _ _ _ _ _ Hsd).
    + unfold analyze_meeting, with_session.
      destruct (active_sessions w !! sid') as [s0|]; [|by exists s].
      destruct (analyze_session _ _ _ _) as [[o s0'] t]. simpl.
      exists s. by rewrite lookup_insert_ne.
  - rewrite get_analysis_world. by exists s.
  - unfold websocket_stream.
    destruct (active_sessions w !! sid') as [s0|] eqn:Hs0; [|by exists s].
    destruct (stream_data s0); [by exists s|].
    destruct (initialize_stream _ _) as [m|sd]; [by exists s|]. simpl.
    destruct (decide (sid' = sid)) as [->|Hne].
    + rewrite lookup_insert_eq. by eexists.
    + exists s. by rewrite lookup_insert_ne.
  - rewrite get_video_world. by exists s.
  - unfold delete_session.
    destruct (active_sessions w !! sid') as [s0|]; [|by exists s].
    destruct (if path_exists _ _ then unlink _ _ else _) as [e|fs1]; [by exists s|].
    destruct (if path_exists _ _ then rmdir _ _ else _) as [e|fs2]; [by exists s|].
    simpl. exists s. by rewrite lookup_delete_ne.
  - unfold export_pdf.
    destruct (active_sessions w !! sid') as [s0|]; [|by exists s].
    repeat (case_match; try by exists s).
  - unfold export_json.
    destruct (active_sessions w !! sid') as [s0|]; [|by exists s].
    repeat (case_match; try by exists s).
  - unfold stream_progress. simpl.
    destruct (decide (sid' = sid)) as [->|Hne].
    + rewrite lookup_alter_eq, Hs. simpl. eexists. split; [done|].
      destruct Hsd as [sd Hsd]. simpl. rewrite Hsd. by eexists.
    + exists s. by rewrite lookup_alter_ne.
Qed.

Lemma serve_all_keeps_stream_cache sid (requests : list (Request num)) w s :
  Forall (keeps_session sid) requests →
  active_sessions w !! sid = Some s → is_Some (stream_data s) →
  ∃ s', active_sessions (serve_all w requests) !! sid = Some s' ∧
        is_Some (stream_data s').
Proof.
  intros Hrs. revert w s. unfold serve_all.
  induction Hrs as [|r requests Hr Hrs IH]; intros w s Hs Hsd; simpl; [by exists s|].
  destruct (serve_keeps_stream_cache sid w r s Hr Hs Hsd) as (s' & Hs' & Hsd').
  exact (IH _ _ Hs' Hsd').
Qed.

(** A connection to a session that has a stream cache. *)
Lemma websocket_stream_hit svc sid incoming w s sd :
  active_sessions w !! sid = Some s → stream_data s = Some sd →
  websocket_stream svc sid incoming w
  = (MsgReady (stream_duration sd) "Ready for streaming" :: serve_frames svc sd incoming,
     w, [Sleep 0.1%Q]).
Proof. intros Hs Hsd. unfold websocket_stream. by rewrite Hs, Hsd. Qed.

End StreamFacts.



(** Property X8.  A streaming connection never invokes a producer of analyses
    and writes nothing but the stream cache of its own session: the file
    system, every other session and, in its own session, the path, the file
    name, the status, the completion flag, the analysis and the error entry
    are as before; the world it leaves behind and the calls it awaits do not
    depend on the frames the client sends.  When the session already has a
    stream cache, or when [initialize_stream] raises, the world is left
    exactly as it was; an unknown session gets an error frame and the
    connection is closed. *)
Theorem stream_connection_writes_stream_cache_only :
  ∀ (num : Type) (F : PyFloat num) (R : PyRuntime)
    (svc : Services num) (sid : string) (incoming : list (ClientEvent num))
    (w : World num),
    let result := websocket_stream svc sid incoming w in
    fs result.1.2 = fs w ∧
    full_computations result.2 = 0 ∧
    stream_derivations result.2 = 0 ∧
    (∀ other, other ≠ sid →
       active_sessions result.1.2 !! other = active_sessions w !! other) ∧
    (∀ incoming',
       (websocket_stream svc sid incoming' w).1.2 = result.1.2 ∧
       (websocket_stream svc sid incoming' w).2 = result.2) ∧
    match active_sessions w !! sid with
    | None => result = ([MsgError "Session not found"; Close], w, [])
    | Some s =>
        (∃ s', active_sessions result.1.2 !! sid = Some s' ∧
               file_path s' = file_path s ∧ filename s' = filename s ∧
               status s' = status s ∧
               analysis_complete s' = analysis_complete s ∧
               analysis s' = analysis s ∧ error s' = error s) ∧
        (is_Some (stream_data s) ∨ (∃ m, initialize_stream svc (file_path s) = inl m) →
         result.1.2 = w)
    end.
Proof.
  intros num F R svc sid incoming w result. unfold result, websocket_stream.
  destruct (active_sessions w !! sid) as [s|] eqn:Hs; [|done].
  destruct (stream_data s) as [sd0|] eqn:Hsd.
  { simpl. repeat (split; [done|]). split; [by exists s|done]. }
  destruct (initialize_stream svc (file_path s)) as [m|sd] eqn:Hinit.
  { simpl. repeat (split; [done|]). split; [by exists s|done]. }
  simpl. split; [done|]. split; [done|]. split; [done|]. split.
  { intros other Hne. by rewrite lookup_insert_ne. }
  split; [done|]. split.
  - eexists. split; [apply lookup_insert_eq|]. done.
  - intros [[sd' Hsd']|[m Hm]]; discriminate.
Qed.

(** Property X9.  The stream of a session is initialised once.  The first
    connection to a session without a stream cache calls
    [initialize_stream], stores its result and sends "status" and then
    "ready" with the stream's duration.  After that, and after any further
    requests that neither delete the session nor upload over its id, every
    connection finds a stream cache: it sends "ready" as its first frame,
    awaits only the short sleep and leaves the world as it is. *)
Theorem stream_is_initialised_once :
  ∀ (num : Type) (F : PyFloat num) (R : PyRuntime)
    (svc : Services num) (sid : string) (incoming : list (ClientEvent num))
    (w : World num) (s : Session num) (sd : StreamData num),
    active_sessions w !! sid = Some s →
    stream_data s = None →
    initialize_stream svc (file_path s) = inr sd →
    let first := websocket_stream svc sid incoming w in
    first.2 = [InitializeStream (file_path s); Sleep 0.1%Q] ∧
    first.1.1 = MsgStatus "Initializing real-time analysis..."
                :: MsgReady (stream_duration sd) "Ready for streaming"
                :: serve_frames svc sd incoming ∧
    active_sessions first.1.2 !! sid = Some (set_stream_data sd s) ∧
    ∀ (requests : list (Request num)) (svc2 : Services num)
      (incoming2 : list (ClientEvent num)),
      Forall (keeps_session sid) requests →
      let later := websocket_stream svc2 sid incoming2 (serve_all first.1.2 requests) in
      later.2 = [Sleep 0.1%Q] ∧
      later.1.2 = serve_all first.1.2 requests ∧
      ∃ sd', later.1.1 = MsgReady (stream_duration sd') "Ready for streaming"
                         :: serve_frames svc2 sd' incoming2.
Proof.
  intros num F R svc sid incoming w s sd Hs Hsd Hinit first.
  assert (first = (MsgStatus "Initializing real-time analysis..."
                   :: MsgReady (stream_duration sd) "Ready for streaming"
                   :: serve_frames svc sd incoming,
                   {| active_sessions := <[sid := set_stream_data sd s]> (active_sessions w);
                      fs := fs w |},
                   [InitializeStream (file_path s); Sleep 0.1%Q])) as ->.
  { unfold first, websocket_stream. by rewrite Hs, Hsd, Hinit. }
  simpl. split; [done|]. split; [done|]. split; [apply lookup_insert_eq|].
  intros requests svc2 incoming2 Hkeep.
  destruct (serve_all_keeps_stream_cache sid requests
              {| active_sessions := <[sid := set_stream_data sd s]> (active_sessions w);
                 fs := fs w |}
              (set_stream_data sd s) Hkeep (lookup_insert_eq _ _ _)
              ltac:(by eexists)) as (s' & Hs' & [sd' Hsd']).
  rewrite (websocket_stream_hit _ _ _ _ _ _ Hs' Hsd'). simpl.
  split; [done|]. split; [done|]. by exists sd'.
Qed.

(** A first connection to the uploaded recording, an analysis, and a second
    connection. *)
Lemma stream_is_initialised_once_witness :
  (websocket_stream finishing recording [] uploaded).2
  = [InitializeStream "/tmp/moodflo/4f2c0d1e/standup.MP4"; Sleep 0.1%Q] ∧
  (websocket_stream failing recording []
     (serve_all (websocket_stream finishing recording [] uploaded).1.2
        [Analyze finishing recording])).2
  = [Sleep 0.1%Q].
Proof.
  pose proof (stream_is_initialised_once Z tenths_float posix_runtime
                finishing recording [] uploaded uploaded_session
                fresh_stream ltac:(vm_compute; reflexivity) eq_refl eq_refl)
    as (Hfirst & _ & _ & Hlater).
  split; [exact Hfirst|].
  refine (proj1 (Hlater [Analyze finishing recording] failing [] _)).
  by repeat constructor.
Defined.

(** Property X10.  The receive loop answers frame by frame, in order: it sends
    at most one frame per frame received; every frame it sends is an
    "update", a "pong" or an "error", and an "error" is the last frame of
    the connection.  Frames whose type is neither "seek" nor "ping" are
    skipped without an answer, and nothing that arrives after a disconnect is
    answered. *)
Theorem receive_loop_protocol :
  ∀ (num : Type) (F : PyFloat num) (R : PyRuntime)
    (svc : Services num) (sd : StreamData num) (incoming : list (ClientEvent num)),
    let replies := serve_frames svc sd incoming in
    List.length replies ≤ List.length incoming ∧
    (∀ i m, replies !! i = Some m →
       match m with
       | MsgUpdate _ _ | MsgPong => True
       | MsgError _ => S i = List.length replies
       | _ => False
       end) ∧
    serve_frames svc sd (List.filter is_handled_frame incoming) = replies ∧
    (∀ later, serve_frames svc sd (incoming ++ Disconnect :: later) = replies).
Proof.
  intros num F R svc sd incoming replies. unfold replies.
  split; [apply serve_frames_length|].
  split; [apply serve_frames_kinds|].
  split; [apply serve_frames_filter|].
  intros later. apply serve_frames_disconnect.
Qed.

(** ** Queries, exports and the session count *)

Section QueryFacts.
Context {num : Type} `{PyFloat num} `{PyRuntime}.
Implicit Types (s : Session num) (svc : Services num) (w : World num).

Lemma with_session_query sid (body : Handler (Response num)) w :
  (∀ s, (body s).1.2 = s ∧ (body s).2 = []) →
  (with_session sid body w).1.2 = w ∧ (with_session sid body w).2 = [].
Proof.
  intros Hbody. split; [apply with_session_unchanged; intros s; apply Hbody|].
  unfold with_session. destruct (active_sessions w !! sid) as [s|]; [|done].
  destruct (Hbody s) as [_ Ht]. by destruct (body s) as [[o s'] t].
Qed.

Lemma get_analysis_query sid w :
  (get_analysis sid w).1.2 = w ∧ (get_analysis sid w).2 = [].
Proof.
  apply with_session_query. intros s.
  cbv beta iota zeta delta [mbind handler_bind mret handler_ret get].
  by destruct (negb (analysis_complete s)).
Qed.

Lemma get_video_query sid w :
  (get_video sid w).1.2 = w ∧ (get_video sid w).2 = [].
Proof.
  apply with_session_query. intros s.
  cbv beta iota zeta delta [mbind handler_bind mret handler_ret get raise].
  by destruct (negb (path_exists (file_path s) (fs w))).
Qed.

Lemma export_json_query env sid w :
  (export_json env sid w).1.2 = w ∧ (export_json env sid w).2 = [].
Proof.
  unfold export_json. destruct (active_sessions w !! sid) as [s|]; [|done].
  destruct (negb (analysis_complete s)); [done|]. by destruct (analysis s).
Qed.

Lemma export_pdf_query env sid w :
  active_sessions (export_pdf env sid w).1.2 = active_sessions w ∧
  dirs (fs (export_pdf env sid w).1.2) = dirs (fs w) ∧
  (files (fs (export_pdf env sid w).1.2) = files (fs w) ∨
   files (fs (export_pdf env sid w).1.2)
   = files (fs w)
     ∪ {[path_join gettempdir ("moodflo_report_" +:+ slice_to 8 sid +:+ ".pdf")]}) ∧
  (export_pdf env sid w).2 = [].
Proof.
  unfold export_pdf. destruct (active_sessions w !! sid) as [s|]; [|by auto].
  destruct (negb (analysis_complete s)); [by auto|].
  destruct (analysis s) as [r|]; [|by auto].
  unfold write_file. repeat case_bool_decide; simpl; auto.
Qed.




End QueryFacts.

(** Property X11.  The query endpoints change nothing and await nothing:
    [get_analysis], [get_video] and [export_json] leave the world exactly as
    it was, whatever they answer.  [export_pdf] leaves the sessions and the
    directories as they were; the only thing it may add to the disk is the
    report file [moodflo_report_<first 8 characters of the id>.pdf] in the
    temporary directory. *)
Theorem queries_change_nothing :
  ∀ (num : Type) (F : PyFloat num) (R : PyRuntime)
    (env : ExportEnv) (sid : string) (w : World num),
    ((get_analysis sid w).1.2 = w ∧ (get_analysis sid w).2 = []) ∧
    ((get_video sid w).1.2 = w ∧ (get_video sid w).2 = []) ∧
    ((export_json env sid w).1.2 = w ∧ (export_json env sid w).2 = []) ∧
    (active_sessions (export_pdf env sid w).1.2 = active_sessions w ∧
     dirs (fs (export_pdf env sid w).1.2) = dirs (fs w) ∧
     (files (fs (export_pdf env sid w).1.2) = files (fs w) ∨
      files (fs (export_pdf env sid w).1.2)
      = files (fs w)
        ∪ {[path_join gettempdir ("moodflo_report_" +:+ slice_to 8 sid +:+ ".pdf")]}) ∧
     (export_pdf env sid w).2 = []).
Proof.
  intros num F R env sid w.
  split; [apply get_analysis_query|]. split; [apply get_video_query|].
  split; [apply export_json_query | apply export_pdf_query].
Qed.





(** ** The number of sessions *)

Section CountFacts.
Context {num : Type} `{PyFloat num} `{PyRuntime}.
Implicit Types (s : Session num) (svc : Services num) (w : World num).

Lemma size_insert_present sid s s' (m : gmap string (Session num)) :
  m !! sid = Some s → size (<[sid := s']> m) = size m.
Proof. intros Hs. apply map_size_insert_Some. by eexists. Qed.

Lemma with_session_size sid (body : Handler (Response num)) w :
  size (active_sessions (with_session sid body w).1.2) = size (active_sessions w).
Proof.
  unfold with_session. destruct (active_sessions w !! sid) as [s|] eqn:Hs; [|done].
  destruct (body s) as [[o s'] t]. simpl. by apply (size_insert_present _ s).
Qed.

Lemma serve_size w (r : Request num) :
  match r with
  | Upload _ _ | DeleteSession _ => True
  | _ => size (active_sessions (serve w r)) = size (active_sessions w)
  end.
Proof.
  destruct r as [uuid4 file|svc sid|sid|svc sid incoming|sid|sid|env sid|env sid|sid f];
    simpl; try done.
  - apply with_session_size.
  - by rewrite (proj1 (get_analysis_query sid w)).
  - unfold websocket_stream.
    destruct (active_sessions w !! sid) as [s|] eqn:Hs; [|done].
    destruct (stream_data s); [done|].
    destruct (initialize_stream _ _); [done|]. simpl.
    by apply (size_insert_present _ s).
  - by rewrite (proj1 (get_video_query sid w)).
  - by rewrite (proj1 (export_pdf_query env sid w)).
  - by rewrite (proj1 (export_json_query env sid w)).
  - unfold stream_progress. simpl.
    rewrite <- !(size_dom (D := gset string)). by rewrite dom_alter_L.
Qed.

End CountFacts.

(** Property X14.  The session count reported by the health check changes only
    on uploads and deletions.  Analyses, queries, exports, streaming
    connections and the streaming task leave it as it is, whatever they
    answer.  A delete call that answers lowers it by exactly one, a delete
    call that raises leaves it; an upload that answers raises it by one
    unless it reuses the id of a registered session, and a refused upload
    leaves it. *)
Theorem session_count_changes_on_upload_and_delete :
  ∀ (num : Type) (F : PyFloat num) (R : PyRuntime) (loaded : bool) (w : World num),
    let count := λ w : World num, health_active_sessions (health_check loaded w) in
    (∀ r : Request num,
       match r with
       | Upload _ _ | DeleteSession _ => True
       | _ => count (serve w r) = count w
       end) ∧
    (∀ sid,
       match (delete_session sid w).1.1 with
       | Return _ => S (count (delete_session sid w).1.2) = count w
       | Raise _ => count (delete_session sid w).1.2 = count w
       end) ∧
    (∀ uuid4 file,
       match (upload_file uuid4 file w).1.1 with
       | Return _ =>
           count (upload_file uuid4 file w).1.2
           = if decide (is_Some (active_sessions w !! uuid4))
             then count w else S (count w)
       | Raise _ => count (upload_file uuid4 file w).1.2 = count w
       end).
Proof.
  intros num F R loaded w count. unfold count. simpl.
  split; [apply serve_size|]. split.
  - intros sid. unfold delete_session.
    destruct (active_sessions w !! sid) as [s|] eqn:Hs; [|reflexivity].
    destruct (if path_exists _ _ then unlink _ _ else _) as [e|fs1]; [reflexivity|].
    destruct (if path_exists _ _ then rmdir _ _ else _) as [e|fs2]; [reflexivity|]. simpl.
    rewrite map_size_delete, Hs.
    assert (size (active_sessions w) ≠ 0); [|lia].
    intros Hzero. apply map_size_empty_inv in Hzero. rewrite Hzero in Hs. done.
  - intros uuid4 file. unfold upload_file.
    destruct (negb (bool_decide (_ ∈ allowed_extensions))); [reflexivity|].
    destruct (mkdir _ _) as [e|fs1]; [reflexivity|].
    destruct (write_file _ _) as [e|fs2]; [reflexivity|]. simpl.
    rewrite map_size_insert.
    destruct (active_sessions w !! uuid4) as [s|] eqn:Hs.
    + rewrite decide_True by (by eexists). done.
    + rewrite decide_False by (by intros [s Hs']). done.
Qed.

(** ** From the upload to the first requests *)

(** Property X15.  An upload that answers registers exactly one session, under
    the fresh id, and puts the recording where the other endpoints look for
    it: the answer carries the id, the file name and the number of bytes
    read; the video endpoint then returns the stored file, always as
    "video/mp4"; the session reads as "uploaded" and not complete; a first
    analyze call goes straight to the full producer on the stored path,
    without polling; the other sessions are untouched. *)
Theorem upload_registers_recording :
  ∀ (num : Type) (F : PyFloat num) (R : PyRuntime)
    (uuid4 : string) (file : UploadFile) (w w1 : World num)
    (response : Response num) (trace : list Event),
    upload_file uuid4 file w = (Return response, w1, trace) →
    let path :=
      path_join (path_join (path_join gettempdir "moodflo") uuid4) (upload_filename file) in
    response = UploadOk uuid4 (upload_filename file)
                 (String.length (upload_content file)) "File uploaded successfully" ∧
    trace = [] ∧
    get_video uuid4 w1 = (Return (FileResponse path "video/mp4" None), w1, []) ∧
    get_analysis uuid4 w1
    = (Return (AnalysisPending uuid4 "uploaded" "Analysis not complete"), w1, []) ∧
    (∀ svc : Services num, (analyze_meeting svc uuid4 w1).2 = [AnalyzeFull path]) ∧
    (∀ other, other ≠ uuid4 →
       active_sessions w1 !! other = active_sessions w !! other).
Proof.
  intros num F R uuid4 file w w1 response trace. unfold upload_file.
  case_match; [intros [=]|].
  destruct (mkdir _ _) as [e|fs1]; [intros [=]|].
  destruct (write_file _ fs1) as [e|fs2] eqn:Hwrite; [intros [=]|].
  intros [= <- <- <-]. cbv zeta.
  set (path := path_join (path_join (path_join gettempdir "moodflo") uuid4)
                 (upload_filename file)) in *.
  set (s := {| file_path := path; filename := upload_filename file;
               status := "uploaded"; analysis_complete := false; analysis := None;
               stream_data := None; error := None |}).
  set (w1 := {| active_sessions := <[uuid4:=s]> (active_sessions w); fs := fs2 |}).
  assert (active_sessions w1 !! uuid4 = Some s) as Hs by apply lookup_insert_eq.
  assert (path_exists path fs2 = true) as Hpath.
  { unfold write_file in Hwrite. repeat case_bool_decide; try discriminate.
    injection Hwrite as <-. unfold path_exists. apply bool_decide_eq_true_2.
    simpl. set_solver. }
  split; [done|]. split; [done|]. split; [|split; [|split]].
  - unfold get_video, with_session. rewrite Hs.
    cbv beta iota zeta delta [mbind handler_bind mret handler_ret get raise].
    change (file_path s) with path. change (fs w1) with fs2. rewrite Hpath. simpl.
    rewrite insert_id by exact Hs. done.
  - unfold get_analysis, with_session. rewrite Hs.
    cbv beta iota zeta delta [mbind handler_bind mret handler_ret get]. simpl.
    rewrite insert_id by exact Hs. done.
  - intros svc. rewrite (analyze_meeting_found _ _ _ _ Hs). simpl.
    rewrite analyze_session_eq. simpl. rewrite run_full_analysis_eq.
    change (file_path s) with path. rewrite Hpath.
    by destruct (analyze_full svc path).
  - intros other Hne. simpl. by rewrite lookup_insert_ne.
Qed.

(** The upload of the stand-up recording. *)
Lemma upload_registers_recording_witness :
  get_video recording uploaded
  = (Return (FileResponse "/tmp/moodflo/4f2c0d1e/standup.MP4" "video/mp4" None),
     uploaded, []).
Proof.
  exact (proj1 (proj2 (proj2
           (upload_registers_recording Z tenths_float posix_runtime
              recording meeting idle uploaded
              (UploadOk recording "standup.MP4" _ "File uploaded successfully") []
              ltac:(vm_compute; reflexivity))))).
Defined.

(** ** The insights generator *)

Section GeneratorFacts.
Context {num : Type} `{PyFloat num}.

Lemma string_app_assoc (a b c : string) : (a +:+ b) +:+ c = a +:+ (b +:+ c).
Proof.
  induction a as [|x a IH]; [done|].
  change (String x ((a +:+ b) +:+ c) = String x (a +:+ (b +:+ c))). by rewrite IH.
Qed.

Lemma risk_annex_agree (a b : Summary num) :
  psych_risk a = psych_risk b →
  (psych_risk a = "High" ∨ psych_risk a = "Medium" →
   fmt_1f (silence_pct a) = fmt_1f (silence_pct b) ∧
   fmt_1f (volatility a) = fmt_1f (volatility b) ∧
   fmt_1f (dict_get "🔥 Stressed/Tense" (of_int 0) (distribution a))
   = fmt_1f (dict_get "🔥 Stressed/Tense" (of_int 0) (distribution b))) →
  risk_annex a = risk_annex b.
Proof.
  intros Hrisk Hmetrics. unfold risk_annex, metrics_lines. rewrite <- Hrisk.
  destruct (String.eqb_spec (psych_risk a) "High") as [Hhigh|_].
  { destruct (Hmetrics (or_introl Hhigh)) as (-> & -> & ->). done. }
  destruct (String.eqb_spec (psych_risk a) "Medium") as [Hmedium|_]; [|done].
  destruct (Hmetrics (or_intror Hmedium)) as (-> & -> & ->). done.
Qed.

Lemma dict_get_absent {A} (key : string) (default : A) (d : list (string * A)) :
  (∀ kv, kv ∈ d → kv.1 ≠ key) → dict_get key default d = default.
Proof.
  intros Habsent. unfold dict_get.
  destruct (List.find _ d) as [kv|] eqn:Hfind; [|done].
  apply List.find_some in Hfind as [Hin Heq].
  apply String.eqb_eq in Heq. apply list_elem_of_In in Hin.
  by destruct (Habsent kv Hin).
Qed.

Lemma suggest_new_generator (OpenAI : string → option (string → string + string))
    (settings_key api_key : option string) (data : Summary num) :
  suggest (new_generator OpenAI settings_key api_key) data
  = generate_suggestions (generator_client (new_generator OpenAI settings_key api_key)) data.
Proof.
  unfold suggest, new_generator. simpl.
  destruct (if key_truthy api_key then api_key else settings_key) as [[|c key]|];
    simpl; try done.
  by destruct (OpenAI (String c key)).
Qed.

End GeneratorFacts.

(** Property X16.  The rule-based text is a function of the dominant emotion
    and the risk tier alone when the tier is neither "High" nor "Medium";
    for these two tiers it also reads the silence percentage, the volatility
    and the distribution's entry ["🔥 Stressed/Tense"], each through its
    one-decimal rendering, and nothing else: the average energy, the
    participation rate and the other entries of the distribution never reach
    the text.  When the distribution has no entry under exactly that key the
    stress line shows the rendering of 0. *)
Theorem fallback_reads_dominant_risk_and_three_metrics :
  ∀ (num : Type) (F : PyFloat num) (a b : Summary num),
    dominant_emotion a = dominant_emotion b →
    psych_risk a = psych_risk b →
    (psych_risk a = "High" ∨ psych_risk a = "Medium" →
     fmt_1f (silence_pct a) = fmt_1f (silence_pct b) ∧
     fmt_1f (volatility a) = fmt_1f (volatility b) ∧
     fmt_1f (dict_get "🔥 Stressed/Tense" (of_int 0) (distribution a))
     = fmt_1f (dict_get "🔥 Stressed/Tense" (of_int 0) (distribution b))) →
    _fallback_suggestions a = _fallback_suggestions b ∧
    ((∀ kv, kv ∈ distribution a → kv.1 ≠ "🔥 Stressed/Tense") →
     metrics_lines a
     = "Metrics:" +:+ nl +:+
       "• Silence: " +:+ fmt_1f (silence_pct a) +:+ "%" +:+ nl +:+
       "• Stress: " +:+ fmt_1f (of_int 0) +:+ "%" +:+ nl +:+
       "• Volatility: " +:+ fmt_1f (volatility a) +:+ nl).
Proof.
  intros num F a b Hdominant Hrisk Hmetrics. split.
  - rewrite !fallback_shape, <- Hdominant.
    by rewrite (risk_annex_agree a b Hrisk Hmetrics).
  - intros Habsent. unfold metrics_lines. by rewrite dict_get_absent.
Qed.

(** Two high-risk summaries that differ in energy, participation and the
    other entries of the distribution; the stressed share is filed under a
    key without the emoji in neither. *)
Lemma fallback_reads_dominant_risk_and_three_metrics_witness :
  _fallback_suggestions stressed_summary
  = _fallback_suggestions
      {| dominant_emotion := "🔥 Stressed/Tense";
         avg_energy := 90%Z; silence_pct := 420%Z; participation := 10%Z;
         volatility := 75%Z; psych_risk := "High";
         distribution := [("😐 Neutral", 400%Z); ("🔥 Stressed/Tense", 600%Z)] |}.
Proof.
  refine (proj1 (fallback_reads_dominant_risk_and_three_metrics Z tenths_float
                   stressed_summary _ eq_refl eq_refl _)).
  intros _. vm_compute. done.
Defined.

(** Property X17.  The risk tier is compared by exact equality with "High" and
    "Medium"; every other value, such as "Low", "high", "Critical" or the
    empty string, gets the low-risk ending: the text is then the category
    header, the label, the suggestions and the sentence on low risk, with no
    metrics at all. *)
Theorem other_risk_tiers_read_as_low :
  ∀ (num : Type) (F : PyFloat num) (data : Summary num),
    psych_risk data ≠ "High" →
    psych_risk data ≠ "Medium" →
    _fallback_suggestions data
    = (category_block (dominant_emotion data)).1
      +:+ (nl +:+ "RECOMMENDATIONS:" +:+ nl)
      +:+ PyStr.join nl (take 5 (category_block (dominant_emotion data)).2)
      +:+ (nl +:+ nl
           +:+ "✓ Psychological Safety: LOW RISK — Team dynamics appear healthy").
Proof.
  intros num F data Hhigh Hmedium. rewrite fallback_shape. unfold risk_annex.
  apply String.eqb_neq in Hhigh, Hmedium. by rewrite Hhigh, Hmedium.
Qed.

(** A summary whose tier is spelled in lower case. *)
Lemma other_risk_tiers_read_as_low_witness :
  contains "LOW RISK"
    (_fallback_suggestions
       {| dominant_emotion := "🔥 Stressed/Tense";
          avg_energy := 500%Z; silence_pct := 420%Z; participation := 800%Z;
          volatility := 75%Z; psych_risk := "high";
          distribution := [("🔥 Stressed/Tense", 600%Z)] |})
  = true.
Proof.
  rewrite (other_risk_tiers_read_as_low Z tenths_float
             {| dominant_emotion := "🔥 Stressed/Tense";
                avg_energy := 500%Z; silence_pct := 420%Z; participation := 800%Z;
                volatility := 75%Z; psych_risk := "high";
                distribution := [("🔥 Stressed/Tense", 600%Z)] |}
             ltac:(simpl; discriminate) ltac:(simpl; discriminate)).
  vm_compute. reflexivity.
Defined.

(** Property X18.  An [InsightsGenerator] asks the chat model only when a
    non-empty key is known and the client could be built for it: the key
    passed to the constructor is used when it is not empty, the configured
    key otherwise.  Without a usable key no client is built, and a generator
    without client returns the rule-based text; with a client the answer of
    the chat model to the built prompt is returned as it is, and the
    rule-based text when the call raises.  The rule-based text is never
    empty. *)
Theorem generator_falls_back_without_client :
  ∀ (num : Type) (F : PyFloat num)
    (OpenAI : string → option (string → string + string))
    (settings_key api_key : option string) (data : Summary num),
    let self := new_generator OpenAI settings_key api_key in
    generator_api_key self = (if key_truthy api_key then api_key else settings_key) ∧
    (key_truthy (generator_api_key self) = false → generator_client self = None) ∧
    (∀ key, generator_api_key self = Some key → key ≠ EmptyString →
            generator_client self = OpenAI key) ∧
    (generator_client self = None → suggest self data = _fallback_suggestions data) ∧
    (∀ chat, generator_client self = Some chat →
       suggest self data
       = match chat (_build_prompt data) with
         | inr content => content
         | inl _ => _fallback_suggestions data
         end) ∧
    _fallback_suggestions data ≠ EmptyString.
Proof.
  intros num F OpenAI settings_key api_key data. cbv zeta.
  split; [reflexivity|]. split; [|split; [|split; [|split]]].
  - unfold new_generator. simpl.
    by destruct (if key_truthy api_key then api_key else settings_key) as [[|c key]|].
  - intros key Hkey Hne. unfold new_generator in *. simpl in *.
    rewrite Hkey. by destruct key.
  - intros Hnone. by rewrite suggest_new_generator, Hnone.
  - intros chat Hchat. by rewrite suggest_new_generator, Hchat.
  - apply fallback_nonempty.
Qed.

(** ** The prompt for the chat model *)

Section PromptFacts.
Context {num : Type} `{PyFloat num}.

Lemma foldl_append {A} (piece : A → string) (items : list A) (start : string) :
  foldl (λ acc item, acc +:+ piece item) start items
  = start +:+ foldr (λ item rest, piece item +:+ rest) EmptyString items.
Proof.
  revert start. induction items as [|x items IH]; intros start.
  - simpl. induction start as [|c start IHs]; [done|].
    change (String c start = String c (start +:+ EmptyString)). by rewrite <- IHs.
  - simpl. by rewrite IH, string_app_assoc.
Qed.

Lemma foldr_append_split {A} (piece : A → string) (before after : list A) (x : A) :
  foldr (λ item rest, piece item +:+ rest) EmptyString (before ++ x :: after)
  = foldr (λ item rest, piece item +:+ rest) EmptyString before
    +:+ piece x +:+ foldr (λ item rest, piece item +:+ rest) EmptyString after.
Proof.
  induction before as [|y before IH]; [done|].
  simpl. by rewrite IH, string_app_assoc.
Qed.

End PromptFacts.

(** Property X19.  The prompt sent to the chat model is the fixed head with
    the six metrics of the summary, then one line ["- <emotion>: <share>%"]
    for every entry of the distribution, in the distribution's order, then
    an empty line and the request for suggestions: every entry of the
    distribution has its line in the prompt. *)
Theorem prompt_lists_the_distribution :
  ∀ (num : Type) (F : PyFloat num) (data : Summary num),
    let line := λ kv : string * num,
      "- " +:+ kv.1 +:+ ": " +:+ fmt_1f kv.2 +:+ "%" +:+ nl in
    let head :=
      "Meeting Acoustic Analysis Summary:" +:+ nl +:+ nl +:+
      "Dominant Emotion: " +:+ dominant_emotion data +:+ nl +:+
      "Average Energy Level: " +:+ fmt_1f (avg_energy data) +:+ "/100" +:+ nl +:+
      "Silence Percentage: " +:+ fmt_1f (silence_pct data) +:+ "%" +:+ nl +:+
      "Participation Rate: " +:+ fmt_1f (participation data) +:+ "%" +:+ nl +:+
      "Volatility Score: " +:+ fmt_1f (volatility data) +:+ "/10" +:+ nl +:+
      "Psychological Safety Risk: " +:+ psych_risk data +:+ nl +:+ nl +:+
      "Emotion Distribution:" +:+ nl in
    _build_prompt data
    = head
      +:+ foldr (λ kv rest, line kv +:+ rest) EmptyString (distribution data)
      +:+ nl +:+
      "Generate 4-5 specific, actionable suggestions for the meeting leader based on these acoustic patterns." ∧
    ∀ kv, kv ∈ distribution data → contains (line kv) (_build_prompt data) = true.
Proof.
  intros num F data line head.
  assert (_build_prompt data
          = head
            +:+ foldr (λ kv rest, line kv +:+ rest) EmptyString (distribution data)
            +:+ nl +:+
            "Generate 4-5 specific, actionable suggestions for the meeting leader based on these acoustic patterns.")
    as Hprompt.
  { change (_build_prompt data)
      with (foldl (λ acc kv, acc +:+ line kv) head (distribution data)
            +:+ nl +:+
            "Generate 4-5 specific, actionable suggestions for the meeting leader based on these acoustic patterns.").
    rewrite (foldl_append line (distribution data) head).
    by rewrite string_app_assoc. }
  split; [exact Hprompt|].
  intros kv Hkv. apply list_elem_of_split in Hkv as (before & after & Hsplit).
  apply contains_substring. rewrite Hprompt, Hsplit, foldr_append_split.
  eexists (head +:+ foldr (λ kv rest, line kv +:+ rest) EmptyString before), _.
  rewrite !string_app_assoc. reflexivity.
Qed.

(** ** The timeline table of the PDF report *)

Section TimelineFacts.
Context {num : Type} `{PyFloat num}.

(** [every_nth step skip l] holds the elements at the indices [skip],
    [skip + step], [skip + 2 step], ... of [l]. *)
Lemma every_nth_lookup {A} (step : nat) (l : list A) :
  1 ≤ step →
  ∀ skip i, every_nth step skip l !! i = l !! (skip + i * step).
Proof.
  intros Hstep. induction l as [|x rest IH]; intros skip i; [done|].
  destruct skip as [|k]; simpl.
  - destruct i as [|i]; [done|]. simpl. rewrite IH.
    replace (step + i * step) with (S (step - 1 + i * step)) by lia. done.
  - by rewrite IH.
Qed.

Lemma every_nth_length {A} (step : nat) (l : list A) :
  1 ≤ step →
  List.length l ≤ step * List.length (every_nth step 0 l) ∧
  step * List.length (every_nth step 0 l) < List.length l + step.
Proof.
  intros Hstep. remember (List.length (every_nth step 0 l)) as rows eqn:Hrows. split.
  - assert (every_nth step 0 l !! rows = None) as Hnone
      by (apply lookup_ge_None; lia).
    rewrite every_nth_lookup in Hnone by done.
    apply lookup_ge_None in Hnone. lia.
  - destruct rows as [|c]; [lia|].
    assert (is_Some (every_nth step 0 l !! c)) as Hsome
      by (apply lookup_lt_is_Some; lia).
    rewrite every_nth_lookup in Hsome by done.
    apply lookup_lt_is_Some in Hsome. lia.
Qed.

End TimelineFacts.

(** Property X20.  The timeline table of the PDF report samples the timeline
    every sixth point, starting with the first: besides its heading it has
    one row for each of the points 0, 6, 12, ... and no other, so
    [ceil(n / 6)] rows for [n] points, and row [i] shows the time of point
    [6 i] as minutes and seconds, its category with the emoji stripped, and
    its energy with one decimal. *)
Theorem timeline_table_samples_every_sixth_point :
  ∀ (num : Type) (F : PyFloat num) (self : ReportGenerator num),
    ∃ rows,
      Table (["Time"; "Emotion"; "Energy"] :: rows) [1%Q; 3.5%Q; 1%Q] ∈ pdf_story self ∧
      List.length (timeline (results self)) ≤ 6 * List.length rows ∧
      6 * List.length rows < List.length (timeline (results self)) + 6 ∧
      ∀ i, rows !! i
           = (λ point, [format_time (time point); strip_emoji (category point);
                        fmt_1f (energy point)])
             <$> timeline (results self) !! (6 * i).
Proof.
  intros num F self.
  exists (map (λ point, [format_time (time point); strip_emoji (category point);
                         fmt_1f (energy point)])
              (every_nth 6 0 (timeline (results self)))).
  split; [|split; [|split]].
  - unfold pdf_story. rewrite !elem_of_app. right. right.
    do 6 apply list_elem_of_further. apply list_elem_of_here.
  - rewrite length_map. apply every_nth_length. lia.
  - rewrite length_map. apply every_nth_length. lia.
  - intros i. rewrite list_lookup_fmap, every_nth_lookup by lia.
    by rewrite Nat.mul_comm.
Qed.

(** ** What the reports keep of a result *)

Section ExportFacts.
Context {num : Type} `{PyFloat num}.

Lemma map_point_json_inj (t1 t2 : list (TimelinePoint num)) :
  map point_json t1 = map point_json t2 → t1 = t2.
Proof.
  revert t2. induction t1 as [|[a b c d] t1 IH]; intros [|[a' b' c' d'] t2] Heq;
    try discriminate; [done|].
  injection Heq as -> -> -> -> Hrest. by rewrite (IH _ Hrest).
Qed.

Lemma map_distribution_inj (d1 d2 : list (string * num)) :
  map (λ kv, (kv.1, @JFloat num kv.2)) d1 = map (λ kv, (kv.1, JFloat kv.2)) d2 → d1 = d2.
Proof.
  revert d2. induction d1 as [|[k v] d1 IH]; intros [|[k' v'] d2] Heq;
    try discriminate; [done|].
  simpl in Heq. injection Heq as -> -> Hrest. by rewrite (IH _ Hrest).
Qed.

Lemma summary_json_inj (s1 s2 : Summary num) :
  summary_json s1 = summary_json s2 → s1 = s2.
Proof.
  destruct s1, s2. unfold summary_json. simpl.
  intros [= -> -> -> -> -> -> Hd]. by rewrite (map_distribution_inj _ _ Hd).
Qed.

End ExportFacts.

(** Property X21.  The JSON report loses nothing of what it exports: two
    reports are equal only if they were made for the same session id at the
    same clock reading from results with the same duration, the same
    summary, the same timeline, the same clusters and the same suggestions,
    where absent clusters count as the empty object and absent suggestions
    as the empty text. *)
Theorem json_report_is_lossless :
  ∀ (num : Type) (F : PyFloat num) (r1 r2 : AnalysisResult num)
    (sid1 sid2 now1 now2 : string),
    toJson now1 r1 sid1 = toJson now2 r2 sid2 →
    sid1 = sid2 ∧ now1 = now2 ∧
    duration r1 = duration r2 ∧
    summary r1 = summary r2 ∧
    timeline r1 = timeline r2 ∧
    default (JDict []) (clusters r1) = default (JDict []) (clusters r2) ∧
    default EmptyString (suggestions r1) = default EmptyString (suggestions r2).
Proof.
  intros num F r1 r2 sid1 sid2 now1 now2.
  unfold toJson, generate_json_report, new. simpl.
  intros [= Hsid Hnow Hduration Hdominant Henergy Hsilence Hpart Hvol Hrisk
              Hdistribution Htimeline Hclusters Hsuggestions].
  repeat split; try done.
  - apply summary_json_inj. unfold summary_json.
    by rewrite Hdominant, Henergy, Hsilence, Hpart, Hvol, Hrisk, Hdistribution.
  - by apply map_point_json_inj.
Qed.

(** The small result, and the same result with its clusters and suggestions
    present but empty: the reports are the same, and so is everything the
    report holds. *)
Lemma json_report_is_lossless_witness :
  let explicit :=
    {| duration := duration small_result; timeline := timeline small_result;
       summary := summary small_result; clusters := Some (JDict []);
       suggestions := Some EmptyString |} in
  toJson "2024-05-01 10:00:00" small_result recording
  = toJson "2024-05-01 10:00:00" explicit recording ∧
  timeline small_result = timeline explicit ∧
  default EmptyString (suggestions small_result) = EmptyString.
Proof.
  cbv zeta. split; [reflexivity|].
  pose proof (json_report_is_lossless Z tenths_float small_result
                {| duration := duration small_result; timeline := timeline small_result;
                   summary := summary small_result; clusters := Some (JDict []);
                   suggestions := Some EmptyString |}
                recording recording "2024-05-01 10:00:00" "2024-05-01 10:00:00"
                eq_refl) as (_ & _ & _ & _ & Htimeline & _ & Hsuggestions).
  split; [exact Htimeline | exact Hsuggestions].
Defined.

(** Property X22.  The PDF report shows less than the result holds: its story
    is the same for two results that agree on the duration, the summary, the
    suggestions and, at every sixth point of the timeline, on the time, the
    category and the energy.  The clusters, the raw emotion of the points
    and the points in between never reach the PDF. *)
Theorem pdf_report_reads_a_part_of_the_result :
  ∀ (num : Type) (F : PyFloat num) (r1 r2 : AnalysisResult num)
    (sid now : string),
    duration r1 = duration r2 →
    summary r1 = summary r2 →
    suggestions r1 = suggestions r2 →
    map (λ point, (time point, category point, energy point))
        (every_nth 6 0 (timeline r1))
    = map (λ point, (time point, category point, energy point))
          (every_nth 6 0 (timeline r2)) →
    pdf_story (new r1 sid now) = pdf_story (new r2 sid now).
Proof.
  intros num F r1 r2 sid now Hduration Hsummary Hsuggestions Hpoints.
  unfold pdf_story, new. simpl. rewrite Hduration, Hsummary, Hsuggestions.
  assert (map (λ point, [format_time (time point); strip_emoji (category point);
                         fmt_1f (energy point)])
              (every_nth 6 0 (timeline r1))
          = map (λ point, [format_time (time point); strip_emoji (category point);
                           fmt_1f (energy point)])
                (every_nth 6 0 (timeline r2))) as ->; [|done].
  revert Hpoints. generalize (every_nth 6 0 (timeline r1)) (every_nth 6 0 (timeline r2)).
  intros l1. induction l1 as [|p1 l1 IH]; intros [|p2 l2] Heq; try discriminate; [done|].
  simpl in Heq. injection Heq as Htime Hcategory Henergy Hrest.
  simpl. by rewrite Htime, Hcategory, Henergy, (IH _ Hrest).
Qed.

(** The small result and the same analysis with clusters, another raw
    emotion and a second point. *)
Lemma pdf_report_reads_a_part_of_the_result_witness :
  pdf_story (new small_result recording "2024-05-01 10:00:00")
  = pdf_story
      (new {| duration := 100%Z;
              timeline := [ {| time := 0%Z; energy := 55%Z; emotion_raw := "calm";
                               category := "😐 Neutral" |};
                            {| time := 50%Z; energy := 90%Z; emotion_raw := "angry";
                               category := "🔥 Stressed/Tense" |} ];
              summary := neutral_summary;
              clusters := Some (JDict [("k", JInt 3)]);
              suggestions := None |}
           recording "2024-05-01 10:00:00").
Proof.
  exact (pdf_report_reads_a_part_of_the_result Z tenths_float small_result _
           recording "2024-05-01 10:00:00" eq_refl eq_refl eq_refl eq_refl).
Defined.

(** ** Stripping emoji *)

Section UnicodeFacts.
Import Unicode.
Local Open Scope Z_scope.

Lemma byte_range c : 0 ≤ byte c < 256.
Proof. unfold byte. pose proof (nat_ascii_bounded c). lia. Qed.

Lemma byte_chr b : 0 ≤ b < 256 → byte (chr b) = b.
Proof.
  intros Hb. unfold byte, chr. rewrite nat_ascii_embedding by lia. lia.
Qed.

Lemma land_low (w x : Z) : 0 ≤ w → Z.land x (Z.ones w) = x mod 2 ^ w.
Proof. intros Hw. by apply Z.land_ones. Qed.

Lemma low6_range c : 0 ≤ low6 c < 64.
Proof.
  unfold low6. change 63 with (Z.ones 6). rewrite land_low by lia.
  change (2 ^ 6) with 64. apply Z.mod_pos_bound. lia.
Qed.

Lemma low6_cont x : low6 (cont x) = x mod 64.
Proof.
  unfold low6, cont. change 63 with (Z.ones 6). rewrite !land_low by lia.
  change (2 ^ 6) with 64.
  pose proof (Z.mod_pos_bound x 64 ltac:(lia)).
  rewrite byte_chr by lia.
  rewrite <- (Z.add_mod_idemp_l 128 _ 64) by lia.
  change (128 mod 64) with 0. rewrite Z.add_0_l. apply Z.mod_mod. lia.
Qed.

Lemma lead_bits (w base x : Z) :
  0 ≤ w → base mod 2 ^ w = 0 → 0 ≤ x < 2 ^ w →
  Z.land (base + x) (Z.ones w) = x.
Proof.
  intros Hw Hbase Hx. rewrite land_low by done.
  rewrite <- (Z.add_mod_idemp_l base x) by lia.
  rewrite Hbase, Z.add_0_l. by apply Z.mod_small.
Qed.

(** The four shapes of a UTF-8 sequence, as [decode] reads them. *)
Lemma decode_1 c0 rest :
  byte c0 < 128 → decode (String c0 rest) = byte c0 :: decode rest.
Proof. intros Hb. cbn [decode]. cbv zeta. by rewrite (proj2 (Z.ltb_lt _ _) Hb). Qed.

Lemma decode_2 c0 c1 rest :
  128 ≤ byte c0 < 224 →
  decode (String c0 (String c1 rest))
  = Z.shiftl (Z.land (byte c0) 31) 6 + low6 c1 :: decode rest.
Proof.
  intros Hb. cbn [decode]. cbv zeta.
  rewrite (proj2 (Z.ltb_ge _ _)) by lia.
  by rewrite (proj2 (Z.ltb_lt _ _)) by lia.
Qed.

Lemma decode_3 c0 c1 c2 rest :
  224 ≤ byte c0 < 240 →
  decode (String c0 (String c1 (String c2 rest)))
  = Z.shiftl (Z.land (byte c0) 15) 12 + Z.shiftl (low6 c1) 6 + low6 c2 :: decode rest.
Proof.
  intros Hb. cbn [decode]. cbv zeta.
  rewrite (proj2 (Z.ltb_ge (byte c0) 128)) by lia.
  rewrite (proj2 (Z.ltb_ge (byte c0) 224)) by lia.
  by rewrite (proj2 (Z.ltb_lt _ _)) by lia.
Qed.

Lemma decode_4 c0 c1 c2 c3 rest :
  240 ≤ byte c0 →
  decode (String c0 (String c1 (String c2 (String c3 rest))))
  = Z.shiftl (Z.land (byte c0) 7) 18 + Z.shiftl (low6 c1) 12
    + Z.shiftl (low6 c2) 6 + low6 c3 :: decode rest.
Proof.
  intros Hb. cbn [decode]. cbv zeta.
  rewrite (proj2 (Z.ltb_ge (byte c0) 128)) by lia.
  rewrite (proj2 (Z.ltb_ge (byte c0) 224)) by lia.
  by rewrite (proj2 (Z.ltb_ge (byte c0) 240)) by lia.
Qed.

(** Decoding reads back what [encode_point] wrote. *)
Lemma decode_encode_point cp rest :
  0 ≤ cp < 2097152 →
  decode (encode_point cp +:+ rest) = cp :: decode rest.
Proof.
  intros Hcp. unfold encode_point.
  rewrite !Z.shiftr_div_pow2 by lia.
  change (2 ^ 6) with 64. change (2 ^ 12) with 4096. change (2 ^ 18) with 262144.
  destruct (Z.ltb_spec cp 128) as [H1|H1].
  { change (decode (String (chr cp) rest) = cp :: decode rest).
    rewrite decode_1 by (rewrite byte_chr; lia). by rewrite byte_chr by lia. }
  destruct (Z.ltb_spec cp 2048) as [H2|H2].
  { change (decode (String (chr (192 + cp / 64)) (String (cont cp) rest))
            = cp :: decode rest).
    assert (0 ≤ cp / 64 < 32) as Hq by (split; [apply Z.div_pos | apply Z.div_lt_upper_bound]; lia).
    rewrite decode_2 by (rewrite byte_chr; lia).
    rewrite byte_chr, low6_cont by lia.
    change 31 with (Z.ones 5). rewrite (lead_bits 5 192) by (done || lia).
    rewrite Z.shiftl_mul_pow2 by lia. change (2 ^ 6) with 64.
    pose proof (Z.div_mod cp 64 ltac:(lia)). f_equal. lia. }
  destruct (Z.ltb_spec cp 65536) as [H3|H3].
  { change (decode (String (chr (224 + cp / 4096))
                      (String (cont (cp / 64)) (String (cont cp) rest)))
            = cp :: decode rest).
    assert (0 ≤ cp / 4096 < 16) as Hq
      by (split; [apply Z.div_pos | apply Z.div_lt_upper_bound]; lia).
    rewrite decode_3 by (rewrite byte_chr; lia).
    rewrite byte_chr, !low6_cont by lia.
    change 15 with (Z.ones 4). rewrite (lead_bits 4 224) by (done || lia).
    rewrite !Z.shiftl_mul_pow2 by lia. change (2 ^ 6) with 64. change (2 ^ 12) with 4096.
    pose proof (Z.div_mod cp 64 ltac:(lia)).
    pose proof (Z.div_mod (cp / 64) 64 ltac:(lia)).
    assert (cp / 64 / 64 = cp / 4096) as Hdd by (rewrite Z.div_div by lia; done).
    f_equal. lia. }
  change (decode (String (chr (240 + cp / 262144))
                    (String (cont (cp / 4096))
                       (String (cont (cp / 64)) (String (cont cp) rest))))
          = cp :: decode rest).
  assert (0 ≤ cp / 262144 < 8) as Hq
    by (split; [apply Z.div_pos | apply Z.div_lt_upper_bound]; lia).
  rewrite decode_4 by (rewrite byte_chr; lia).
  rewrite byte_chr, !low6_cont by lia.
  change 7 with (Z.ones 3). rewrite (lead_bits 3 240) by (done || lia).
  rewrite !Z.shiftl_mul_pow2 by lia.
  change (2 ^ 6) with 64. change (2 ^ 12) with 4096. change (2 ^ 18) with 262144.
  pose proof (Z.div_mod cp 64 ltac:(lia)).
  pose proof (Z.div_mod (cp / 64) 64 ltac:(lia)).
  pose proof (Z.div_mod (cp / 4096) 64 ltac:(lia)).
  assert (cp / 64 / 64 = cp / 4096) as Hdd by (rewrite Z.div_div by lia; done).
  assert (cp / 4096 / 64 = cp / 262144) as Hddd by (rewrite Z.div_div by lia; done).
  f_equal. lia.
Qed.

Lemma decode_encode (cps : list Z) :
  Forall (λ cp, 0 ≤ cp < 2097152) cps → decode (encode cps) = cps.
Proof.
  induction 1 as [|cp cps Hcp _ IH]; [done|].
  change (encode (cp :: cps)) with (encode_point cp +:+ encode cps).
  by rewrite decode_encode_point, IH.
Qed.

(** Every value [decode] produces fits in 21 bits. *)
Lemma decode_range_bounded (n : nat) (s : string) :
  (String.length s ≤ n)%nat → Forall (λ cp, 0 ≤ cp < 2097152) (decode s).
Proof.
  revert s. induction n as [|n IH]; intros s Hn.
  { destruct s; [constructor | simpl in Hn; lia]. }
  destruct s as [|c0 rest]; [constructor|].
  simpl in Hn. pose proof (byte_range c0) as Hb0.
  assert (∀ w x, 0 ≤ w → 0 ≤ Z.land x (Z.ones w) < 2 ^ w) as Hland.
  { intros w x Hw. rewrite land_low by done. apply Z.mod_pos_bound. lia. }
  destruct (Z.ltb_spec (byte c0) 128) as [H1|H1].
  { rewrite decode_1 by done. constructor; [lia | apply IH; lia]. }
  destruct rest as [|c1 r1].
  { cbn [decode]. cbv zeta. rewrite (proj2 (Z.ltb_ge _ _)) by lia.
    constructor; [lia | constructor]. }
  simpl in Hn. pose proof (low6_range c1).
  destruct (Z.ltb_spec (byte c0) 224) as [H2|H2].
  { rewrite decode_2 by lia. constructor; [|apply IH; lia].
    pose proof (Hland 5 (byte c0) ltac:(lia)) as Hl. change (Z.ones 5) with 31 in Hl.
    change (2 ^ 5) with 32 in Hl.
    rewrite Z.shiftl_mul_pow2 by lia. change (2 ^ 6) with 64. lia. }
  destruct r1 as [|c2 r2].
  { cbn [decode]. cbv zeta. rewrite (proj2 (Z.ltb_ge _ _)) by lia.
    rewrite (proj2 (Z.ltb_ge (byte c0) 224)) by lia.
    constructor; [lia | constructor]. }
  simpl in Hn. pose proof (low6_range c2).
  destruct (Z.ltb_spec (byte c0) 240) as [H3|H3].
  { rewrite decode_3 by lia. constructor; [|apply IH; lia].
    pose proof (Hland 4 (byte c0) ltac:(lia)) as Hl. change (Z.ones 4) with 15 in Hl.
    change (2 ^ 4) with 16 in Hl.
    rewrite !Z.shiftl_mul_pow2 by lia. change (2 ^ 6) with 64. change (2 ^ 12) with 4096.
    lia. }
  destruct r2 as [|c3 r3].
  { cbn [decode]. cbv zeta. rewrite (proj2 (Z.ltb_ge _ _)) by lia.
    rewrite (proj2 (Z.ltb_ge (byte c0) 224)) by lia.
    rewrite (proj2 (Z.ltb_ge (byte c0) 240)) by lia.
    constructor; [lia | constructor]. }
  simpl in Hn. pose proof (low6_range c3).
  rewrite decode_4 by lia. constructor; [|apply IH; lia].
  pose proof (Hland 3 (byte c0) ltac:(lia)) as Hl. change (Z.ones 3) with 7 in Hl.
  change (2 ^ 3) with 8 in Hl.
  rewrite !Z.shiftl_mul_pow2 by lia.
  change (2 ^ 6) with 64. change (2 ^ 12) with 4096. change (2 ^ 18) with 262144.
  lia.
Qed.

Lemma decode_range (s : string) : Forall (λ cp, 0 ≤ cp < 2097152) (decode s).
Proof. by apply (decode_range_bounded (String.length s)). Qed.

(** *** [str.strip] *)

Lemma lstrip_split (l : list Z) :
  ∃ pre, l = pre ++ lstrip l ∧ Forall (λ cp, is_space cp = true) pre.
Proof.
  induction l as [|x l (pre & Hl & Hpre)]; [by exists []|].
  simpl. destruct (is_space x) eqn:Hx.
  - exists (x :: pre). split; [by rewrite Hl at 1 | by constructor].
  - by exists [].
Qed.

Lemma lstrip_head (l : list Z) cp : head (lstrip l) = Some cp → is_space cp = false.
Proof.
  induction l as [|x l IH]; [done|]. simpl.
  destruct (is_space x) eqn:Hx; [exact IH|]. simpl. by intros [= <-].
Qed.

Lemma lstrip_fixed (l : list Z) :
  (∀ cp, head l = Some cp → is_space cp = false) → lstrip l = l.
Proof.
  destruct l as [|x l]; [done|]. intros Hhead. simpl.
  by rewrite (Hhead x eq_refl).
Qed.

Lemma strip_split (l : list Z) :
  ∃ pre post, l = pre ++ strip l ++ post ∧
              Forall (λ cp, is_space cp = true) pre ∧
              Forall (λ cp, is_space cp = true) post.
Proof.
  unfold strip.
  destruct (lstrip_split l) as (pre & Hl & Hpre).
  destruct (lstrip_split (rev (lstrip l))) as (tail & Hr & Htail).
  exists pre, (rev tail). split; [|split; [done | by apply Forall_rev]].
  rewrite Hl at 1. f_equal.
  rewrite <- (rev_involutive (lstrip l)), Hr at 1. by rewrite rev_app_distr.
Qed.

Lemma strip_last (l : list Z) cp : last (strip l) = Some cp → is_space cp = false.
Proof.
  unfold strip. intros Hlast. apply (lstrip_head (rev (lstrip l))).
  destruct (lstrip (rev (lstrip l))) as [|x m]; [done|].
  simpl in Hlast. rewrite last_snoc in Hlast. done.
Qed.

Lemma strip_head (l : list Z) cp : head (strip l) = Some cp → is_space cp = false.
Proof.
  unfold strip. intros Hhead.
  destruct (lstrip_split (rev (lstrip l))) as (tail & Hr & _).
  set (n := lstrip (rev (lstrip l))) in *.
  assert (lstrip l = rev n ++ rev tail) as Hm.
  { rewrite <- (rev_involutive (lstrip l)), Hr. by rewrite rev_app_distr. }
  apply (lstrip_head l). rewrite Hm.
  destruct (rev n) as [|x t]; [done|]. exact Hhead.
Qed.

Lemma strip_fixed (l : list Z) :
  (∀ cp, head l = Some cp → is_space cp = false) →
  (∀ cp, last l = Some cp → is_space cp = false) →
  strip l = l.
Proof.
  intros Hhead Hlast. unfold strip. rewrite (lstrip_fixed l Hhead).
  rewrite lstrip_fixed; [apply rev_involutive|].
  intros cp Hcp. apply Hlast.
  destruct l as [|x l _] using rev_ind; [done|].
  rewrite rev_app_distr in Hcp. simpl in Hcp. injection Hcp as <-.
  by rewrite last_snoc.
Qed.

Lemma filter_fixed {A} (keep : A → bool) (l : list A) :
  Forall (λ x, keep x = true) l → List.filter keep l = l.
Proof.
  induction 1 as [|x l Hx _ IH]; [done|]. simpl. by rewrite Hx, IH.
Qed.

Lemma filter_kept {A} (keep : A → bool) (l : list A) :
  Forall (λ x, keep x = true) (List.filter keep l).
Proof.
  induction l as [|x l IH]; [constructor|]. simpl.
  destruct (keep x) eqn:Hx; [by constructor | exact IH].
Qed.

Lemma filter_range {A} (P : A → Prop) (keep : A → bool) (l : list A) :
  Forall P l → Forall P (List.filter keep l).
Proof.
  induction 1 as [|x l Hx _ IH]; [constructor|]. simpl.
  destruct (keep x); [by constructor | exact IH].
Qed.

Lemma strip_range (P : Z → Prop) (l : list Z) : Forall P l → Forall P (strip l).
Proof.
  intros Hl. destruct (strip_split l) as (pre & post & Hsplit & _).
  rewrite Hsplit in Hl. apply Forall_app in Hl as [_ Hl].
  by apply Forall_app in Hl as [Hl _].
Qed.

(** The code points [strip_emoji] keeps, and what decoding its result
    gives. *)
Lemma strip_emoji_decode (text : string) :
  decode (strip_emoji text)
  = strip (List.filter (λ cp, negb (is_emoji cp)) (decode text)).
Proof.
  unfold strip_emoji. apply decode_encode.
  apply strip_range, filter_range, decode_range.
Qed.

Lemma is_emoji_class (cp : Z) :
  is_emoji cp = true ↔
  0x24C2 ≤ cp ≤ 0x1F251 ∨ 0x1F300 ≤ cp ≤ 0x1F64F ∨ 0x1F680 ≤ cp ≤ 0x1F6FF.
Proof. unfold is_emoji. lia. Qed.

End UnicodeFacts.

(** Property X23.  [strip_emoji] only deletes: the code points of its result
    are those of the text that are outside the pattern's class, in their
    order, without the white space at both ends; the result neither starts
    nor ends with white space and holds no code point of the class, and
    stripping it again changes nothing.  The class is wider than emoji: its
    last range runs from U+24C2 to U+1F251 and so takes every code point in
    between with it, CJK ideographs, Hangul and the check mark included;
    together with the two ranges above it, the class is U+24C2 to U+1F251,
    U+1F300 to U+1F64F and U+1F680 to U+1F6FF. *)
Theorem strip_emoji_only_deletes :
  ∀ text : string,
    let kept := Unicode.decode (strip_emoji text) in
    (∃ before after,
       List.filter (λ cp, negb (is_emoji cp)) (Unicode.decode text)
       = before ++ kept ++ after ∧
       Forall (λ cp, Unicode.is_space cp = true) before ∧
       Forall (λ cp, Unicode.is_space cp = true) after) ∧
    (∀ cp, head kept = Some cp → Unicode.is_space cp = false) ∧
    (∀ cp, last kept = Some cp → Unicode.is_space cp = false) ∧
    Forall (λ cp, is_emoji cp = false) kept ∧
    strip_emoji (strip_emoji text) = strip_emoji text ∧
    (∀ cp, is_emoji cp = true ↔
           (0x24C2 ≤ cp ≤ 0x1F251 ∨ 0x1F300 ≤ cp ≤ 0x1F64F
            ∨ 0x1F680 ≤ cp ≤ 0x1F6FF)%Z).
Proof.
  intros text kept. unfold kept. rewrite strip_emoji_decode.
  set (clean := List.filter (λ cp, negb (is_emoji cp)) (Unicode.decode text)).
  assert (Forall (λ cp, is_emoji cp = false) (Unicode.strip clean)) as Hclass.
  { apply strip_range. unfold clean.
    eapply Forall_impl; [apply filter_kept|]. intros cp Hcp. simpl in Hcp.
    by apply negb_true_iff in Hcp. }
  split; [apply strip_split|].
  split; [apply strip_head|]. split; [apply strip_last|].
  split; [exact Hclass|]. split; [|apply is_emoji_class].
  unfold strip_emoji at 1. rewrite strip_emoji_decode. fold clean.
  rewrite filter_fixed.
  - rewrite strip_fixed; [done | apply strip_head | apply strip_last].
  - eapply Forall_impl; [exact Hclass|]. intros cp Hcp. simpl. by rewrite Hcp.
Qed.
